(** * Build / test output handlers of wide: diagnostics parsing and streaming

    A shallow embedding of [output/build.go] (BuildHandler) and
    [output/test.go] (GoTestHandler), and the properties of the lint
    (diagnostics) classification, the stream draining loops and the message
    sequences sent to the session's output channel. *)

From Stdlib Require Import ZArith List String Ascii Bool Lia.
From Stdlib Require Import Sorted Permutation.
Import ListNotations.

Open Scope string_scope.
Open Scope list_scope.
Open Scope Z_scope.

(** ** Go runtime faults and the result type

    Indexing or slicing out of range is a run-time panic in Go.  Partial
    operations return [result]; a panic propagates to the caller. *)

Inductive panic : Type :=
| IndexOutOfRange
| SliceOutOfRange
| TypeAssertion.      (* [v.(T)] on a value that is not a [T] *)

Inductive result (A : Type) : Type :=
| Ok (a : A)
| Panic (p : panic).

Arguments Ok {A} a.
Arguments Panic {A} p.

Definition bind {A B : Type} (r : result A) (k : A -> result B) : result B :=
  match r with
  | Ok a => k a
  | Panic p => Panic p
  end.

Notation "x <- e ;; k" := (bind e (fun x => k))
  (at level 61, e at next level, right associativity).

(** A value of type [interface{}] decoded from JSON or kept in a map, as
    far as the handlers look at it: a string, or anything else, of which
    only the JSON text is kept. *)
Inductive Json : Type :=
| JString (s : string)
| JOther (raw : string).

(** ** Go strings: byte sequences *)

Module GoString.

Definition tab : ascii := "009"%char.
Definition newline : ascii := "010"%char.
Definition colon : ascii := ":"%char.
Definition hash : ascii := "#"%char.

(** [len(s)] *)
Definition len (s : string) : Z := Z.of_nat (String.length s).

(** [s[i]] *)
Definition byteAt (s : string) (i : Z) : result ascii :=
  if (0 <=? i) && (i <? len s)
  then match String.get (Z.to_nat i) s with
       | Some c => Ok c
       | None => Panic IndexOutOfRange
       end
  else Panic IndexOutOfRange.

(** [s[lo:hi]] *)
Definition slice (s : string) (lo hi : Z) : result string :=
  if (0 <=? lo) && (lo <=? hi) && (hi <=? len s)
  then Ok (String.substring (Z.to_nat lo) (Z.to_nat (hi - lo)) s)
  else Panic SliceOutOfRange.

(** [s[lo:]] and [s[:hi]] *)
Definition sliceFrom (s : string) (lo : Z) : result string := slice s lo (len s).
Definition sliceTo (s : string) (hi : Z) : result string := slice s 0 hi.

(** [strings.HasPrefix] *)
Fixpoint HasPrefix (s prefix : string) {struct prefix} : bool :=
  match prefix, s with
  | EmptyString, _ => true
  | String _ _, EmptyString => false
  | String c p', String d s' => Ascii.eqb c d && HasPrefix s' p'
  end.

(** Position of the first occurrence of [substr] in [s]. *)
Fixpoint find (s substr : string) : option nat :=
  if HasPrefix s substr then Some O
  else match s with
       | EmptyString => None
       | String _ s' => option_map S (find s' substr)
       end.

(** [strings.Index]: the first occurrence, or -1. *)
Definition Index (s substr : string) : Z :=
  match find s substr with
  | Some n => Z.of_nat n
  | None => -1
  end.

(** [strings.Contains] *)
Definition Contains (s substr : string) : bool := 0 <=? Index s substr.

(** Whether byte [c] occurs in [s]. *)
Fixpoint occurs (c : ascii) (s : string) : bool :=
  match s with
  | EmptyString => false
  | String d s' => Ascii.eqb c d || occurs c s'
  end.

(** Whether the last byte of [s] is [c]. *)
Fixpoint endsWith (c : ascii) (s : string) : bool :=
  match s with
  | EmptyString => false
  | String d EmptyString => Ascii.eqb c d
  | String _ s' => endsWith c s'
  end.

End GoString.

(** ** Go's [int] (64 bits) and [strconv.Atoi] *)

Module Strconv.

Definition minInt : Z := - 2 ^ 63.
Definition maxInt : Z := 2 ^ 63 - 1.

(** Two's-complement wrap-around of [int] arithmetic. *)
Definition wrap (z : Z) : Z := (z + 2 ^ 63) mod 2 ^ 64 - 2 ^ 63.

Definition digitVal (c : ascii) : option Z :=
  let n := Z.of_N (N_of_ascii c) in
  if (48 <=? n) && (n <=? 57) then Some (n - 48) else None.

Fixpoint parseDigits (s : string) (acc : Z) : option Z :=
  match s with
  | EmptyString => Some acc
  | String c s' =>
      match digitVal c with
      | Some d => parseDigits s' (acc * 10 + d)
      | None => None
      end
  end.

(** [strconv.Atoi s]: an optional sign followed by one or more decimal
    digits, the value fitting [int].  [None] stands for a non-nil error
    (syntax or range). *)
Definition signOf (s : string) : bool * string :=
  match s with
  | String c r =>
      if Ascii.eqb c "-"%char then (true, r)
      else if Ascii.eqb c "+"%char then (false, r)
      else (false, s)
  | EmptyString => (false, s)
  end.

Definition Atoi (s : string) : option Z :=
  let '(neg, body) := signOf s in
  match body with
  | EmptyString => None
  | _ =>
      match parseDigits body 0 with
      | None => None
      | Some n =>
          let v := if neg then - n else n in
          if (minInt <=? v) && (v <=? maxInt) then Some v else None
      end
  end.

End Strconv.

(** ** [path/filepath] on a slash-separated system *)

Module Filepath.

Import GoString.

(** [strings.Split(s, "/")] *)
Fixpoint split (s : string) : list string :=
  match s with
  | EmptyString => [EmptyString]
  | String c s' =>
      match split s' with
      | hd :: tl =>
          if Ascii.eqb c "/"%char then EmptyString :: hd :: tl
          else String c hd :: tl
      | [] => [String c EmptyString]
      end
  end.

(** One element of the lexical cleaning; [stack] holds the kept elements,
    innermost first. *)
Definition cleanStep (rooted : bool) (stack : list string) (elem : string)
  : list string :=
  if String.eqb elem "" || String.eqb elem "." then stack
  else if String.eqb elem ".." then
    match stack with
    | top :: rest => if String.eqb top ".." then elem :: stack else rest
    | [] => if rooted then [] else [elem]
    end
  else elem :: stack.

(** [filepath.Clean] *)
Definition Clean (path : string) : string :=
  let rooted := HasPrefix path "/" in
  let body := String.concat "/" (rev (fold_left (cleanStep rooted) (split path) [])) in
  if rooted then "/" ++ body
  else if String.eqb body "" then "." else body.

(** [filepath.Join] of two elements: empty elements before the first
    non-empty one are ignored, the rest is joined with the separator and
    cleaned. *)
Definition Join (a b : string) : string :=
  if negb (String.eqb a "") then Clean (a ++ "/" ++ b)
  else if negb (String.eqb b "") then Clean b
  else "".

(** The part of [s] up to and including its last slash. *)
Fixpoint dirPart (s : string) : string :=
  match s with
  | EmptyString => EmptyString
  | String c s' =>
      if occurs "/"%char s then String c (dirPart s') else EmptyString
  end.

(** [filepath.Dir]: all but the last element, cleaned. *)
Definition Dir (path : string) : string := Clean (dirPart path).

(** [filepath.Base]: the last element, trailing slashes removed first. *)
Definition Base (path : string) : string :=
  if String.eqb path "" then "."
  else
    match filter (fun e => negb (String.eqb e "")) (split path) with
    | [] => "/"
    | e :: es => last es e
    end.

(** [filepath.ToSlash]: the identity where the separator is a slash. *)
Definition ToSlash (path : string) : string := path.

End Filepath.


(** ** The lint (diagnostics) classification of [BuildHandler]

    Lines 250-296 of [output/build.go]: the captured stderr lines of a failed
    build are turned into [Lint] records. *)

Module Lints.

Import GoString.

(** The record sent to the browser for one compiler message.  [LineNo] is
    an [int]. *)
Record Lint : Type := mkLint {
  File : string;
  LineNo : Z;
  Severity : string;
  Msg : string
}.

(** Modelled from the spec: the constant [lintSeverityError] is declared
    outside the files at hand; the specification fixes the severity of
    every diagnostic to "error". *)
Definition lintSeverityError : string := "error".

(** [xs[i]] on a slice. *)
Definition at_ {A : Type} (xs : list A) (i : Z) : result A :=
  if (0 <=? i) && (i <? Z.of_nat (List.length xs))
  then match nth_error xs (Z.to_nat i) with
       | Some x => Ok x
       | None => Panic IndexOutOfRange
       end
  else Panic IndexOutOfRange.

(** [xs[i] = x] for an index already known to be in range. *)
Fixpoint setAt {A : Type} (xs : list A) (i : nat) (x : A) : list A :=
  match xs, i with
  | [], _ => []
  | _ :: tl, O => x :: tl
  | hd :: tl, S j => hd :: setAt tl j x
  end.

Definition withMsg (l : Lint) (msg : string) : Lint :=
  mkLint (File l) (LineNo l) (Severity l) msg.

(** The line number and message of a diagnostic line, lines 273-286:
    [Ok None] is the [continue] taken when the token between the first and
    the second colon is not an integer. *)
Definition lineNoAndMsg (left : string) : result (option (Z * string)) :=
  let index := Index left ":" in
  let lineNo := 0 in
  let msg := left in
  if 0 <=? index then
    tok <- sliceTo left index ;;
    match Strconv.Atoi tok with
    | None => Ok None
    | Some lineNo =>
        msg <- sliceFrom left (index + 2) ;;
        Ok (Some (lineNo, msg))
    end
  else Ok (Some (lineNo, msg)).

(** The body of the loop over the captured lines, lines 257-296. *)
Definition lintLine (curDir line : string) (lints : list Lint)
  : result (list Lint) :=
  if (len line <? 1) || negb (Contains line ":") then Ok lints
  else
    c <- byteAt line 0 ;;
    if Ascii.eqb c tab then
      let last := Z.of_nat (List.length lints) in
      l <- at_ lints (last - 1) ;;
      let msg := (Msg l ++ line)%string in
      Ok (setAt lints (Z.to_nat (last - 1)) (withMsg l msg))
    else
      file <- sliceTo line (Index line ":") ;;
      left <- sliceFrom line (Index line ":" + 1) ;;
      r <- lineNoAndMsg left ;;
      match r with
      | None => Ok lints
      | Some (lineNo, msg) =>
          let lint :=
            mkLint (Filepath.ToSlash (Filepath.Join curDir file))
                   (Strconv.wrap (lineNo - 1))
                   lintSeverityError
                   msg in
          Ok (lints ++ [lint])
      end.

Fixpoint lintLoop (curDir : string) (lines : list string) (lints : list Lint)
  : result (list Lint) :=
  match lines with
  | [] => Ok lints
  | line :: rest =>
      lints' <- lintLine curDir line lints ;;
      lintLoop curDir rest lints'
  end.

(** The package-marker check of lines 251-253. *)
Definition skipPackageLine (lines : list string) : result (list string) :=
  first <- at_ lines 0 ;;
  c <- byteAt first 0 ;;
  if Ascii.eqb c hash then Ok (tl lines) else Ok lines.

(** The whole "lint process" of the failure branch. *)
Definition lintProcess (curDir : string) (lines : list string)
  : result (list Lint) :=
  lines' <- skipPackageLine lines ;;
  lintLoop curDir lines' [].

(** *** Shapes of raw lines, for the statements below *)

(** [line] is [path:tok:rest], the first two colons being the ones shown. *)
Definition numberedShape (line path tok rest : string) : Prop :=
  line = (path ++ ":" ++ tok ++ ":" ++ rest)%string
  /\ occurs colon path = false /\ occurs colon tok = false.

(** [line] is [path:rest] and has exactly one colon. *)
Definition singleColonShape (line path rest : string) : Prop :=
  line = (path ++ ":" ++ rest)%string
  /\ occurs colon path = false /\ occurs colon rest = false.

(** The line number a diagnostic made from [line] carries. *)
Inductive reportedLineNo (line : string) (ln : Z) : Prop :=
| numbered (path tok rest : string) (n : Z) :
    numberedShape line path tok rest ->
    Strconv.Atoi tok = Some n ->
    ln = Strconv.wrap (n - 1) ->
    (Strconv.minInt < n -> ln = n - 1) ->
    reportedLineNo line ln
| unnumbered (path rest : string) :
    singleColonShape line path rest ->
    ln = -1 ->
    reportedLineNo line ln.

(** The diagnostic [d] is the one made from the raw line [line] under
    [curDir]: the line does not start with a tab, [d] names the file given
    before the first colon of [line], and its line number is the one [line]
    reports. *)
Definition diagnosticOf (curDir line : string) (d : Lint) : Prop :=
  HasPrefix line (String tab "") = false
  /\ (exists path rest,
         line = (path ++ ":" ++ rest)%string
         /\ occurs colon path = false
         /\ File d = Filepath.ToSlash (Filepath.Join curDir path))
  /\ reportedLineNo line (LineNo d).

(** [picked] is made of elements of [all], in the order they have there. *)
Inductive subsequence {A : Type} : list A -> list A -> Prop :=
| sub_nil : subsequence [] []
| sub_skip (x : A) (picked all : list A) :
    subsequence picked all -> subsequence picked (x :: all)
| sub_keep (x : A) (picked all : list A) :
    subsequence picked all -> subsequence (x :: picked) (x :: all).

End Lints.

(** ** The session's output channel and the handlers' effects

    A handler reads the registry [session.OutputWS[sid]] each time it is
    about to send, and sends the current content of its [channelRet] map with
    [WriteJSON].  What the registry holds and whether a send succeeds is
    decided by the environment: the [k]-th read and the [k]-th send of a task
    are answered by [live k] and [sendOk k].  A guard [nil != OutputWS[sid]]
    and the fetch of the channel that follows it are one read. *)

Module Session.

Import Lints.

(** The keys the handlers put into [channelRet]. *)
Record Msg : Type := mkMsg {
  cmd : option string;
  output : option string;
  executable : option string;
  nextCmd : option (option Json);   (* the key may hold [nil] *)
  lints : option (list Lint)
}.

Definition emptyMsg : Msg := mkMsg None None None None None.

Definition withOutput (m : Msg) (s : string) : Msg :=
  mkMsg (cmd m) (Some s) (executable m) (nextCmd m) (lints m).
Definition withCmd (m : Msg) (s : string) : Msg :=
  mkMsg (Some s) (output m) (executable m) (nextCmd m) (lints m).
Definition withExecutable (m : Msg) (s : string) : Msg :=
  mkMsg (cmd m) (output m) (Some s) (nextCmd m) (lints m).
Definition withNextCmd (m : Msg) (v : option Json) : Msg :=
  mkMsg (cmd m) (output m) (executable m) (Some v) (lints m).
Definition withLints (m : Msg) (ls : list Lint) : Msg :=
  mkMsg (cmd m) (output m) (executable m) (nextCmd m) (Some ls).

(** What a task does to the outside, in order. *)
Inductive Event : Type :=
| WriteJSON (m : Msg) (ok : bool)   (* a send, and whether it returned nil *)
| Refresh
| RunGoMod (argv : list string)     (* [goModCmd.CombinedOutput()] *)
| Start (argv : list string)        (* [cmd.Start()] returned nil *)
| Wait                              (* [cmd.Wait()] returned *)
| Spawn.                            (* a [go func] statement *)

Record Registry : Type := mkRegistry {
  live : nat -> bool;
  sendOk : nat -> bool
}.

(** The state a task threads through its statements. *)
Record TaskState : Type := mkTaskState {
  reads : nat;            (* registry reads made so far *)
  sends : nat;            (* sends made so far *)
  trace : list Event;
  channelRet : Msg;
  code : Z;               (* [result.Code] *)
  forbidden : bool        (* [http.Error(w, "Forbidden", ...)] was written *)
}.

Definition initState : TaskState := mkTaskState 0 0 [] emptyMsg 0 false.

(** How a statement ends: it falls through with a value, the handler
    returns, a run-time panic unwinds it, or a loop ran out of fuel. *)
Inductive Outcome (A : Type) : Type :=
| Next (a : A)
| Returned
| Panicked (p : panic)
| OutOfFuel.

Arguments Next {A} a.
Arguments Returned {A}.
Arguments Panicked {A} p.
Arguments OutOfFuel {A}.

Definition Task (A : Type) : Type := TaskState -> Outcome A * TaskState.

Definition ret {A : Type} (a : A) : Task A := fun st => (Next a, st).

Definition seq {A B : Type} (t : Task A) (k : A -> Task B) : Task B :=
  fun st =>
    match t st with
    | (Next a, st') => k a st'
    | (Returned, st') => (Returned, st')
    | (Panicked p, st') => (Panicked p, st')
    | (OutOfFuel, st') => (OutOfFuel, st')
    end.

Definition return_ {A : Type} : Task A := fun st => (Returned, st).

Definition outOfFuel {A : Type} : Task A := fun st => (OutOfFuel, st).

Definition liftResult {A : Type} (r : result A) : Task A :=
  fun st => match r with Ok a => (Next a, st) | Panic p => (Panicked p, st) end.

Definition emit (e : Event) : Task unit :=
  fun st => (Next tt, mkTaskState (reads st) (sends st) (trace st ++ [e])
                                  (channelRet st) (code st) (forbidden st)).

Definition modify (f : Msg -> Msg) : Task unit :=
  fun st => (Next tt, mkTaskState (reads st) (sends st) (trace st)
                                  (f (channelRet st)) (code st) (forbidden st)).

(** [result.Code = -1; return] *)
Definition fail {A : Type} : Task A :=
  fun st => (Returned, mkTaskState (reads st) (sends st) (trace st)
                                   (channelRet st) (-1) (forbidden st)).

(** [if 0 != result.Code { return }] *)
Definition returnIfFailed : Task unit :=
  fun st => if code st =? 0 then (Next tt, st) else (Returned, st).

(** [http.Error(w, "Forbidden", http.StatusForbidden); return] *)
Definition forbid {A : Type} : Task A :=
  fun st => (Returned, mkTaskState (reads st) (sends st) (trace st)
                                   (channelRet st) (code st) true).

Section WithRegistry.

Variable reg : Registry.

(** [nil != session.OutputWS[sid]] *)
Definition isLive : Task bool :=
  fun st => (Next (live reg (reads st)),
             mkTaskState (S (reads st)) (sends st) (trace st)
                         (channelRet st) (code st) (forbidden st)).

(** [wsChannel.WriteJSON(&channelRet)]; the value is [nil == err]. *)
Definition writeJSON : Task bool :=
  fun st => let ok := sendOk reg (sends st) in
            (Next ok,
             mkTaskState (reads st) (S (sends st))
                         (trace st ++ [WriteJSON (channelRet st) ok])
                         (channelRet st) (code st) (forbidden st)).

(** [wsChannel.Refresh()] *)
Definition refresh : Task unit := emit Refresh.

End WithRegistry.

(** The messages a trace sent, in order. *)
Definition sent (tr : list Event) : list Msg :=
  flat_map (fun e => match e with WriteJSON m _ => [m] | _ => [] end) tr.

Definition isStart (e : Event) : bool :=
  match e with Start _ => true | _ => false end.

Definition isWait (e : Event) : bool :=
  match e with Wait => true | _ => false end.

(** A handler ran to its end: it fell through or returned. *)
Definition completed {A : Type} (o : Outcome A) : bool :=
  match o with Next _ | Returned => true | Panicked _ | OutOfFuel => false end.

End Session.

Notation "x <~ t ;; k" := (Session.seq t (fun x => k))
  (at level 61, t at next level, right associativity).
Notation "t ;;; k" := (Session.seq t (fun _ => k))
  (at level 61, right associativity).

(** ** Pipes read with [bufio.Reader.ReadString] *)

Module Bufio.

Import GoString.

(** The error a read reports once the data is exhausted. *)
Inductive readErr : Type :=
| EOF            (* [io.EOF] *)
| PathError      (* [*os.PathError], "file already closed" *)
| OtherError.

(** A pipe: the bytes the process will have written, and how it ends. *)
Record Reader : Type := mkReader {
  pending : string;
  final : readErr
}.

(** The first line of [s] with its newline, and what follows it. *)
Fixpoint cutLine (s : string) : option (string * string) :=
  match s with
  | EmptyString => None
  | String c s' =>
      if Ascii.eqb c newline then Some (String c EmptyString, s')
      else match cutLine s' with
           | Some (l, rest) => Some (String c l, rest)
           | None => None
           end
  end.

(** [r.ReadString('\n')]: the data up to and including the first newline;
    without one, the data left and the error that ended the read. *)
Definition ReadString (r : Reader) : string * option readErr * Reader :=
  match cutLine (pending r) with
  | Some (l, rest) => (l, None, mkReader rest (final r))
  | None => (pending r, Some (final r), mkReader EmptyString (final r))
  end.

(** [ioutil.ReadAll(io.MultiReader(r1, r2))], its error dropped: [r2] is
    read once [r1] has ended with [io.EOF]. *)
Definition ReadAllMulti (r1 r2 : Reader) : string :=
  match final r1 with
  | EOF => pending r1 ++ pending r2
  | _ => pending r1
  end.

End Bufio.

(** ** [BuildHandler], [output/build.go]

    The host is taken to be one where paths are separated by a slash
    ([gulu.OS.IsWindows()] is false), as in [Filepath]. *)

Module Build.

Import GoString Lints Session Bufio.

(** [strings.Replace(s, old, new, 1)] for a non-empty [old]. *)
Fixpoint replaceFirst (s old new : string) : string :=
  if HasPrefix s old
  then new ++ substring (String.length old) (String.length s - String.length old) s
  else match s with
       | EmptyString => EmptyString
       | String c s' => String c (replaceFirst s' old new)
       end.

(** [fmt.Sprint] of a slice of strings. *)
Definition Sprint (xs : list string) : string := "[" ++ String.concat " " xs ++ "]".

(** [gulu.Str.Contains(str, strs)] *)
Definition StrContains (str : string) (strs : list string) : bool :=
  existsb (String.eqb str) strs.

(** The presentation wrapper of a stderr line, line 233. *)
Definition stderrSpan (s : string) : string :=
  "<span class='stderr'>" ++ s ++ "</span>".

(** [v.(string)] on a value taken from a map: the assertion panics when
    the key is absent (the value is [nil]) or holds something else than a
    string. *)
Definition assertString (v : option Json) : result string :=
  match v with
  | Some (JString s) => Ok s
  | _ => Panic TypeAssertion
  end.

(** The decoded request and what the collaborators answer for it. *)
Record Request : Type := mkRequest {
  args : string -> option Json;   (* the decoded body: [args[key]] *)
  getPath : string -> string;     (* [file.GetPath(uid, file, pathtype)],
                                     as a function of [file] *)
  locale : string;                (* [user.Locale] *)
  buildArgs : list string         (* [user.BuildArgs(runtime.GOOS)] *)
}.

(** What the environment decides during one invocation. *)
Record World : Type := mkWorld {
  sessionIsNew : bool;            (* [httpSession.IsNew] *)
  sessionUid : option Json;       (* [httpSession.Values["uid"]] *)
  decodeOk : bool;                (* the body decodes as JSON *)
  accessDenied : bool;            (* [IsAPI(filePath) || !CanAccess(uid, filePath)] *)
  createOk : bool;                (* [os.Create] *)
  writeOk : bool;                 (* [fout.WriteString] *)
  goModExists : bool;             (* [gulu.File.IsExist(curDir/go.mod)] *)
  goModRun : list string -> string * bool;
                                  (* combined output, and [nil != err] *)
  stdoutPipeOk : bool;
  stderrPipeOk : bool;
  startOk : bool;                 (* [cmd.Start()] *)
  stdout : Reader;
  stderr : Reader;
  waitOk : bool;                  (* [nil == cmd.Wait()] *)
  registry : Registry;            (* as seen by the handling task *)
  registryOut : Registry;         (* as seen by the stdout task *)
  schedule : nat -> nat           (* the steps the stdout task takes before
                                     the [k]-th access of the handling task
                                     to the shared map *)
}.

(** *** The stdout task, lines 171-208

    The closure of the [go] statement uses the handler's own [channelRet]:
    the two tasks read and write one map, and nothing orders their
    accesses.  The task is run one step at a time, a step being what it
    does up to and including its next access to the map: from [OutIdle]
    the look-up of the channel, the read of a line and the assignment of
    line 197; from [OutHolding] the send of line 199 and the refresh of
    line 206.  An access to the map is taken to be atomic. *)

Inductive OutPhase : Type :=
| OutNotStarted       (* the [go] statement has not been reached *)
| OutIdle             (* at the head of the loop, line 175 *)
| OutHolding          (* its line is in the map, about to send, line 199 *)
| OutDone.            (* the loop was left *)

Record OutTask : Type := mkOutTask {
  outPhase : OutPhase;
  outReader : Reader;
  outReads : nat;             (* registry reads made so far *)
  outSends : nat;             (* sends made so far *)
  outLines : list string;     (* the lines assigned at line 197, in order *)
  outTrace : list Event       (* what the task did to the outside *)
}.

Definition outStep (reg : Registry) (shared : Msg) (t : OutTask)
  : Msg * OutTask :=
  match outPhase t with
  | OutIdle =>
      if negb (live reg (outReads t)) then
        (shared, mkOutTask OutDone (outReader t) (S (outReads t)) (outSends t)
                           (outLines t) (outTrace t))
      else
        let '(line, err, r') := ReadString (outReader t) in
        match err with
        | Some _ =>            (* EOF, PathError or any other error *)
            (shared, mkOutTask OutDone r' (S (outReads t)) (outSends t)
                               (outLines t) (outTrace t))
        | None =>
            (withOutput shared line,
             mkOutTask OutHolding r' (S (outReads t)) (outSends t)
                       (outLines t ++ [line]) (outTrace t))
        end
  | OutHolding =>
      let ok := sendOk reg (outSends t) in
      (shared,
       mkOutTask (if ok then OutIdle else OutDone) (outReader t) (outReads t)
                 (S (outSends t)) (outLines t)
                 (outTrace t ++ WriteJSON shared ok
                             :: (if ok then [Refresh] else [])))
  | OutNotStarted | OutDone => (shared, t)
  end.

(** [n] steps in a row. *)
Fixpoint runOut (n : nat) (reg : Registry) (shared : Msg) (t : OutTask)
  : Msg * OutTask :=
  match n with
  | O => (shared, t)
  | S n' => let r := outStep reg shared t in runOut n' reg (fst r) (snd r)
  end.

(** *** The two tasks together

    The stdout task touches nothing but the shared map, its pipe and the
    channel.  Letting it take some steps right before each access of the
    handling task to the map, and letting it run to its end once the
    handling task has ended, therefore gives every order in which the
    accesses of the two tasks to the map can follow one another; how
    many steps it takes each time is for the environment ([schedule]) to
    say. *)

Record BuildState : Type := mkBuildState {
  handler : TaskState;   (* the handling task; its [channelRet] is the map
                            the two tasks share *)
  out : OutTask;         (* the stdout task *)
  yields : nat           (* accesses of the handling task to the shared
                            map since the [go] statement *)
}.

Definition BTask (A : Type) : Type := BuildState -> Outcome A * BuildState.

Definition bret {A : Type} (a : A) : BTask A := fun s => (Next a, s).

Definition bseq {A B : Type} (t : BTask A) (k : A -> BTask B) : BTask B :=
  fun s =>
    match t s with
    | (Next a, s') => k a s'
    | (Returned, s') => (Returned, s')
    | (Panicked p, s') => (Panicked p, s')
    | (OutOfFuel, s') => (OutOfFuel, s')
    end.

(** A statement of the handling task that the stdout task cannot tell
    from any other. *)
Definition own {A : Type} (t : Task A) : BTask A :=
  fun s =>
    match t (handler s) with
    | (o, h) => (o, mkBuildState h (out s) (yields s))
    end.

Definition setChannelRet (h : TaskState) (m : Msg) : TaskState :=
  mkTaskState (reads h) (sends h) (trace h) m (code h) (forbidden h).

Section Tasks.

Variable w : World.

(** Before an access of the handling task to the shared map the stdout
    task takes the steps the schedule gives it. *)
Definition yield : BTask unit :=
  fun s =>
    let r := runOut (schedule w (yields s)) (registryOut w)
                    (channelRet (handler s)) (out s) in
    (Next tt,
     mkBuildState (setChannelRet (handler s) (fst r)) (snd r) (S (yields s))).

(** A statement of the handling task that reads or writes the shared map,
    after the [go] statement. *)
Definition shared {A : Type} (t : Task A) : BTask A :=
  bseq yield (fun _ => own t).

(** The [go] statement of line 171. *)
Definition startStdout : BTask unit :=
  fun s =>
    (Next tt,
     mkBuildState (handler s) (mkOutTask OutIdle (stdout w) 0 0 [] [])
                  (yields s)).

End Tasks.

Notation "x <~~ t ;; k" := (bseq t (fun x => k))
  (at level 61, t at next level, right associativity).
Notation "t ;;~ k" := (bseq t (fun _ => k))
  (at level 61, right associativity).

Section Handler.

(** [i18n.Get(locale, key)] and [parsePath(curDir, line)] are declared
    outside the files at hand.  [i18n] stands for the look-up together
    with the assertion [.(string)] made on its result at each use: the
    message catalogue is taken to hold a string for every key asked for. *)
Variable i18n : string -> string -> string.
Variable parsePath : string -> string -> string.

(** The stderr loop of the handling task, lines 212-242: the value is
    the slice [lines]. *)
Fixpoint drainStderr (w : World) (fuel : nat) (curDir : string)
         (r : Reader) (lines : list string) : BTask (list string) :=
  match fuel with
  | O => own outOfFuel
  | S fuel' =>
      present <~~ own (isLive (registry w)) ;;
      if negb present then bret lines
      else
        let '(line, err, r') := ReadString r in
        match err with
        | Some EOF => bret lines
        | _ =>
            let lines := lines ++ [line] in
            match err with
            | Some _ => bret lines
            | None =>
                let errOutWithPath := parsePath curDir line in
                shared w (modify (fun m =>
                            withOutput m (stderrSpan errOutWithPath))) ;;~
                ok <~~ shared w (writeJSON (registry w)) ;;
                if negb ok then bret lines
                else own refresh ;;~ drainStderr w fuel' curDir r' lines
            end
        end
  end.

(** Lines 244-299: [cmd.Wait()] and the two branches on its result. *)
Definition resolve (w : World) (req : Request) (curDir : string)
           (lines : list string) : BTask unit :=
  own (emit Wait) ;;~
  if waitOk w then
    shared w (modify (fun m => withNextCmd m (args req "nextCmd"))) ;;~
    shared w (modify (fun m => withOutput m
                ("<span class='build-succ'>" ++ i18n (locale req) "build-succ"
                 ++ "</span>" ++ String newline "")))
  else
    shared w (modify (fun m => withOutput m
                ("<span class='build-error'>" ++ i18n (locale req) "build-error"
                 ++ "</span>" ++ String newline ""))) ;;~
    lints <~~ own (liftResult (lintProcess curDir lines)) ;;
    shared w (modify (fun m => withLints m lints)).

(** Lines 102-118: module preparation. *)
Definition prepareModule (w : World) (curDir : string) : Task unit :=
  let argv :=
    if negb (goModExists w)
    then ["go"; "mod"; "init"; Filepath.Base curDir]
    else ["go"; "mod"; "tidy"] in
  emit (RunGoMod argv) ;;;
  let '(out, failed) := goModRun w argv in
  if failed && Contains out "go.mod already exists" then fail
  else ret tt.

(** The handling task, lines 38-311. *)
Definition BuildHandler (w : World) (req : Request) : BTask unit :=
  let reg := registry w in
  if sessionIsNew w then own forbid else
  uid <~~ own (liftResult (assertString (sessionUid w))) ;;
  if negb (decodeOk w) then own fail else
  sid <~~ own (liftResult (assertString (args req "sid"))) ;;
  file <~~ own (liftResult (assertString (args req "file"))) ;;
  let filePath := getPath req file in
  if accessDenied w then own forbid else
  let curDir := Filepath.Dir filePath in
  if negb (createOk w) then own fail else
  code <~~ own (liftResult (assertString (args req "code"))) ;;
  if negb (writeOk w) then own fail else
  present <~~ own (isLive reg) ;;
  (if present then
     let msg := i18n (locale req) "start-build" in
     let msg := replaceFirst msg "build]"
                  ("build " ++ Sprint (buildArgs req) ++ "]") in
     own (modify (fun m => withOutput m
                    ("<span class='start-build'>" ++ msg ++ "</span>"
                     ++ String newline ""))) ;;~
     own (modify (fun m => withCmd m "start-build")) ;;~
     _ <~~ own (writeJSON reg) ;;
     own refresh
   else bret tt) ;;~
  own (prepareModule w curDir) ;;~
  let goBuildArgs := "build" :: buildArgs req in
  let goBuildArgs :=
    if negb (StrContains "-i" goBuildArgs) then goBuildArgs ++ ["-i"]
    else goBuildArgs in
  let suffix := "" in          (* [".exe"] on Windows only *)
  let executable := (Filepath.Base curDir ++ suffix)%string in
  let executable := Filepath.Join curDir executable in
  if negb (stdoutPipeOk w) then own fail else
  if negb (stderrPipeOk w) then own fail else
  own returnIfFailed ;;~
  if negb (startOk w) then own fail else
  own (emit (Start ("go" :: goBuildArgs))) ;;~
  own (modify (fun m => withCmd m "build")) ;;~
  own (modify (fun m => withExecutable m executable)) ;;~
  own (emit Spawn) ;;~
  startStdout w ;;~
  lines <~~ drainStderr w (S (String.length (pending (stderr w)))) curDir
                        (stderr w) [] ;;
  resolve w req curDir lines ;;~
  present <~~ own (isLive reg) ;;
  if negb present then own return_
  else
    _ <~~ shared w (writeJSON reg) ;;
    own refresh.

(** The state before the handler starts. *)
Definition initBuild (w : World) : BuildState :=
  mkBuildState initState (mkOutTask OutNotStarted (stdout w) 0 0 [] []) 0.

(** Once the handler has ended, the stdout task goes on to the end of
    its loop. *)
Definition finishOut (w : World) (s : BuildState) : BuildState :=
  let r := runOut (2 * S (String.length (pending (outReader (out s)))))
                  (registryOut w) (channelRet (handler s)) (out s) in
  mkBuildState (setChannelRet (handler s) (fst r)) (snd r) (yields s).

(** One invocation, both tasks. *)
Definition runBuildTasks (w : World) (req : Request)
  : Outcome unit * BuildState :=
  let r := BuildHandler w req (initBuild w) in
  (fst r, finishOut w (snd r)).

(** One invocation, as far as the handling task goes. *)
Definition runBuild (w : World) (req : Request) : Outcome unit * TaskState :=
  let r := BuildHandler w req (initBuild w) in
  (fst r, handler (snd r)).

End Handler.

End Build.

(** ** [GoTestHandler], [output/test.go] *)

Module Test.

Import GoString Session Bufio.

Record Request : Type := mkRequest {
  filePath : string;              (* the answer of [file.GetPath] *)
  locale : string                 (* [conf.GetUser(uid).Locale] *)
}.

Record World : Type := mkWorld {
  sessionIsNew : bool;
  decodeOk : bool;
  stdoutPipeOk : bool;
  stderrPipeOk : bool;
  startOk : bool;                 (* [cmd.Start()] *)
  stdout : Reader;
  stderr : Reader;
  success : bool;                 (* [cmd.ProcessState.Success()] *)
  registry : Registry
}.

Section Handler.

Variable i18n : string -> string -> string.

Definition testArgv : list string := ["go"; "test"; "-v"].

(** The handler itself, lines 36-116, up to the [go] statement. *)
Definition GoTestHandler (w : World) (req : Request) : Task unit :=
  let reg := registry w in
  if sessionIsNew w then forbid else
  if negb (decodeOk w) then fail else
  if negb (stdoutPipeOk w) then fail else
  if negb (stderrPipeOk w) then fail else
  returnIfFailed ;;;
  present <~ isLive reg ;;
  (if present then
     modify (fun m => withOutput m
               ("<span class='start-test'>" ++ i18n (locale req) "start-test"
                ++ "</span>" ++ String newline "")) ;;;
     modify (fun m => withCmd m "start-test") ;;;
     ok <~ writeJSON reg ;;
     if negb ok then return_
     else refresh
   else ret tt) ;;;
  if negb (startOk w) then fail else
  emit (Start testArgv) ;;;
  emit Spawn.

(** The banners of lines 134 and 138. *)
Definition failBanner (req : Request) : string :=
  "<span class='test-error'>" ++ i18n (locale req) "test-error"
  ++ "</span>" ++ String newline "".

Definition passBanner (req : Request) : string :=
  "<span class='test-succ'>" ++ i18n (locale req) "test-succ"
  ++ "</span>" ++ String newline "".

(** The background task, lines 117-151, with a map of its own. *)
Definition testTask (w : World) (req : Request) : Task unit :=
  let reg := registry w in
  modify (fun _ => emptyMsg) ;;;
  modify (fun m => withCmd m "go test") ;;;
  let buf := ReadAllMulti (stdout w) (stderr w) in
  emit Wait ;;;
  (if negb (success w) then
     modify (fun m => withOutput m (failBanner req ++ buf))
   else
     modify (fun m => withOutput m (passBanner req ++ buf))) ;;;
  present <~ isLive reg ;;
  if present then
    _ <~ writeJSON reg ;;
    refresh
  else ret tt.

(** One invocation: the handler, then the task it spawned, if any. *)
Definition runTest (w : World) (req : Request) : Outcome unit * TaskState :=
  match GoTestHandler w req initState with
  | (Next _, st) => testTask w req st
  | other => other
  end.

(** The completion messages among the messages sent. *)
Definition isCompletion (m : Msg) : bool :=
  match cmd m with
  | Some c => String.eqb c "go test"
  | None => false
  end.

End Handler.

End Test.

(** ** File search and listing, [file/files.go] *)

Module Files.

Import GoString.

(** [strings.Split(s, sep)] for a one-byte separator. *)
Fixpoint Split (s : string) (sep : ascii) : list string :=
  match s with
  | EmptyString => [EmptyString]
  | String c s' =>
      match Split s' sep with
      | hd :: tl =>
          if Ascii.eqb c sep then EmptyString :: hd :: tl
          else String c hd :: tl
      | [] => [String c EmptyString]
      end
  end.

(** [strings.HasSuffix] *)
Definition HasSuffix (s suffix : string) : bool :=
  (String.length suffix <=? String.length s)%nat
  && String.eqb (substring (String.length s - String.length suffix)
                           (String.length suffix) s)
                suffix.

(** A hit of "Search": [Line] and [Ch] are [int]s counted from 1. *)
Record Snippet : Type := mkSnippet {
  Path : string;
  Line : Z;
  Ch : Z;
  Contents : list string
}.

(** What a directory holds, as [Readdir] and [ReadFile] report it: a file
    with what [ioutil.ReadFile] returns for it ([None]: an error), or a
    directory with the entries [Readdir(-1)] returns for it, in that order
    ([None]: an error). *)
Unset Elimination Schemes.

Inductive entry : Type :=
| File (name : string) (content : option string)
| Dir (name : string) (listing : option (list entry)).

Set Elimination Schemes.

(** [os.FileInfo] as far as [listFiles] looks at it. *)
Record FileInfo : Type := mkFileInfo {
  Name : string;
  IsDir : bool
}.

(** Default exclude file name patterns when find, line 803. *)
Definition defaultExcludesFind : list string :=
  [".git"; ".svn"; ".repository"; "CVS"; "RCS"; "SCCS"; ".bzr"; ".metadata"; ".hg"].

Section WithLibraries.

(** [strings.ToLower], [gulu.File.IsBinary], [gulu.File.IsImg],
    [filepath.Match] (its error is [None]) and [conf.PathSeparator] are
    declared outside the files at hand. *)
Variable ToLower : string -> string.
Variable IsBinary : string -> bool.
Variable IsImg : string -> bool.
Variable Match : string -> string -> option bool.
Variable PathSeparator : string.

(** The loop of [searchInFile], lines 904-915; [idx] is the index of the
    first of [lines]. *)
Fixpoint searchLines (path text : string) (lines : list string) (idx : Z)
  : list Snippet :=
  match lines with
  | [] => []
  | line :: rest =>
      let ch := Index (ToLower line) (ToLower text) in
      if negb (-1 =? ch)
      then mkSnippet (Filepath.ToSlash path) (idx + 1) (ch + 1) [line]
           :: searchLines path text rest (idx + 1)
      else searchLines path text rest (idx + 1)
  end.

(** [searchInFile], lines 889-918; [content] is what [ioutil.ReadFile(path)]
    returns. *)
Definition searchInFile (content : option string) (path text : string)
  : list Snippet :=
  match content with
  | None => []
  | Some c =>
      if IsBinary c then []
      else searchLines path text (Split c newline) 0
  end.

(** [dir += conf.PathSeparator] unless it ends with it already. *)
Definition withSeparator (dir : string) : string :=
  if negb (HasSuffix dir PathSeparator) then (dir ++ PathSeparator)%string else dir.

(** One turn of the loop of [search], lines 870-881, on the entry [e] of
    the directory [dir] (which ends with the separator). *)
Fixpoint searchEntry (extension text dir : string) (e : entry)
         (snippets : list Snippet) {struct e} : list Snippet :=
  match e with
  | Dir fname listing =>
      let path := (dir ++ fname)%string in
      match listing with
      | None => snippets
      | Some es =>
          fold_left (fun acc e' =>
                       searchEntry extension text (withSeparator path) e' acc)
                    es snippets
      end
  | File fname content =>
      let path := (dir ++ fname)%string in
      if HasSuffix path extension
      then snippets ++ searchInFile content path text
      else snippets
  end.

(** [search], lines 856-886; [listing] is what [Readdir(-1)] returns for
    [dir]. *)
Definition search (dir : string) (listing : option (list entry))
           (extension text : string) (snippets : list Snippet) : list Snippet :=
  match listing with
  | None => snippets
  | Some es =>
      fold_left (fun acc e => searchEntry extension text (withSeparator dir) e acc)
                es snippets
  end.

(** One turn of the loop of [find], lines 822-849. *)
Fixpoint findEntry (name dir : string) (e : entry) (results : list string)
         {struct e} : list string :=
  match e with
  | Dir fname listing =>
      let path := (dir ++ fname)%string in
      if Build.StrContains fname defaultExcludesFind then results
      else
        match listing with
        | None => results
        | Some es =>
            fold_left (fun acc e' => findEntry name (withSeparator path) e' acc)
                      es results
        end
  | File fname _ =>
      let path := (dir ++ fname)%string in
      let pattern := (Filepath.Dir path ++ PathSeparator ++ name)%string in
      match Match (ToLower pattern) (ToLower path) with
      | None => results
      | Some true => results ++ [path]
      | Some false => results
      end
  end.

(** [find], lines 807-852. *)
Definition find (dir : string) (listing : option (list entry))
           (name : string) (results : list string) : list string :=
  match listing with
  | None => results
  | Some es =>
      fold_left (fun acc e => findEntry name (withSeparator dir) e acc) es results
  end.

(** [getIconSkin], lines 707-734. *)
Definition getIconSkin (filenameExtension : string) : string :=
  if IsImg filenameExtension then "ico-ztree-img "
  else if String.eqb filenameExtension ".html"
          || String.eqb filenameExtension ".htm" then "ico-ztree-html "
  else if String.eqb filenameExtension ".go" then "ico-ztree-go "
  else if String.eqb filenameExtension ".css" then "ico-ztree-css "
  else if String.eqb filenameExtension ".txt" then "ico-ztree-text "
  else if String.eqb filenameExtension ".sql" then "ico-ztree-sql "
  else if String.eqb filenameExtension ".properties" then "ico-ztree-pro "
  else if String.eqb filenameExtension ".md" then "ico-ztree-md "
  else if String.eqb filenameExtension ".js"
          || String.eqb filenameExtension ".json" then "ico-ztree-js "
  else if String.eqb filenameExtension ".xml" then "ico-ztree-xml "
  else "ico-ztree-other ".

End WithLibraries.

(** [sort.Strings]: the increasing order of Go strings is the byte-wise
    lexicographic one. *)
Fixpoint insertSorted (x : string) (l : list string) : list string :=
  match l with
  | [] => [x]
  | y :: l' => if String.leb x y then x :: l else y :: insertSorted x l'
  end.

Definition sortStrings (l : list string) : list string :=
  fold_right insertSorted [] l.

(** The loop of [listFiles], lines 674-701: the kept names, directories and
    files apart.  [lstat] is [os.Lstat] on a path ([None]: an error). *)
Fixpoint classify (lstat : string -> option FileInfo) (dirname : string)
         (names : list string) (dirs files : list string)
  : list string * list string :=
  match names with
  | [] => (dirs, files)
  | name :: rest =>
      let path := Filepath.Join dirname name in
      match lstat path with
      | None => classify lstat dirname rest dirs files
      | Some fio =>
          if IsDir fio then
            if String.eqb ".git" (Name fio) || String.eqb ".svn" (Name fio)
               || String.eqb ".hg" (Name fio)
            then classify lstat dirname rest dirs files
            else classify lstat dirname rest (dirs ++ [name]) files
          else
            if String.eqb ".DS_Store" (Name fio)
            then classify lstat dirname rest dirs files
            else classify lstat dirname rest dirs (files ++ [name])
      end
  end.

(** [listFiles], lines 662-704; [names] is what [Readdirnames(-1)] returns
    (its error is dropped by the code). *)
Definition listFiles (lstat : string -> option FileInfo) (dirname : string)
           (names : list string) : list string :=
  let '(dirs, files) := classify lstat dirname (sortStrings names) [] [] in
  dirs ++ files.

End Files.

(** ** The playground's [BuildHandler], [playground/build.go] *)

Module Playground.

Import GoString.

(** [strings.Replace(s, old, new, -1)] for a non-empty [old]: the
    occurrences are replaced from left to right, without overlap; [skip]
    counts the bytes of the occurrence just replaced that are still to be
    passed over. *)
Fixpoint replaceFrom (s old new : string) (skip : nat) : string :=
  match s with
  | EmptyString => EmptyString
  | String c s' =>
      match skip with
      | S k => replaceFrom s' old new k
      | O =>
          if HasPrefix s old
          then new ++ replaceFrom s' old new (String.length old - 1)
          else String c (replaceFrom s' old new O)
      end
  end.

Definition ReplaceAll (s old new : string) : string := replaceFrom s old new O.

(** What the handler answers: [result.Code], whether "Forbidden" was
    written, and the keys of [data]. *)
Record Response : Type := mkResponse {
  code : Z;
  forbidden : bool;
  output : option string;
  executable : option string;
  commands : list (list string)     (* the commands run, in order *)
}.

Record World : Type := mkWorld {
  sessionIsNew : bool;
  decodeOk : bool;
  goBuild : list string -> string * bool  (* combined output, [nil != err] *)
}.

(** [BuildHandler], lines 31-75; [dataDir] is [conf.Wide.Data]. *)
Definition BuildHandler (dataDir : string) (w : World) (fileName : string)
  : Response :=
  if sessionIsNew w then mkResponse 0 true None None []
  else if negb (decodeOk w) then mkResponse (-1) false None None []
  else
    let filePath := Filepath.Clean (dataDir ++ "/playground/" ++ fileName) in
    let suffix := "" in                       (* [".exe"] on Windows only *)
    let executable :=
      Filepath.Clean (dataDir ++ "/playground/" ++ ReplaceAll fileName ".go" suffix) in
    let argv := ["go"; "build"; "-o"; executable; filePath] in
    let '(out, failed) := goBuild w argv in
    if failed then mkResponse (-1) false (Some out) None [argv]
    else mkResponse 0 false (Some out) (Some executable) [argv].

End Playground.

(** * Facts on the string operations *)

Module GoStringFacts.

Import GoString.

Lemma HasPrefix_byte (c : ascii) (s : string) :
  HasPrefix s (String c "") =
  match s with EmptyString => false | String d _ => Ascii.eqb c d end.
Proof. destruct s; simpl; [reflexivity | apply andb_true_r]. Qed.

Lemma find_byte_cons (c d : ascii) (s : string) :
  find (String d s) (String c "") =
  if Ascii.eqb c d then Some O else option_map S (find s (String c "")).
Proof.
  change (find (String d s) (String c "")) with
    (if HasPrefix (String d s) (String c "") then Some O
     else option_map S (find s (String c ""))).
  now rewrite HasPrefix_byte.
Qed.

Lemma find_byte_nil (c : ascii) : find "" (String c "") = None.
Proof. reflexivity. Qed.

Lemma find_byte_None (c : ascii) (s : string) :
  find s (String c "") = None <-> occurs c s = false.
Proof.
  induction s as [|d s IH].
  - split; reflexivity.
  - rewrite find_byte_cons; simpl.
    destruct (Ascii.eqb c d); simpl.
    + split; discriminate.
    + destruct (find s (String c "")); simpl.
      * split; [discriminate|]. intros H; apply IH in H; discriminate.
      * split; [intros _; now apply IH | reflexivity].
Qed.

Lemma find_byte_app (c : ascii) (a b : string) :
  occurs c a = false ->
  find (a ++ String c b) (String c "") = Some (String.length a).
Proof.
  induction a as [|d a IH]; simpl append; intros H.
  - rewrite find_byte_cons, Ascii.eqb_refl. reflexivity.
  - simpl in H. apply orb_false_iff in H as [Hd Ha].
    rewrite find_byte_cons, Hd, (IH Ha). reflexivity.
Qed.

Lemma find_byte_Some (c : ascii) (s : string) (n : nat) :
  find s (String c "") = Some n ->
  exists a b, s = (a ++ String c b)%string
              /\ String.length a = n /\ occurs c a = false.
Proof.
  revert n; induction s as [|d s IH]; intros n.
  - discriminate.
  - rewrite find_byte_cons. destruct (Ascii.eqb c d) eqn:E.
    + intros [= <-]. apply Ascii.eqb_eq in E; subst d.
      exists "", s. repeat split.
    + destruct (find s (String c "")) as [m|]; simpl; [|discriminate].
      intros [= <-]. destruct (IH m eq_refl) as (a & b & -> & <- & Ha).
      exists (String d a), b. simpl. now rewrite E, Ha.
Qed.

Lemma substring_all (s : string) : substring 0 (String.length s) s = s.
Proof. induction s; simpl; [reflexivity | now f_equal]. Qed.

Lemma substring_app_l (a b : string) :
  substring 0 (String.length a) (a ++ b) = a.
Proof.
  induction a as [|d a IH]; simpl.
  - destruct b; reflexivity.
  - now f_equal.
Qed.

Lemma substring_app_r (a b : string) (k m : nat) :
  substring (String.length a + k) m (a ++ b) = substring k m b.
Proof. induction a as [|d a IH]; simpl; [reflexivity | exact IH]. Qed.

Lemma string_length_app (a b : string) :
  String.length (a ++ b) = (String.length a + String.length b)%nat.
Proof. induction a; simpl; [reflexivity | now f_equal]. Qed.

Lemma len_nonneg (s : string) : 0 <= len s.
Proof. unfold len; lia. Qed.

Lemma len_app (a b : string) : len (a ++ b) = len a + len b.
Proof. unfold len; rewrite string_length_app; lia. Qed.

Lemma len_cons (c : ascii) (s : string) : len (String c s) = 1 + len s.
Proof. unfold len; simpl String.length; lia. Qed.

Lemma sliceTo_app (a b : string) : sliceTo (a ++ b) (len a) = Ok a.
Proof.
  unfold sliceTo, slice. rewrite len_app.
  pose proof (len_nonneg a); pose proof (len_nonneg b).
  replace ((0 <=? 0) && (0 <=? len a) && (len a <=? len a + len b)) with true
    by (symmetry; rewrite !andb_true_iff; repeat split; apply Z.leb_le; lia).
  rewrite Z.sub_0_r. unfold len. rewrite Nat2Z.id. simpl Z.to_nat.
  now rewrite substring_app_l.
Qed.

Lemma sliceFrom_app (a b : string) (k : Z) :
  0 <= k -> sliceFrom (a ++ b) (len a + k) = sliceFrom b k.
Proof.
  intros Hk. unfold sliceFrom, slice. rewrite len_app.
  pose proof (len_nonneg a); pose proof (len_nonneg b).
  replace (0 <=? len a + k) with true by (symmetry; apply Z.leb_le; lia).
  replace (0 <=? k) with true by (symmetry; apply Z.leb_le; lia).
  replace (len a + k <=? len a + len b) with (k <=? len b)
    by (destruct (Z.leb_spec k (len b)); symmetry; [apply Z.leb_le | apply Z.leb_gt]; lia).
  rewrite !Z.leb_refl. simpl andb.
  destruct (k <=? len b) eqn:E; [|reflexivity].
  apply Z.leb_le in E. simpl andb. f_equal.
  replace (len a + len b - (len a + k)) with (len b - k) by lia.
  replace (Z.to_nat (len a + k)) with (String.length a + Z.to_nat k)%nat
    by (unfold len; lia).
  now rewrite substring_app_r.
Qed.

Lemma sliceFrom_0 (s : string) : sliceFrom s 0 = Ok s.
Proof.
  unfold sliceFrom, slice. pose proof (len_nonneg s).
  replace (0 <=? len s) with true by (symmetry; apply Z.leb_le; lia).
  rewrite !Z.leb_refl, Z.sub_0_r. simpl andb. cbv iota.
  unfold len. rewrite Nat2Z.id. change (Z.to_nat 0) with O.
  now rewrite substring_all.
Qed.

(** What [strings.Index s ":"] and the two slices around it compute. *)
Lemma Index_byte_app (c : ascii) (a b : string) :
  occurs c a = false ->
  Index (a ++ String c b) (String c "") = len a.
Proof. intros H. unfold Index. now rewrite find_byte_app. Qed.

Lemma Index_byte_absent (c : ascii) (s : string) :
  occurs c s = false -> Index s (String c "") = -1.
Proof. intros H. unfold Index. apply find_byte_None in H. now rewrite H. Qed.

Lemma Index_byte_cases (c : ascii) (s : string) :
  (occurs c s = false /\ Index s (String c "") = -1)
  \/ (exists a b, s = (a ++ String c b)%string /\ occurs c a = false
                 /\ Index s (String c "") = len a).
Proof.
  destruct (find s (String c "")) as [n|] eqn:F.
  - right. destruct (find_byte_Some _ _ _ F) as (a & b & -> & _ & Ha).
    exists a, b. repeat split; [assumption | now apply Index_byte_app].
  - left. apply find_byte_None in F. split; [assumption | now apply Index_byte_absent].
Qed.

Lemma split_at_byte (c : ascii) (a b : string) :
  sliceTo (a ++ String c b) (len a) = Ok a
  /\ sliceFrom (a ++ String c b) (len a + 1) = Ok b.
Proof.
  split; [apply sliceTo_app|].
  rewrite sliceFrom_app by lia.
  change (String c b) with (String c "" ++ b)%string.
  change 1 with (len (String c "") + 0).
  rewrite sliceFrom_app by lia. apply sliceFrom_0.
Qed.

Lemma occurs_app (c : ascii) (a b : string) :
  occurs c (a ++ b) = occurs c a || occurs c b.
Proof.
  induction a as [|d a IH]; simpl; [reflexivity|].
  now rewrite IH, orb_assoc.
Qed.

End GoStringFacts.

(** * Facts on the lint classification *)

Module LintFacts.

Import GoString GoStringFacts Lints.



Lemma byteAt_0 (c : ascii) (s : string) : byteAt (String c s) 0 = Ok c.
Proof.
  unfold byteAt. rewrite len_cons. pose proof (len_nonneg s).
  replace (0 <? 1 + len s) with true by (symmetry; apply Z.ltb_lt; lia).
  reflexivity.
Qed.

Lemma at_last {A : Type} (prev : list A) (d : A) :
  at_ (prev ++ [d]) (Z.of_nat (List.length (prev ++ [d])) - 1) = Ok d.
Proof.
  unfold at_. rewrite List.length_app. simpl List.length.
  replace (Z.of_nat (List.length prev + 1) - 1) with (Z.of_nat (List.length prev)) by lia.
  replace (0 <=? Z.of_nat (List.length prev)) with true by (symmetry; apply Z.leb_le; lia).
  replace (Z.of_nat (List.length prev) <? Z.of_nat (List.length prev + 1)) with true
    by (symmetry; apply Z.ltb_lt; lia).
  rewrite Nat2Z.id. simpl andb. cbv iota.
  rewrite nth_error_app2 by lia. now rewrite Nat.sub_diag.
Qed.

Lemma setAt_last {A : Type} (prev : list A) (d x : A) :
  setAt (prev ++ [d]) (List.length prev) x = prev ++ [x].
Proof. induction prev as [|y prev IH]; simpl; [reflexivity | now f_equal]. Qed.

Lemma at_In {A : Type} (xs : list A) (i : Z) (x : A) :
  at_ xs i = Ok x -> In x xs.
Proof.
  unfold at_. destruct ((0 <=? i) && (i <? Z.of_nat (List.length xs))); [|discriminate].
  destruct (nth_error xs (Z.to_nat i)) eqn:E; [|discriminate].
  intros [= <-]. eapply nth_error_In; eassumption.
Qed.

Lemma Forall_setAt {A : Type} (P : A -> Prop) (xs : list A) (i : nat) (x : A) :
  Forall P xs -> P x -> Forall P (setAt xs i x).
Proof.
  intros H Hx. revert i. induction H as [|y ys Hy Hys IH]; intros i; simpl.
  - constructor.
  - destruct i; constructor; auto.
Qed.

(** A line without a colon is skipped. *)
Lemma lintLine_no_colon (curDir line : string) (lints : list Lint) :
  occurs colon line = false -> lintLine curDir line lints = Ok lints.
Proof.
  intros H. unfold lintLine, Contains.
  change ":"%string with (String colon "").
  rewrite (Index_byte_absent _ _ H). simpl. now rewrite orb_true_r.
Qed.

(** A line with a colon: either the continuation branch or a candidate
    diagnostic whose file part is what precedes the first colon. *)
Lemma lintLine_at_colon (curDir path rest : string) (lints : list Lint) :
  occurs colon path = false ->
  lintLine curDir (path ++ String colon rest) lints =
  if HasPrefix (path ++ String colon rest) (String tab "") then
    l <- at_ lints (Z.of_nat (List.length lints) - 1) ;;
    Ok (setAt lints (Z.to_nat (Z.of_nat (List.length lints) - 1))
              (withMsg l (Msg l ++ (path ++ String colon rest))))
  else
    r <- lineNoAndMsg rest ;;
    match r with
    | None => Ok lints
    | Some (lineNo, msg) =>
        Ok (lints ++ [mkLint (Filepath.ToSlash (Filepath.Join curDir path))
                             (Strconv.wrap (lineNo - 1)) lintSeverityError msg])
    end.
Proof.
  intros Hp. unfold lintLine, Contains.
  change ":"%string with (String colon "").
  rewrite (Index_byte_app _ _ rest Hp).
  destruct (split_at_byte colon path rest) as [-> ->].
  pose proof (len_nonneg path) as Hl.
  replace (0 <=? len path) with true by (symmetry; apply Z.leb_le; lia).
  replace (len (path ++ String colon rest) <? 1) with false
    by (symmetry; apply Z.ltb_ge; rewrite len_app, len_cons;
        pose proof (len_nonneg rest); lia).
  simpl orb. cbv iota. rewrite HasPrefix_byte.
  destruct (path ++ String colon rest)%string as [|c s] eqn:E.
  - destruct path; discriminate.
  - rewrite byteAt_0. simpl bind. rewrite Ascii.eqb_sym. reflexivity.
Qed.

Lemma lineNoAndMsg_no_colon (left : string) :
  occurs colon left = false -> lineNoAndMsg left = Ok (Some (0, left)).
Proof.
  intros H. unfold lineNoAndMsg. change ":"%string with (String colon "").
  now rewrite (Index_byte_absent _ _ H).
Qed.

Lemma lineNoAndMsg_token (tok rest : string) :
  occurs colon tok = false ->
  lineNoAndMsg (tok ++ String colon rest) =
  match Strconv.Atoi tok with
  | None => Ok None
  | Some n =>
      msg <- sliceFrom (tok ++ String colon rest) (len tok + 2) ;;
      Ok (Some (n, msg))
  end.
Proof.
  intros H. unfold lineNoAndMsg. change ":"%string with (String colon "").
  rewrite (Index_byte_app _ _ rest H).
  pose proof (len_nonneg tok).
  replace (0 <=? len tok) with true by (symmetry; apply Z.leb_le; lia).
  rewrite sliceTo_app. reflexivity.
Qed.

End LintFacts.

(** * Properties of the lint classification *)

Module LintProps.

Import GoString GoStringFacts Lints LintFacts.



Lemma subsequence_nil {A : Type} (all : list A) : subsequence [] all.
Proof. induction all; constructor; assumption. Qed.




(** The line a diagnostic is made from fixes its file and its line
    number: two diagnostics of one raw line agree on both. *)
Lemma split_unique (c : ascii) (p p' r r' : string) :
  occurs c p = false -> occurs c p' = false ->
  (p ++ String c r)%string = (p' ++ String c r')%string ->
  p = p' /\ r = r'.
Proof.
  revert p'. induction p as [|a q IH]; intros [|a' q']; cbn [occurs append].
  - intros _ _ [= ->]. now split.
  - intros _ H [= <- _]. rewrite Ascii.eqb_refl in H. discriminate H.
  - intros H _ [= -> _]. rewrite Ascii.eqb_refl in H. discriminate H.
  - intros H H' [= <- E].
    apply orb_false_iff in H as [_ H]. apply orb_false_iff in H' as [_ H'].
    destruct (IH q' H H' E) as [-> ->]. now split.
Qed.

Lemma reportedLineNo_determined (line : string) (ln ln' : Z) :
  reportedLineNo line ln -> reportedLineNo line ln' -> ln = ln'.
Proof.
  intros [p t r n (Hl & Hp & Ht) Hn -> _ | p r (Hl & Hp & Hr) ->]
         [p' t' r' n' (Hl' & Hp' & Ht') Hn' -> _ | p' r' (Hl' & Hp' & Hr') ->];
    try reflexivity.
  - rewrite Hl in Hl'.
    apply (split_unique colon) in Hl' as [<- Hl']; try assumption.
    apply (split_unique colon) in Hl' as [<- _]; try assumption.
    congruence.
  - exfalso. rewrite Hl in Hl'.
    apply (split_unique colon) in Hl' as [_ <-]; try assumption.
    change (t ++ ":" ++ r)%string with (t ++ String colon r)%string in Hr'.
    rewrite occurs_app in Hr'. cbn [occurs] in Hr'.
    rewrite Ascii.eqb_refl in Hr'. cbn [orb] in Hr'.
    rewrite orb_true_r in Hr'. discriminate Hr'.
  - exfalso. rewrite Hl' in Hl.
    apply (split_unique colon) in Hl as [_ <-]; try assumption.
    change (t' ++ ":" ++ r')%string with (t' ++ String colon r')%string in Hr.
    rewrite occurs_app in Hr. cbn [occurs] in Hr.
    rewrite Ascii.eqb_refl in Hr. cbn [orb] in Hr.
    rewrite orb_true_r in Hr. discriminate Hr.
Qed.

Lemma diagnosticOf_determined (curDir line : string) (d d' : Lint) :
  diagnosticOf curDir line d -> diagnosticOf curDir line d' ->
  File d = File d' /\ LineNo d = LineNo d'.
Proof.
  intros (_ & (p & r & Hl & Hp & Hf) & Hn) (_ & (p' & r' & Hl' & Hp' & Hf') & Hn').
  split; [|exact (reportedLineNo_determined line _ _ Hn Hn')].
  rewrite Hl in Hl'.
  apply (split_unique colon) in Hl' as [<- _]; try assumption.
  congruence.
Qed.


(** C3 (as amended): a line [path:tok:rest] that does not start with a tab
    and whose token [tok] is not an integer emits no diagnostic; the
    diagnostics collected so far are left as they are. *)
Theorem lintLine_non_numeric_skipped (curDir path tok rest : string)
        (lints : list Lint) :
  occurs colon path = false ->
  occurs colon tok = false ->
  HasPrefix path (String tab "") = false ->
  Strconv.Atoi tok = None ->
  lintLine curDir (path ++ ":" ++ tok ++ ":" ++ rest) lints = Ok lints.
Proof.
  intros Hpath Htok Htab Hnum.
  change (path ++ ":" ++ tok ++ ":" ++ rest)%string
    with (path ++ String colon (tok ++ String colon rest))%string.
  rewrite lintLine_at_colon by assumption.
  replace (HasPrefix (path ++ String colon (tok ++ String colon rest)) (String tab ""))
    with false.
  - rewrite lineNoAndMsg_token by assumption. now rewrite Hnum.
  - rewrite HasPrefix_byte in *. destruct path; [reflexivity | now simpl].
Qed.

(** C3, the claim as written fails: no diagnostic with line 0 is emitted
    for a line whose line token is not an integer. *)
Lemma non_numeric_line_emits_nothing :
  ~ (exists ds d, lintProcess "/proj" ["main.go:x:msg"] = Ok ds
                  /\ In d ds /\ LineNo d = 0 /\ Msg d = "x:msg").
Proof.
  intros (ds & d & H & Hin & _).
  assert (E : lintProcess "/proj" ["main.go:x:msg"] = Ok []) by reflexivity.
  rewrite E in H. injection H as <-. destruct Hin.
Qed.

(** C4: on the line [main.go:10:2: undefined: foo] under [/proj] the lint
    process returns exactly one diagnostic, for [/proj/main.go] at line 9
    with severity "error", and its message is ": undefined: foo": the
    slice [left[index+2:]] of line 285, which drops the ": " that follows
    the line number when no column is given, here drops the colon and the
    column digit and leaves the separator that follows the column. *)
Theorem scenario_B_lint :
  lintProcess "/proj" ["main.go:10:2: undefined: foo"]
  = Ok [mkLint "/proj/main.go" 9 "error" ": undefined: foo"].
Proof. reflexivity. Qed.

(** The message on that line is not the compiler's "undefined: foo". *)
Lemma scenario_B_message_differs :
  lintProcess "/proj" ["main.go:10:2: undefined: foo"]
  <> Ok [mkLint "/proj/main.go" 9 "error" "undefined: foo"].
Proof. intros H. vm_compute in H. discriminate H. Qed.

(** With a two-digit column the second digit stays in the message. *)
Example scenario_B_lint_column_12 :
  lintProcess "/proj" ["main.go:10:12: undefined: foo"]
  = Ok [mkLint "/proj/main.go" 9 "error" "2: undefined: foo"].
Proof. reflexivity. Qed.

(** Without a column the message is the compiler's. *)
Example scenario_B_lint_no_column :
  lintProcess "/proj" ["main.go:10: undefined: foo"]
  = Ok [mkLint "/proj/main.go" 9 "error" "undefined: foo"].
Proof. reflexivity. Qed.

(** The same line as the stderr loop captures it, with its newline. *)
Example scenario_B_lint_captured :
  lintProcess "/proj" [String.append "main.go:10:2: undefined: foo" (String newline "")]
  = Ok [mkLint "/proj/main.go" 9 "error"
               (String.append ": undefined: foo" (String newline ""))].
Proof. reflexivity. Qed.

(** C5 (as amended): a line that starts with a tab and comes when a
    diagnostic has been emitted is appended in full to the message of the
    last diagnostic if it contains a colon; without a colon it is dropped
    and the diagnostics stay as they are. *)
Theorem lintLine_continuation (curDir line : string) (prev : list Lint)
        (d : Lint) :
  HasPrefix line (String tab "") = true ->
  (occurs colon line = true ->
   lintLine curDir line (prev ++ [d])
   = Ok (prev ++ [withMsg d (Msg d ++ line)]))
  /\ (occurs colon line = false ->
      lintLine curDir line (prev ++ [d]) = Ok (prev ++ [d])).
Proof.
  intros Htab. split; intros Hc.
  - destruct (Index_byte_cases colon line)
      as [[Hno _] | (path & rest & -> & Hpath & _)]; [congruence|].
    rewrite lintLine_at_colon by assumption.
    rewrite Htab, at_last. simpl bind.
    rewrite List.length_app. simpl List.length.
    replace (Z.to_nat (Z.of_nat (List.length prev + 1) - 1))
      with (List.length prev) by lia.
    now rewrite setAt_last.
  - now apply lintLine_no_colon.
Qed.

(** C5, the claim as written fails: a tab line without a colon that
    directly follows a diagnostic is dropped, not appended. *)
Lemma tab_line_without_colon_dropped :
  ~ (forall ds,
        lintProcess "/proj" ["a.go:1: boom"; String tab "more"] = Ok ds ->
        exists d, ds = [d] /\ Msg d = String.append "boom" (String tab "more")).
Proof.
  intros H.
  destruct (H [mkLint "/proj/a.go" 0 "error" "boom"] eq_refl) as (d & Hd & Hm).
  injection Hd as <-. discriminate Hm.
Qed.

(** *** The theorems above at concrete inputs *)


Lemma lintLine_non_numeric_skipped_witness :
  Strconv.Atoi "x" = None
  /\ lintLine "/proj" "main.go:x:msg" [] = Ok [].
Proof.
  split; [reflexivity|].
  apply (lintLine_non_numeric_skipped "/proj" "main.go" "x" "msg" []);
    reflexivity.
Defined.

Lemma lintLine_continuation_witness :
  HasPrefix (String tab "want: int") (String tab "") = true
  /\ lintLine "/proj" (String tab "want: int") [mkLint "/proj/a.go" 0 "error" "boom"]
     = Ok [mkLint "/proj/a.go" 0 "error"
                  (String.append "boom" (String tab "want: int"))].
Proof.
  split; [reflexivity|].
  apply (lintLine_continuation "/proj" (String tab "want: int") []
           (mkLint "/proj/a.go" 0 "error" "boom"));
    reflexivity.
Defined.

End LintProps.

(** * Running a task symbolically *)

Ltac run_task_in H :=
  unfold Session.seq, Session.modify, Session.writeJSON, Session.isLive,
         Session.refresh, Session.emit, Session.ret, Session.return_,
         Session.fail, Session.forbid, Session.returnIfFailed,
         Session.liftResult, Session.outOfFuel, Session.initState in H;
  cbn [Session.reads Session.sends Session.trace Session.channelRet
       Session.code Session.forbidden Session.live Session.sendOk
       negb andb orb Z.eqb app] in H.

Ltac run_task :=
  unfold Session.seq, Session.modify, Session.writeJSON, Session.isLive,
         Session.refresh, Session.emit, Session.ret, Session.return_,
         Session.fail, Session.forbid, Session.returnIfFailed,
         Session.liftResult, Session.outOfFuel, Session.initState;
  cbn [Session.reads Session.sends Session.trace Session.channelRet
       Session.code Session.forbidden Session.live Session.sendOk
       negb andb orb Z.eqb app].

(** * Properties of the test handler *)

Module TestProps.

Import GoString Session Bufio Test.

Section WithMessages.

Variable i18n : string -> string -> string.

(** C8: when the test process was started and the registry holds a
    channel when the background task looks it up (the second read of the
    invocation, the first being the one before the start announcement),
    the messages sent are the start announcement, if the channel was there
    for it, and then exactly one completion message.  The completion
    message has the command tag "go test" and no other key than its text,
    which is the banner followed by the captured output: on a non-zero
    exit the banner is the span of class [test-error] around the localised
    text of key "test-error" and a newline, on a zero exit the span of
    class [test-succ] around the text of key "test-succ" and a newline.
    The captured output is what stdout held, followed by what stderr held
    when stdout ended with end-of-file. *)
Theorem test_completion_message (w : World) (req : Request)
        (o : Outcome unit) (st : TaskState) :
  runTest i18n w req = (o, st) ->
  existsb isStart (trace st) = true ->
  live (registry w) 1 = true ->
  exists announcement captured,
    sent (trace st)
    = announcement ++
      [mkMsg (Some "go test")
         (Some ((if success w
                 then "<span class='test-succ'>" ++ i18n (locale req) "test-succ"
                      ++ "</span>" ++ String newline ""
                 else "<span class='test-error'>" ++ i18n (locale req) "test-error"
                      ++ "</span>" ++ String newline "")
                ++ captured)%string)
         None None None]
    /\ (announcement = []
        \/ announcement
           = [mkMsg (Some "start-test")
                (Some ("<span class='start-test'>" ++ i18n (locale req) "start-test"
                       ++ "</span>" ++ String newline "")%string)
                None None None])
    /\ (final (stdout w) = EOF ->
        captured = (pending (stdout w) ++ pending (stderr w))%string)
    /\ (final (stdout w) <> EOF -> captured = pending (stdout w)).
Proof.
  assert (Hcap : (final (stdout w) = EOF ->
                  ReadAllMulti (stdout w) (stderr w)
                  = (pending (stdout w) ++ pending (stderr w))%string)
                 /\ (final (stdout w) <> EOF ->
                     ReadAllMulti (stdout w) (stderr w) = pending (stdout w))).
  { unfold ReadAllMulti. destruct (final (stdout w)); split; intros H;
      try reflexivity; try discriminate H; now contradiction H. }
  revert Hcap.
  destruct w as [isNew dec outOk errOk started out err succ [lv sd]].
  unfold runTest, GoTestHandler, testTask, failBanner, passBanner.
  cbn [Test.sessionIsNew Test.decodeOk Test.stdoutPipeOk Test.stderrPipeOk
       Test.startOk Test.stdout Test.stderr Test.success Test.registry live].
  intros [Hc1 Hc2] Hrun Hstart Hlive.
  destruct isNew, dec, outOk, errOk; run_task_in Hrun;
    try (injection Hrun as <- <-; discriminate Hstart).
  destruct (lv O) eqn:L0; run_task_in Hrun.
  - destruct (sd O) eqn:S0; run_task_in Hrun;
      [|injection Hrun as <- <-; discriminate Hstart].
    destruct started; run_task_in Hrun;
      [|injection Hrun as <- <-; discriminate Hstart].
    eexists; exists (ReadAllMulti out err).
    split; [|split; [right; reflexivity | split; assumption]].
    destruct succ; run_task_in Hrun; rewrite Hlive in Hrun;
      injection Hrun as <- <-; reflexivity.
  - destruct started; run_task_in Hrun;
      [|injection Hrun as <- <-; discriminate Hstart].
    exists [], (ReadAllMulti out err).
    split; [|split; [left; reflexivity | split; assumption]].
    destruct succ; run_task_in Hrun; rewrite Hlive in Hrun;
      injection Hrun as <- <-; reflexivity.
Qed.

(** C10: when the registry holds a channel at the start announcement and
    the send of the announcement fails, the handler returns: the test
    process is never started and no completion message is sent. *)
Theorem test_announcement_failure_stops (w : World) (req : Request)
        (o : Outcome unit) (st : TaskState) :
  runTest i18n w req = (o, st) ->
  live (registry w) 0 = true ->
  sendOk (registry w) 0 = false ->
  o = Returned
  /\ existsb isStart (trace st) = false
  /\ existsb isWait (trace st) = false
  /\ filter isCompletion (sent (trace st)) = [].
Proof.
  destruct w as [isNew dec outOk errOk started out err succ [lv sd]].
  unfold runTest, GoTestHandler.
  cbn [Test.sessionIsNew Test.decodeOk Test.stdoutPipeOk Test.stderrPipeOk
       Test.startOk Test.stdout Test.stderr Test.success Test.registry
       live sendOk].
  intros Hrun Hlive Hsend.
  destruct isNew, dec, outOk, errOk; run_task_in Hrun;
    try (injection Hrun as <- <-; repeat split; reflexivity).
  rewrite Hlive in Hrun. run_task_in Hrun. rewrite Hsend in Hrun.
  run_task_in Hrun.
  injection Hrun as <- <-. repeat split; reflexivity.
Qed.

End WithMessages.

(** *** The theorems at concrete invocations *)

Definition testKeyText (locale key : string) : string := key.

Definition testAlwaysLive : Registry := mkRegistry (fun _ => true) (fun _ => true).

Definition failingRun : World :=
  mkWorld false true true true true
          (mkReader "=== RUN   TestA" EOF) (mkReader "FAIL" EOF)
          false testAlwaysLive.

Definition announcementLost : World :=
  mkWorld false true true true true
          (mkReader "ok" EOF) (mkReader "" EOF)
          true (mkRegistry (fun _ => true) (fun _ => false)).

Definition testRequest : Request := mkRequest "/proj/a_test.go" "en_US".

Lemma test_completion_message_witness :
  exists announcement captured,
    sent (trace (snd (runTest testKeyText failingRun testRequest)))
    = announcement ++
      [mkMsg (Some "go test")
         (Some (("<span class='test-error'>" ++ "test-error"
                 ++ "</span>" ++ String newline "") ++ captured)%string)
         None None None]
    /\ (announcement = []
        \/ announcement
           = [mkMsg (Some "start-test")
                (Some ("<span class='start-test'>" ++ "start-test"
                       ++ "</span>" ++ String newline "")%string)
                None None None])
    /\ (EOF = EOF -> captured = "=== RUN   TestAFAIL"%string)
    /\ (EOF <> EOF -> captured = "=== RUN   TestA"%string).
Proof.
  refine (test_completion_message testKeyText failingRun testRequest
            (fst (runTest testKeyText failingRun testRequest))
            (snd (runTest testKeyText failingRun testRequest)) _ _ _);
    vm_compute; reflexivity.
Defined.

Lemma test_announcement_failure_stops_witness :
  fst (runTest testKeyText announcementLost testRequest) = Returned
  /\ existsb isStart (trace (snd (runTest testKeyText announcementLost testRequest))) = false
  /\ existsb isWait (trace (snd (runTest testKeyText announcementLost testRequest))) = false
  /\ filter isCompletion
            (sent (trace (snd (runTest testKeyText announcementLost testRequest)))) = [].
Proof.
  refine (test_announcement_failure_stops testKeyText announcementLost testRequest
            (fst (runTest testKeyText announcementLost testRequest))
            (snd (runTest testKeyText announcementLost testRequest)) _ _ _);
    vm_compute; reflexivity.
Defined.

End TestProps.

(** * Facts on the pipes and on the two tasks of the build handler *)

Ltac run_build_in H :=
  unfold Build.bseq, Build.bret, Build.own, Build.shared, Build.yield,
         Build.startStdout, Build.setChannelRet in H;
  run_task_in H;
  cbn [Build.handler Build.out Build.yields Build.schedule
       Build.registryOut Build.registry Build.stdout Build.stderr
       Build.waitOk
       Session.reads Session.sends Session.trace Session.channelRet
       Session.code Session.forbidden Session.live Session.sendOk
       Build.assertString negb andb orb Z.eqb app] in H.

Ltac run_build :=
  unfold Build.bseq, Build.bret, Build.own, Build.shared, Build.yield,
         Build.startStdout, Build.setChannelRet;
  run_task;
  cbn [Build.handler Build.out Build.yields Build.schedule
       Build.registryOut Build.registry Build.stdout Build.stderr
       Build.waitOk
       Session.reads Session.sends Session.trace Session.channelRet
       Session.code Session.forbidden Session.live Session.sendOk
       Build.assertString negb andb orb Z.eqb app].

Ltac splits := repeat match goal with |- _ /\ _ => split end.

Module DrainFacts.

Import GoString GoStringFacts Lints Session Bufio Build.

(** The concatenation of a list of strings. *)
Definition joinAll (ls : list string) : string :=
  fold_right String.append EmptyString ls.

Lemma joinAll_app (a b : list string) :
  joinAll (a ++ b) = (joinAll a ++ joinAll b)%string.
Proof.
  induction a as [|x a IH]; simpl; [reflexivity|].
  rewrite IH. clear IH. induction x as [|c x IHx]; simpl; [reflexivity | now f_equal].
Qed.

Lemma append_assoc_string (a b c : string) :
  ((a ++ b) ++ c)%string = (a ++ (b ++ c))%string.
Proof. induction a; simpl; [reflexivity | now f_equal]. Qed.

Lemma append_nil_r (s : string) : (s ++ "")%string = s.
Proof. induction s; simpl; [reflexivity | now f_equal]. Qed.

(** A line as [ReadString] returns it when it found the delimiter: some
    bytes without a newline, and the newline. *)
Definition terminated (l : string) : Prop :=
  exists body, l = (body ++ String newline "")%string
               /\ occurs newline body = false.

Lemma terminated_endsWith (l : string) :
  terminated l -> endsWith newline l = true.
Proof.
  intros (body & -> & _). induction body as [|c body IH]; simpl.
  - reflexivity.
  - destruct (body ++ String newline "")%string eqn:E; [|exact IH].
    destruct body; discriminate E.
Qed.

Lemma cutLine_Some (s l rest : string) :
  cutLine s = Some (l, rest) ->
  s = (l ++ rest)%string
  /\ terminated l
  /\ (String.length rest < String.length s)%nat.
Proof.
  revert l rest. induction s as [|c s IH]; intros l rest; simpl.
  - discriminate.
  - destruct (Ascii.eqb c newline) eqn:E.
    + intros [= <- <-]. apply Ascii.eqb_eq in E; subst c.
      splits; [reflexivity | now exists EmptyString | simpl; lia].
    + destruct (cutLine s) as [[l' rest']|]; [|discriminate].
      intros [= <- <-].
      destruct (IH l' rest' eq_refl) as (-> & (body & -> & Hbody) & Hlen).
      splits; [reflexivity | | simpl; simpl in Hlen; lia].
      exists (String c body). split; [reflexivity|].
      cbn [occurs]. rewrite Ascii.eqb_sym, E. exact Hbody.
Qed.

Lemma cutLine_None (s : string) :
  cutLine s = None -> occurs newline s = false.
Proof.
  induction s as [|c s IH]; cbn [cutLine occurs]; [reflexivity|].
  rewrite (Ascii.eqb_sym newline c).
  destruct (Ascii.eqb c newline); [discriminate|].
  destruct (cutLine s) as [[l r]|]; [discriminate|]. intros _. now apply IH.
Qed.

Lemma sent_app (a b : list Event) : sent (a ++ b) = sent a ++ sent b.
Proof. unfold sent. apply flat_map_app. Qed.

(** An event of the channel: a send or a refresh. *)
Definition isChannelEvent (e : Event) : bool :=
  match e with WriteJSON _ _ | Refresh => true | _ => false end.

(** Two maps that differ at most in the [output] key. *)
Definition sameKeys (m m' : Msg) : Prop :=
  cmd m' = cmd m
  /\ executable m' = executable m
  /\ nextCmd m' = nextCmd m
  /\ Session.lints m' = Session.lints m.

(** Two states that differ at most in the counters, the trace and the
    [output] key of the map. *)
Definition sameButOutput (st st' : TaskState) : Prop :=
  cmd (channelRet st') = cmd (channelRet st)
  /\ executable (channelRet st') = executable (channelRet st)
  /\ nextCmd (channelRet st') = nextCmd (channelRet st)
  /\ Session.lints (channelRet st') = Session.lints (channelRet st)
  /\ code st' = code st
  /\ forbidden st' = forbidden st.

Lemma sameButOutput_refl (st : TaskState) : sameButOutput st st.
Proof. repeat split. Qed.

Lemma sameButOutput_trans (a b c : TaskState) :
  sameButOutput a b -> sameButOutput b c -> sameButOutput a c.
Proof.
  unfold sameButOutput.
  intros (A1 & A2 & A3 & A4 & A5 & A6) (B1 & B2 & B3 & B4 & B5 & B6).
  repeat split; congruence.
Qed.

Ltac solve_easy :=
  try first [ reflexivity
            | now left
            | now constructor
            | now (unfold sameButOutput; repeat split)
            | now intros _ ].

Definition alwaysPresent (reg : Registry) : Prop :=
  (forall k, live reg k = true) /\ (forall k, sendOk reg k = true).

(** *** The stdout task *)

(** The text under the [output] key of the shared map is [x], unless the
    stdout task has put one of its lines there since. *)
Definition outputIs (x : string) (t : OutTask) (m : Msg) : Prop :=
  output m = Some x
  \/ exists l, In l (outLines t) /\ output m = Some l.

(** [t'] is a state the stdout task gets to from [t], whatever the
    handling task does to the map in between. *)
Inductive OutReach (reg : Registry) (t : OutTask) : OutTask -> Prop :=
| reach_here : OutReach reg t t
| reach_step (m : Msg) (t' : OutTask) :
    OutReach reg t t' -> OutReach reg t (snd (outStep reg m t')).

Lemma reach_trans (reg : Registry) (a b c : OutTask) :
  OutReach reg a b -> OutReach reg b c -> OutReach reg a c.
Proof.
  intros Hab Hbc. induction Hbc as [|m t' _ IH]; [assumption|].
  now constructor.
Qed.

Lemma reach_runOut (reg : Registry) (n : nat) :
  forall (m : Msg) (t t' : OutTask),
    OutReach reg t t' -> OutReach reg t (snd (runOut n reg m t')).
Proof.
  induction n as [|n IH]; intros m t t' H; cbn [runOut snd]; [assumption|].
  apply IH. now constructor.
Qed.

Lemma outStep_keys (reg : Registry) (m : Msg) (t : OutTask) :
  sameKeys m (fst (outStep reg m t)).
Proof.
  unfold outStep, sameKeys.
  destruct (outPhase t); try (repeat split; fail).
  destruct (negb (live reg (outReads t))); [repeat split|].
  destruct (ReadString (outReader t)) as [[line [e|]] r']; repeat split.
Qed.

Lemma runOut_keys (reg : Registry) (n : nat) :
  forall (m : Msg) (t : OutTask), sameKeys m (fst (runOut n reg m t)).
Proof.
  induction n as [|n IH]; intros m t; cbn [runOut].
  - repeat split.
  - destruct (outStep_keys reg m t) as (A1 & A2 & A3 & A4).
    destruct (IH (fst (outStep reg m t)) (snd (outStep reg m t)))
      as (B1 & B2 & B3 & B4).
    unfold sameKeys. repeat split; congruence.
Qed.

Lemma runOut_cmd reg n m t : cmd (fst (runOut n reg m t)) = cmd m.
Proof. apply runOut_keys. Qed.

Lemma runOut_executable reg n m t :
  executable (fst (runOut n reg m t)) = executable m.
Proof. apply runOut_keys. Qed.

Lemma runOut_nextCmd reg n m t : nextCmd (fst (runOut n reg m t)) = nextCmd m.
Proof. apply runOut_keys. Qed.

Lemma runOut_lints reg n m t :
  Session.lints (fst (runOut n reg m t)) = Session.lints m.
Proof. apply runOut_keys. Qed.

(** The lines of the task only grow. *)
Lemma outStep_lines (reg : Registry) (m : Msg) (t : OutTask) :
  exists more, outLines (snd (outStep reg m t)) = outLines t ++ more.
Proof.
  unfold outStep.
  destruct (outPhase t); try (exists []; cbn; now rewrite app_nil_r).
  destruct (negb (live reg (outReads t)));
    [exists []; cbn; now rewrite app_nil_r|].
  destruct (ReadString (outReader t)) as [[line [e|]] r']; cbn.
  - exists []. now rewrite app_nil_r.
  - now exists [line].
Qed.

Lemma reach_lines (reg : Registry) (t t' : OutTask) :
  OutReach reg t t' -> exists more, outLines t' = outLines t ++ more.
Proof.
  induction 1 as [|m t' _ (more & IH)].
  - exists []. now rewrite app_nil_r.
  - destruct (outStep_lines reg m t') as (more' & ->).
    exists (more ++ more'). now rewrite IH, app_assoc.
Qed.

Lemma reach_In (reg : Registry) (t t' : OutTask) (l : string) :
  OutReach reg t t' -> In l (outLines t) -> In l (outLines t').
Proof.
  intros H Hin. destruct (reach_lines reg t t' H) as (more & ->).
  apply in_or_app. now left.
Qed.

Lemma outputIs_reach (reg : Registry) (x : string) (t t' : OutTask) (m : Msg) :
  OutReach reg t t' -> outputIs x t m -> outputIs x t' m.
Proof.
  intros H [Hx | (l & Hin & Hl)]; [now left|].
  right. exists l. split; [|assumption]. now apply (reach_In reg t t').
Qed.

Lemma outStep_output (reg : Registry) (x : string) (m : Msg) (t : OutTask) :
  outputIs x t m ->
  outputIs x (snd (outStep reg m t)) (fst (outStep reg m t)).
Proof.
  intros H.
  assert (Hkeep : outputIs x (snd (outStep reg m t)) m).
  { apply (outputIs_reach reg x t); [|assumption].
    apply reach_step, reach_here. }
  revert Hkeep. unfold outStep.
  destruct (outPhase t); try (cbn; trivial; fail).
  destruct (negb (live reg (outReads t))); [cbn; trivial|].
  destruct (ReadString (outReader t)) as [[line [e|]] r']; cbn; [trivial|].
  intros _. right. exists line. split; [|reflexivity].
  apply in_or_app. right. now left.
Qed.

Lemma runOut_output (reg : Registry) (x : string) (n : nat) :
  forall (m : Msg) (t : OutTask),
    outputIs x t m ->
    outputIs x (snd (runOut n reg m t)) (fst (runOut n reg m t)).
Proof.
  induction n as [|n IH]; intros m t H; cbn [runOut]; [assumption|].
  apply IH. now apply outStep_output.
Qed.


(** The stdout task right after the [go] statement. *)
Definition started (r : Reader) : OutTask := mkOutTask OutIdle r 0 0 [] [].

Definition holding (t : OutTask) : nat :=
  match outPhase t with OutHolding => 1%nat | _ => 0%nat end.

(** What holds of the stdout task all along, [r] being its pipe. *)
Definition outInv (reg : Registry) (r : Reader) (t : OutTask) : Prop :=
  exists rest,
    pending r = (joinAll (outLines t) ++ rest)%string
    /\ Forall terminated (outLines t)
    /\ (outPhase t = OutIdle \/ outPhase t = OutHolding ->
        rest = pending (outReader t))
    /\ (List.length (sent (outTrace t)) + holding t)%nat
       = List.length (outLines t)
    /\ forallb isChannelEvent (outTrace t) = true
    /\ outPhase t <> OutNotStarted
    /\ (alwaysPresent reg -> outPhase t = OutDone ->
        occurs newline rest = false).

Lemma started_inv (reg : Registry) (r : Reader) : outInv reg r (started r).
Proof.
  exists (pending r). unfold started, holding. cbn.
  splits; try reflexivity; try constructor; try discriminate.
Qed.

Lemma outStep_inv (reg : Registry) (r : Reader) (m : Msg) (t : OutTask) :
  outInv reg r t -> outInv reg r (snd (outStep reg m t)).
Proof.
  intros Hinv.
  pose proof Hinv as (rest & Hpre & Hall & Hrest & Hlen & Hev & Hns & Hdone).
  unfold outStep. destruct (outPhase t) eqn:Hph; [exact Hinv | | | exact Hinv].
  - (* at the head of the loop *)
    specialize (Hrest (or_introl eq_refl)). unfold holding in Hlen.
    rewrite Hph in Hlen.
    destruct (live reg (outReads t)) eqn:Hl; cbn [negb].
    + unfold ReadString.
      destruct (cutLine (pending (outReader t))) as [[l tail]|] eqn:E.
      * apply cutLine_Some in E as (Hs & Hterm & _).
        exists tail. unfold holding; cbn [snd fst outPhase outReader outReads outSends outLines outTrace pending final].
        splits; try assumption; try discriminate; try reflexivity.
        -- rewrite joinAll_app, Hpre, Hrest, Hs. cbn [joinAll fold_right].
           rewrite append_nil_r. now rewrite append_assoc_string.
        -- apply Forall_app. split; [assumption|]. now constructor.
        -- rewrite List.length_app. cbn [List.length]. lia.
      * apply cutLine_None in E.
        exists rest. unfold holding; cbn [snd fst outPhase outReader outReads outSends outLines outTrace pending final].
        splits; try assumption; try discriminate.
        -- intros [H|H]; discriminate H.
        -- intros _ _. now rewrite Hrest.
    + exists rest. unfold holding; cbn [snd fst outPhase outReader outReads outSends outLines outTrace pending final].
      splits; try assumption; try discriminate.
      * intros [H|H]; discriminate H.
      * intros [Hlive _] _. rewrite Hlive in Hl. discriminate Hl.
  - (* about to send *)
    specialize (Hrest (or_intror eq_refl)). unfold holding in Hlen.
    rewrite Hph in Hlen.
    exists rest. unfold holding; cbn [snd fst outPhase outReader outReads outSends outLines outTrace pending final].
    destruct (sendOk reg (outSends t)) eqn:Hs.
    + splits; try assumption; try discriminate.
      * intros _. exact Hrest.
      * rewrite sent_app. cbn [sent flat_map app]. rewrite List.length_app.
        cbn [List.length]. fold (sent (outTrace t)). lia.
      * rewrite forallb_app, Hev. reflexivity.
    + splits; try assumption; try discriminate.
      * intros [H|H]; discriminate H.
      * rewrite sent_app. cbn [sent flat_map app]. rewrite List.length_app.
        cbn [List.length]. fold (sent (outTrace t)). lia.
      * rewrite forallb_app, Hev. reflexivity.
      * intros [_ Hok] _. rewrite Hok in Hs. discriminate Hs.
Qed.

Lemma reach_inv (reg : Registry) (r : Reader) (t : OutTask) :
  OutReach reg (started r) t -> outInv reg r t.
Proof.
  induction 1 as [|m t' _ IH]; [apply started_inv | now apply outStep_inv].
Qed.

(** The steps the stdout task can still take. *)
Definition outFuel (t : OutTask) : nat :=
  match outPhase t with
  | OutIdle => 2 * String.length (pending (outReader t)) + 1
  | OutHolding => 2 * String.length (pending (outReader t)) + 2
  | OutNotStarted | OutDone => 0
  end.

Definition ended (t : OutTask) : Prop :=
  outPhase t = OutNotStarted \/ outPhase t = OutDone.

Lemma outStep_fuel (reg : Registry) (m : Msg) (t : OutTask) :
  (outFuel (snd (outStep reg m t)) <= outFuel t - 1)%nat.
Proof.
  unfold outStep, outFuel. destruct (outPhase t) eqn:Hph; cbn; try rewrite Hph; try lia.
  - destruct (live reg (outReads t)); cbn; [|lia].
    unfold ReadString.
    destruct (cutLine (pending (outReader t))) as [[l tail]|] eqn:E; cbn; [|lia].
    apply cutLine_Some in E as (_ & _ & Hlen). lia.
  - destruct (sendOk reg (outSends t)); cbn; lia.
Qed.

Lemma runOut_ended (reg : Registry) (n : nat) :
  forall (m : Msg) (t : OutTask),
    (outFuel t <= n)%nat -> ended (snd (runOut n reg m t)).
Proof.
  induction n as [|n IH]; intros m t Hn; cbn [runOut snd].
  - unfold ended. unfold outFuel in Hn.
    destruct (outPhase t); try lia; [now left | now right].
  - apply IH. pose proof (outStep_fuel reg m t). lia.
Qed.

Lemma outFuel_bound (t : OutTask) :
  (outFuel t <= 2 * S (String.length (pending (outReader t))))%nat.
Proof. unfold outFuel. destruct (outPhase t); lia. Qed.

End DrainFacts.

Module RelayFacts.

Import GoString GoStringFacts Lints Session Bufio Build DrainFacts.

Section WithCollaborators.

Variable parsePath : string -> string -> string.

(** The stderr loop in full: what it returns, what it sends, what it
    leaves of the state of the handling task and where it leaves the
    stdout task. *)
Lemma drainStderr_relay (w : World) (curDir : string) :
  forall (fuel : nat) (r : Reader) (lines : list string) (s : BuildState),
    (String.length (pending r) < fuel)%nat ->
    exists full partial rest s' new,
      drainStderr parsePath w fuel curDir r lines s
      = (Next (lines ++ full ++ partial), s')
      /\ trace (handler s') = trace (handler s) ++ new
      /\ pending r = (joinAll (full ++ partial) ++ rest)%string
      /\ Forall terminated full
      /\ (partial = []
          \/ (final r <> EOF /\ rest = EmptyString
              /\ exists p, partial = [p] /\ occurs newline p = false))
      /\ Forall2 (fun l m => outputIs (stderrSpan (parsePath curDir l))
                                      (out s') m)
                 full (sent new)
      /\ forallb isChannelEvent new = true
      /\ sameButOutput (handler s) (handler s')
      /\ OutReach (registryOut w) (out s) (out s')
      /\ (alwaysPresent (registry w) -> occurs newline rest = false).
Proof.
  induction fuel as [|fuel IH]; intros r lines s Hlt; [lia|].
  cbn [drainStderr]. run_build.
  destruct (live (registry w) (reads (handler s))) eqn:Hl; cbn [negb].
  - unfold ReadString. destruct (cutLine (pending r)) as [[l tail]|] eqn:E.
    + apply cutLine_Some in E as (Hs & Hterm & Hlen). run_build.
      destruct (sendOk (registry w) (sends (handler s))) eqn:Hs0; run_build.
      * set (r1 := runOut (schedule w (yields s)) (registryOut w)
                          (channelRet (handler s)) (out s)).
        set (r2 := runOut (schedule w (S (yields s))) (registryOut w)
                          (withOutput (fst r1) (stderrSpan (parsePath curDir l)))
                          (snd r1)).
        match goal with
        | |- context [drainStderr parsePath w fuel curDir ?r' ?ls ?s'] =>
            destruct (IH r' ls s')
              as (full & partial & rest & s2 & new & Hrun & Htr & Hpre & Hfull
                  & Hpart & Hsent & Hev & Hsame & Hreach & Hall);
            [cbn [pending]; lia|]
        end.
        exists (l :: full), partial, rest, s2.
        exists ([WriteJSON (fst r2) true; Refresh] ++ new).
        rewrite Hrun, Htr.
        cbn [trace handler out pending final] in *. rewrite <- !app_assoc.
        splits; try reflexivity.
        -- rewrite Hs, Hpre. simpl. now rewrite append_assoc_string.
        -- constructor; assumption.
        -- exact Hpart.
        -- rewrite sent_app. cbn [sent flat_map app]. constructor; [|exact Hsent].
           apply (outputIs_reach (registryOut w) _ (snd r2)); [exact Hreach|].
           apply runOut_output. now left.
        -- exact Hev.
        -- eapply sameButOutput_trans; [|exact Hsame].
           unfold sameButOutput. cbn [handler channelRet code forbidden].
           subst r2. rewrite runOut_cmd, runOut_executable, runOut_nextCmd,
                       runOut_lints.
           cbn [withOutput cmd executable nextCmd Session.lints].
           subst r1. rewrite runOut_cmd, runOut_executable, runOut_nextCmd,
                       runOut_lints.
           repeat split.
        -- apply (reach_trans _ _ (snd r2)); [|exact Hreach].
           subst r2 r1. apply reach_runOut, reach_runOut, reach_here.
        -- exact Hall.
      * set (r1 := runOut (schedule w (yields s)) (registryOut w)
                          (channelRet (handler s)) (out s)).
        set (r2 := runOut (schedule w (S (yields s))) (registryOut w)
                          (withOutput (fst r1) (stderrSpan (parsePath curDir l)))
                          (snd r1)).
        exists [l], [], tail. eexists.
        exists [WriteJSON (fst r2) false].
        cbn [trace handler out pending final].
        splits; try reflexivity.
        -- rewrite Hs. simpl. now rewrite append_nil_r.
        -- constructor; [assumption | constructor].
        -- now left.
        -- cbn [sent flat_map app]. constructor; [|constructor].
           apply runOut_output. now left.
        -- unfold sameButOutput. cbn [handler channelRet code forbidden].
           subst r2. rewrite runOut_cmd, runOut_executable, runOut_nextCmd,
                       runOut_lints.
           cbn [withOutput cmd executable nextCmd Session.lints].
           subst r1. rewrite runOut_cmd, runOut_executable, runOut_nextCmd,
                       runOut_lints.
           repeat split.
        -- subst r2 r1. apply reach_runOut, reach_runOut, reach_here.
        -- intros [_ Hok]. rewrite Hok in Hs0. discriminate.
    + apply cutLine_None in E.
      destruct (final r) eqn:F; run_build.
      * exists [], [], (pending r). eexists. exists []. rewrite !app_nil_r.
        cbn [trace handler out].
        splits; solve_easy; try apply reach_here.
      * exists [], [pending r], EmptyString. eexists. exists []. rewrite app_nil_r.
        cbn [trace handler out].
        splits; solve_easy; try (simpl; now rewrite !append_nil_r);
          try apply reach_here.
        right. splits; [discriminate | reflexivity | now eexists].
      * exists [], [pending r], EmptyString. eexists. exists []. rewrite app_nil_r.
        cbn [trace handler out].
        splits; solve_easy; try (simpl; now rewrite !append_nil_r);
          try apply reach_here.
        right. splits; [discriminate | reflexivity | now eexists].
  - exists [], [], (pending r). eexists. exists []. rewrite !app_nil_r.
    cbn [trace handler out].
    splits; solve_easy; try apply reach_here.
    intros [Hlive _]. rewrite Hlive in Hl. discriminate.
Qed.

End WithCollaborators.

End RelayFacts.

(** * The ways an invocation of the build handler can go *)

Module HandlerFacts.

Import GoString GoStringFacts Lints Session Bufio Build DrainFacts RelayFacts.

(** The argument vector of the compile command, lines 120-127. *)
Definition compileArgv (req : Request) : list string :=
  "go" :: "build" :: buildArgs req
  ++ (if existsb (String.eqb "-i") (buildArgs req) then [] else ["-i"]).

(** An event that is neither the start of the process nor the wait for it. *)
Definition notProcessEvent (e : Event) : bool :=
  negb (isStart e) && negb (isWait e).

Lemma channelEvents_notProcess (es : list Event) :
  forallb isChannelEvent es = true -> forallb notProcessEvent es = true.
Proof.
  induction es as [|e es IH]; simpl; [reflexivity|].
  intros H. apply andb_true_iff in H as [He Hes].
  rewrite (IH Hes), andb_true_r. destruct e; try discriminate; reflexivity.
Qed.

Lemma compileArgv_eq (req : Request) :
  "go" :: (if negb (StrContains "-i" ("build" :: buildArgs req))
           then ("build" :: buildArgs req) ++ ["-i"]
           else "build" :: buildArgs req)
  = compileArgv req.
Proof.
  unfold compileArgv, StrContains. cbn [existsb].
  change (String.eqb "-i" "build") with false. cbn [orb].
  destruct (existsb _ _); cbn [negb app]; [now rewrite app_nil_r | reflexivity].
Qed.

(** The value is there and is a string. *)
Definition isString (v : option Json) : bool :=
  match v with Some (JString _) => true | _ => false end.

(** The path of the source file, when [args["file"]] is a string. *)
Definition filePathOf (req : Request) : string :=
  match args req "file" with
  | Some (JString file) => getPath req file
  | _ => EmptyString
  end.

Definition curDirOf (req : Request) : string := Filepath.Dir (filePathOf req).

Definition executableOf (req : Request) : string :=
  Filepath.Join (curDirOf req) (Filepath.Base (curDirOf req)).

(** The handler ends before it announces or runs anything: the request is
    refused, the source file cannot be created or written, or one of the
    values asserted to be strings is not one. *)
Definition turnedAway (w : World) (req : Request) : bool :=
  sessionIsNew w || negb (isString (sessionUid w)) || negb (decodeOk w)
  || negb (isString (args req "sid")) || negb (isString (args req "file"))
  || accessDenied w || negb (createOk w)
  || negb (isString (args req "code")) || negb (writeOk w).

(** Every value the handler asserts to be a string is one. *)
Definition assertionsHold (w : World) (req : Request) : bool :=
  isString (sessionUid w) && isString (args req "sid")
  && isString (args req "file") && isString (args req "code").

Lemma outputIs_withLints (x : string) (t : OutTask) (m : Msg) (ds : list Lint) :
  outputIs x t m -> outputIs x t (withLints m ds).
Proof. intros H. exact H. Qed.

Ltac away_returned :=
  match goal with
  | Hrun : _ = (_, _) |- _ =>
      injection Hrun as <- <-; left; splits; try reflexivity; left; split;
      [reflexivity | first [now left | now right]]
  end.

Ltac away_panicked :=
  match goal with
  | Hrun : _ = (_, _) |- _ =>
      injection Hrun as <- <-; left; splits; try reflexivity; right;
      splits; reflexivity
  end.

Section WithCollaborators.

Variable i18n : string -> string -> string.
Variable parsePath : string -> string -> string.

(** How an invocation that started the build process went on: [t] is the
    stdout task when the handler ends, [fin] what the handler did after
    the wait. *)
Definition resolution (w : World) (req : Request) (lines : list string)
           (o : Outcome unit) (fin : list Event) (t : OutTask) : Prop :=
  if waitOk w then
    (o = Returned /\ fin = [])
    \/ (o = Next tt
        /\ exists m ok,
            fin = [WriteJSON m ok; Refresh]
            /\ cmd m = Some "build"
            /\ executable m = Some (executableOf req)
            /\ nextCmd m = Some (args req "nextCmd")
            /\ Session.lints m = None
            /\ outputIs ("<span class='build-succ'>"
                         ++ i18n (locale req) "build-succ"
                         ++ "</span>" ++ String newline "") t m)
  else
    match lintProcess (curDirOf req) lines with
    | Panic p => o = Panicked p /\ fin = []
    | Ok ds =>
        (o = Returned /\ fin = [])
        \/ (o = Next tt
            /\ exists m ok,
                fin = [WriteJSON m ok; Refresh]
                /\ cmd m = Some "build"
                /\ executable m = Some (executableOf req)
                /\ nextCmd m = None
                /\ Session.lints m = Some ds
                /\ outputIs ("<span class='build-error'>"
                             ++ i18n (locale req) "build-error"
                             ++ "</span>" ++ String newline "") t m)
    end.

(** The three ways the handling task can go. *)
Lemma BuildHandler_cases (w : World) (req : Request)
      (o : Outcome unit) (s : BuildState) :
  BuildHandler i18n parsePath w req (initBuild w) = (o, s) ->
  (turnedAway w req = true /\ trace (handler s) = []
   /\ out s = out (initBuild w)
   /\ ((o = Returned /\ (forbidden (handler s) = true \/ code (handler s) = -1))
       \/ (o = Panicked TypeAssertion /\ assertionsHold w req = false
           /\ forbidden (handler s) = false /\ code (handler s) = 0)))
  \/ (turnedAway w req = false /\ o = Returned /\ trace (handler s) <> []
      /\ existsb isStart (trace (handler s)) = false
      /\ existsb isWait (trace (handler s)) = false
      /\ code (handler s) = -1 /\ forbidden (handler s) = false
      /\ out s = out (initBuild w))
  \/ (turnedAway w req = false
      /\ exists pre new fin lines rest,
          trace (handler s)
          = pre ++ Start (compileArgv req) :: Spawn :: new ++ Wait :: fin
          /\ forallb notProcessEvent pre = true
          /\ forallb isChannelEvent new = true
          /\ pending (stderr w) = (joinAll lines ++ rest)%string
          /\ code (handler s) = 0 /\ forbidden (handler s) = false
          /\ OutReach (registryOut w) (started (stdout w)) (out s)
          /\ resolution w req lines o fin (out s)).
Proof.
  destruct w as [isNew uid dec denied created written modExists modRun
                 outOk errOk started pout perr waited reg regOut sched].
  unfold BuildHandler, prepareModule, resolve, resolution, turnedAway,
    assertionsHold, initBuild, executableOf, curDirOf, filePathOf.
  cbn [Build.sessionIsNew Build.sessionUid Build.decodeOk Build.accessDenied
       Build.createOk
       Build.writeOk Build.goModExists Build.goModRun Build.stdoutPipeOk
       Build.stderrPipeOk Build.startOk Build.stdout Build.stderr
       Build.waitOk Build.registry Build.registryOut Build.schedule].
  intros Hrun.
  destruct isNew; run_build_in Hrun; [away_returned|].
  destruct uid as [[u|raw]|]; run_build_in Hrun; try away_panicked.
  destruct dec; run_build_in Hrun; [|away_returned].
  destruct (args req "sid") as [[sid|raw]|] eqn:Hsid; run_build_in Hrun;
    try away_panicked.
  destruct (args req "file") as [[file|raw]|] eqn:Hfile; run_build_in Hrun;
    try away_panicked.
  destruct denied; run_build_in Hrun; [away_returned|].
  destruct created; run_build_in Hrun; [|away_returned].
  destruct (args req "code") as [[src|raw]|] eqn:Hcode; run_build_in Hrun;
    try away_panicked.
  destruct written; run_build_in Hrun; [|away_returned].
  right.
  destruct (live reg 0); run_build_in Hrun;
    destruct (modRun _) as [text failed];
    (destruct (failed && Contains text "go.mod already exists"); run_build_in Hrun;
     [injection Hrun as <- <-; left; splits; try reflexivity; discriminate|]);
    (destruct outOk, errOk, started; run_build_in Hrun;
     try (injection Hrun as <- <-; left; splits; try reflexivity; discriminate)).
  all: right; split; [reflexivity|].
  all: match type of Hrun with
       | context [drainStderr ?pp ?ww ?f ?d ?r ?ls ?s0] =>
           destruct (drainStderr_relay pp ww d f r ls s0)
             as (full & partial & rest & s1 & new & Hdr & Htr & Hpre & _ & _
                 & _ & Hev & Hsame & Hreach & _); [cbn [pending]; lia|];
           rewrite Hdr in Hrun; run_build_in Hrun
       end.
  all: rewrite compileArgv_eq in Htr.
  all: unfold sameButOutput in Hsame;
    cbn [handler channelRet code forbidden cmd executable nextCmd Session.lints
         withCmd withOutput withExecutable emptyMsg] in Hsame;
    destruct Hsame as (C1 & C2 & C3 & C4 & C5 & C6);
    rewrite append_nil_r in C2.
  all: cbn [handler out] in Hreach.
  all: destruct waited; run_build_in Hrun;
    [| destruct (lintProcess (Filepath.Dir (getPath req file)) (full ++ partial))
         as [ds|p] eqn:Hlint; run_build_in Hrun ].
  all: try (destruct (live reg (reads (handler s1))); run_build_in Hrun).
  all: injection Hrun as <- <-.
  all: match type of Htr with
       | trace _ = ?lit ++ _ => exists (removelast (removelast lit))
       end;
    exists new; eexists; exists (full ++ partial), rest;
    cbn [handler out trace code forbidden removelast]; rewrite Htr, C5, C6;
    rewrite <- ?app_assoc; cbn [app];
    (split; [reflexivity|]);
    splits; try reflexivity; try assumption.
  all: try (repeat apply reach_runOut; exact Hreach).
  all: try rewrite Hlint.
  all: try (now left).
  all: try (now split).
  all: right; split; [reflexivity|]; eexists; eexists; split; [reflexivity|].
  all: splits.
  all: repeat (progress (rewrite ?runOut_cmd, ?runOut_executable, ?runOut_nextCmd,
                           ?runOut_lints;
                         cbn [withOutput withNextCmd withLints cmd executable
                              nextCmd Session.lints])).
  all: try assumption; try reflexivity.
  all: first [ apply runOut_output; left; reflexivity
             | apply runOut_output, outputIs_withLints, runOut_output;
               left; reflexivity ].
Qed.

Lemma resolution_fin (w : World) (req : Request) (lines : list string)
      (o : Outcome unit) (fin : list Event) (t : OutTask) :
  resolution w req lines o fin t -> forallb notProcessEvent fin = true.
Proof.
  unfold resolution. destruct (waitOk w).
  - intros [[_ ->] | [_ (m & ok & -> & _)]]; reflexivity.
  - destruct (lintProcess _ _).
    + intros [[_ ->] | [_ (m & ok & -> & _)]]; reflexivity.
    + intros [_ ->]. reflexivity.
Qed.

Lemma existsb_isStart_notProcess (es : list Event) :
  forallb notProcessEvent es = true ->
  existsb isStart es = false /\ existsb isWait es = false.
Proof.
  induction es as [|e es IH]; simpl; [now split|].
  intros H. apply andb_true_iff in H as [He Hes].
  destruct (IH Hes) as [-> ->]. unfold notProcessEvent in He.
  apply andb_true_iff in He as [H1 H2].
  apply negb_true_iff in H1, H2. now rewrite H1, H2.
Qed.

(** [runBuild] and [runBuildTasks] in terms of the handling task. *)
Lemma runBuild_handler (w : World) (req : Request)
      (o : Outcome unit) (st : TaskState) :
  runBuild i18n parsePath w req = (o, st) ->
  exists s, BuildHandler i18n parsePath w req (initBuild w) = (o, s)
            /\ st = handler s.
Proof.
  unfold runBuild.
  destruct (BuildHandler i18n parsePath w req (initBuild w)) as [o' s].
  cbn [fst snd]. intros [= <- <-]. now exists s.
Qed.

Lemma runBuildTasks_handler (w : World) (req : Request)
      (o : Outcome unit) (s' : BuildState) :
  runBuildTasks i18n parsePath w req = (o, s') ->
  exists s, BuildHandler i18n parsePath w req (initBuild w) = (o, s)
            /\ s' = finishOut w s.
Proof.
  unfold runBuildTasks.
  destruct (BuildHandler i18n parsePath w req (initBuild w)) as [o' s].
  cbn [fst snd]. intros [= <- <-]. now exists s.
Qed.

Lemma started_trace (w : World) (req : Request)
      (o : Outcome unit) (st : TaskState) :
  runBuild i18n parsePath w req = (o, st) ->
  existsb isStart (trace st) = true ->
  exists pre mid fin,
    trace st = pre ++ Start (compileArgv req) :: mid ++ Wait :: fin
    /\ forallb notProcessEvent (pre ++ mid ++ fin) = true
    /\ code st = 0 /\ forbidden st = false.
Proof.
  intros Hrun Hstart.
  destruct (runBuild_handler w req o st Hrun) as (s & Hs & ->).
  destruct (BuildHandler_cases w req o s Hs)
    as [(_ & Htr & _) | [(_ & _ & _ & Hns & _) | (_ & H)]].
  - rewrite Htr in Hstart. discriminate.
  - rewrite Hns in Hstart. discriminate.
  - destruct H as (pre & new & fin & lines & rest & Htr & Hpre & Hnew & _
                   & Hcode & Hforb & _ & Hres).
    exists pre, (Spawn :: new), fin. splits; try assumption.
    rewrite !forallb_app. cbn [forallb notProcessEvent isStart isWait negb andb].
    now rewrite Hpre, (channelEvents_notProcess _ Hnew),
      (resolution_fin _ _ _ _ _ _ Hres).
Qed.

(** The stdout task does nothing before the [go] statement. *)
Lemma runOut_notStarted (reg : Registry) (n : nat) :
  forall (m : Msg) (t : OutTask),
    outPhase t = OutNotStarted -> runOut n reg m t = (m, t).
Proof.
  induction n as [|n IH]; intros m t H; cbn [runOut]; [reflexivity|].
  unfold outStep. rewrite H. cbn [fst snd]. now apply IH.
Qed.

(** Where the stdout task is once both tasks have ended: it has not been
    started, or it has left its loop after taking whole lines off its
    pipe, in order, and handing each of them to a send. *)
Lemma stdout_task_ended (w : World) (req : Request)
      (o : Outcome unit) (s : BuildState) :
  runBuildTasks i18n parsePath w req = (o, s) ->
  trace (handler s) = trace (snd (runBuild i18n parsePath w req))
  /\ ((existsb isStart (trace (handler s)) = false
       /\ out s = out (initBuild w))
      \/ (existsb isStart (trace (handler s)) = true
          /\ outPhase (out s) = OutDone
          /\ OutReach (registryOut w) (started (stdout w)) (out s)
          /\ exists rest,
              pending (stdout w) = (joinAll (outLines (out s)) ++ rest)%string
              /\ Forall terminated (outLines (out s))
              /\ List.length (sent (outTrace (out s)))
                 = List.length (outLines (out s))
              /\ forallb isChannelEvent (outTrace (out s)) = true
              /\ (alwaysPresent (registryOut w) ->
                  occurs newline rest = false))).
Proof.
  intros Hrun.
  destruct (runBuildTasks_handler w req o s Hrun) as (s0 & Hs & ->).
  unfold runBuild. rewrite Hs. cbn [fst snd].
  unfold finishOut. cbn [handler out trace setChannelRet].
  split; [reflexivity|].
  destruct (BuildHandler_cases w req o s0 Hs)
    as [(_ & Htr & Hout & _) | [(_ & _ & _ & Hns & _ & _ & _ & Hout) | (_ & H)]].
  - left. rewrite Htr, Hout. split; [reflexivity|].
    now rewrite runOut_notStarted.
  - left. rewrite Hns, Hout. split; [reflexivity|].
    now rewrite runOut_notStarted.
  - right.
    destruct H as (pre & new & fin & lines & rest & Htr & _ & _ & _ & _ & _
                   & Hreach & _).
    set (t := snd (runOut _ (registryOut w) (channelRet (handler s0)) (out s0))).
    assert (Hr : OutReach (registryOut w) (started (stdout w)) t)
      by (now apply reach_runOut).
    assert (Hend : ended t) by (apply runOut_ended, outFuel_bound).
    destruct (reach_inv _ _ _ Hr)
      as (rest' & Hpre & Hall & _ & Hlen & Hev & Hns & Hdone).
    assert (Hph : outPhase t = OutDone) by (destruct Hend; [contradiction | assumption]).
    splits; try assumption.
    + rewrite Htr, existsb_app. cbn [existsb isStart]. now rewrite orb_true_r.
    + exists rest'. splits; try assumption.
      * unfold holding in Hlen. rewrite Hph in Hlen. lia.
      * intros Hreg. now apply Hdone.
Qed.

End WithCollaborators.

End HandlerFacts.

(** * Properties of the build handler *)

Module BuildProps.

Import GoString GoStringFacts Lints Session Bufio Build.
Import DrainFacts RelayFacts HandlerFacts.

Section WithCollaborators.

Variable i18n : string -> string -> string.
Variable parsePath : string -> string -> string.

(** C6 (as amended): both drains end, and the lines they produce keep
    their trailing newline.

    The stderr loop, from any state of the two tasks, returns its slice
    [lines] after finitely many steps.  The slice is made of the pieces
    [full], each some bytes without a newline followed by their newline,
    and of at most one last piece [partial]; the pieces are consecutive
    pieces of the pipe, in order; a last piece without newline is
    buffered only when the pipe ended with an error other than
    end-of-file, it then holds what was left of the pipe, and it is not
    handed to a send, while each of the pieces [full] is; while the
    channel is there and takes every message, every line of the pipe that
    has its newline is in the slice.

    The stdout task, in every invocation, has not been started or has
    left its loop when both tasks have ended.  The lines it took from its
    pipe and put under the [output] key of the shared map are consecutive
    pieces of the pipe, in order, each some bytes without a newline
    followed by their newline; it has handed the map to a send once for
    each of them; while the channel is there and takes every message,
    every line of the pipe that has its newline has been taken. *)
Theorem drained_lines_keep_newline (w : World) (req : Request)
        (curDir : string) (s : BuildState) :
  (exists full partial rest s',
      drainStderr parsePath w (S (String.length (pending (stderr w)))) curDir
                  (stderr w) [] s
      = (Next (full ++ partial), s')
      /\ pending (stderr w) = (joinAll (full ++ partial) ++ rest)%string
      /\ Forall terminated full
      /\ (partial = []
          \/ (final (stderr w) <> EOF /\ rest = EmptyString
              /\ exists p, partial = [p] /\ occurs newline p = false))
      /\ List.length (sent (trace (handler s')))
         = (List.length (sent (trace (handler s))) + List.length full)%nat
      /\ (alwaysPresent (registry w) -> occurs newline rest = false))
  /\ (exists o s' rest,
         runBuildTasks i18n parsePath w req = (o, s')
         /\ (outPhase (out s') = OutNotStarted \/ outPhase (out s') = OutDone)
         /\ pending (stdout w) = (joinAll (outLines (out s')) ++ rest)%string
         /\ Forall terminated (outLines (out s'))
         /\ List.length (sent (outTrace (out s')))
            = List.length (outLines (out s'))
         /\ (outPhase (out s') = OutDone ->
             alwaysPresent (registryOut w) -> occurs newline rest = false)).
Proof.
  split.
  - destruct (drainStderr_relay parsePath w curDir
                (S (String.length (pending (stderr w)))) (stderr w) [] s)
      as (full & partial & rest & s' & new & Hrun & Htr & Hpre & Hfull & Hpart
          & Hsent & _ & _ & _ & Hall); [lia|].
    exists full, partial, rest, s'. splits; try assumption.
    rewrite Htr, sent_app, List.length_app.
    now rewrite (Forall2_length Hsent).
  - destruct (runBuildTasks i18n parsePath w req) as [o s'] eqn:Hrun.
    destruct (stdout_task_ended i18n parsePath w req o s' Hrun)
      as [_ [[_ Hout] | (_ & Hph & _ & rest & Hpre & Hall & Hlen & _ & Hdone)]].
    + exists o, s', (pending (stdout w)). rewrite Hout.
      cbn [initBuild out outPhase outLines outTrace joinAll fold_right sent
           flat_map List.length].
      splits; try reflexivity; [now left | constructor |].
      intros H. discriminate H.
    + exists o, s', rest. splits; try assumption; [reflexivity | now right |].
      intros _. exact Hdone.
Qed.

(** Module preparation aborts exactly when the command failed and its
    output mentions that the descriptor already exists. *)
Lemma prepareModule_aborts_iff (w : World) (curDir : string) (st : TaskState) :
  let argv := if negb (goModExists w)
              then ["go"; "mod"; "init"; Filepath.Base curDir]
              else ["go"; "mod"; "tidy"] in
  fst (prepareModule w curDir st) = Returned
  <-> (snd (goModRun w argv) = true
       /\ Contains (fst (goModRun w argv)) "go.mod already exists" = true).
Proof.
  cbv zeta. unfold prepareModule. run_task.
  destruct (goModRun w _) as [out failed]. cbn [fst snd].
  destruct failed, (Contains out "go.mod already exists"); cbn [andb fst];
    split; try discriminate; try (intros [? ?]; discriminate);
    try reflexivity; auto.
Qed.

(** C7: with no channel in the registry throughout an invocation whose
    build process was started, nothing is sent and [cmd.Wait()] is still
    performed; the handler returns when the build succeeded, and panics
    in the package-marker check on the empty slice when it failed. *)
Theorem absent_channel_build (w : World) (req : Request)
        (o : Outcome unit) (st : TaskState) :
  runBuild i18n parsePath w req = (o, st) ->
  (forall k, live (registry w) k = false) ->
  existsb isStart (trace st) = true ->
  existsb isWait (trace st) = true
  /\ sent (trace st) = []
  /\ o = if waitOk w then Returned else Panicked IndexOutOfRange.
Proof.
  intros Hrun Hlive Hstart.
  destruct (runBuild_handler i18n parsePath w req o st Hrun) as (s & Hs & ->).
  clear Hrun. revert Hs Hlive Hstart.
  destruct w as [isNew uid dec denied created written modExists modRun
                 outOk errOk started pout perr waited reg regOut sched].
  unfold BuildHandler, prepareModule, resolve, initBuild.
  cbn [Build.sessionIsNew Build.sessionUid Build.decodeOk Build.accessDenied
       Build.createOk Build.writeOk Build.goModExists Build.goModRun
       Build.stdoutPipeOk Build.stderrPipeOk Build.startOk Build.stdout
       Build.stderr Build.waitOk Build.registry Build.registryOut
       Build.schedule].
  intros Hrun Hlive Hstart.
  destruct isNew; run_build_in Hrun;
    [injection Hrun as <- <-; discriminate Hstart|].
  destruct uid as [[u|raw]|]; run_build_in Hrun;
    try (injection Hrun as <- <-; discriminate Hstart).
  destruct dec; run_build_in Hrun;
    [|injection Hrun as <- <-; discriminate Hstart].
  destruct (args req "sid") as [[sid|raw]|]; run_build_in Hrun;
    try (injection Hrun as <- <-; discriminate Hstart).
  destruct (args req "file") as [[file|raw]|]; run_build_in Hrun;
    try (injection Hrun as <- <-; discriminate Hstart).
  destruct denied, created; run_build_in Hrun;
    try (injection Hrun as <- <-; discriminate Hstart).
  destruct (args req "code") as [[src|raw]|]; run_build_in Hrun;
    try (injection Hrun as <- <-; discriminate Hstart).
  destruct written; run_build_in Hrun;
    [|injection Hrun as <- <-; discriminate Hstart].
  rewrite Hlive in Hrun. run_build_in Hrun.
  destruct (modRun _) as [text failed].
  destruct (failed && Contains text "go.mod already exists"); run_build_in Hrun;
    [injection Hrun as <- <-; discriminate Hstart|].
  destruct outOk, errOk, started; run_build_in Hrun;
    try (injection Hrun as <- <-; discriminate Hstart).
  cbn [drainStderr] in Hrun. run_build_in Hrun.
  rewrite Hlive in Hrun. run_build_in Hrun.
  destruct waited; run_build_in Hrun.
  - rewrite Hlive in Hrun. run_build_in Hrun.
    injection Hrun as <- <-. repeat split.
  - change (lintProcess (Filepath.Dir (getPath req file)) [])
      with (@Panic (list Lint) IndexOutOfRange) in Hrun.
    cbv iota in Hrun. injection Hrun as <- <-. repeat split.
Qed.

End WithCollaborators.

(** C9: the lint process indexes out of range on an empty slice of
    captured lines, on an empty first line, and on a leading continuation
    line. *)
Theorem lintProcess_out_of_range (curDir : string) :
  lintProcess curDir [] = Panic IndexOutOfRange
  /\ lintProcess curDir [""] = Panic IndexOutOfRange
  /\ lintProcess curDir [String tab "want: int"] = Panic IndexOutOfRange.
Proof. repeat split. Qed.

(** *** Concrete invocations *)

Definition keyText (locale key : string) : string := key.

Definition samePath (curDir line : string) : string := line.

Definition neverLive : Registry := mkRegistry (fun _ => false) (fun _ => true).

Definition alwaysLive : Registry := mkRegistry (fun _ => true) (fun _ => true).

(** The body [{"sid": "s1", "file": "main.go", "code": "package main"}]
    of a user whose files are under [/proj]. *)
Definition buildArgsMap (key : string) : option Json :=
  if String.eqb key "sid" then Some (JString "s1")
  else if String.eqb key "file" then Some (JString "main.go")
  else if String.eqb key "code" then Some (JString "package main")
  else None.

Definition buildRequest : Request :=
  mkRequest buildArgsMap (fun file => "/proj/" ++ file)%string "en_US" [].

(** A build whose module preparation answers [answer] and whose compiler
    writes [errText] to stderr; the stdout task takes one step at each
    access of the handler to the shared map. *)
Definition buildWorld (answer : string * bool) (errText : string)
           (exitOk : bool) (reg : Registry) : World :=
  mkWorld false (Some (JString "u1")) true false true true false
          (fun _ => answer)
          true true true (mkReader "" EOF) (mkReader errText EOF)
          exitOk reg alwaysLive (fun _ => 1%nat).

Definition raceLost : string * bool :=
  ("go: /proj/go.mod already exists", true).

Definition noModulePath : string * bool :=
  ("go: cannot determine module path for source directory /proj", true).

Definition prepared : string * bool := ("", false).

(** C1: [go mod init] loses the race against another initialisation and
    reports that the descriptor already exists: the handler sets the
    failure code and returns without starting the build.  A failure of
    another kind does not stop it: the build is started. *)
Theorem module_already_exists_aborts :
  (let r := runBuild keyText samePath
                     (buildWorld raceLost "" true alwaysLive) buildRequest in
   fst r = Returned /\ code (snd r) = -1
   /\ existsb isStart (trace (snd r)) = false)
  /\ (let r := runBuild keyText samePath
                        (buildWorld noModulePath "" true alwaysLive) buildRequest in
      fst r = Next tt /\ code (snd r) = 0
      /\ existsb isStart (trace (snd r)) = true).
Proof. vm_compute. repeat split. Qed.

(** C6, the claim as written fails: the line buffered from a stderr pipe
    holding one line still has its newline. *)
Lemma stderr_line_keeps_newline :
  ~ (forall lines s,
        drainStderr samePath (buildWorld prepared "" false alwaysLive)
                    3 "/proj"
                    (mkReader (String "x" (String newline "")) EOF) []
                    (initBuild (buildWorld prepared "" false alwaysLive))
        = (Next lines, s) ->
        Forall (fun l => endsWith newline l = false) lines).
Proof.
  intros H.
  assert (E : exists s,
             drainStderr samePath (buildWorld prepared "" false alwaysLive)
                         3 "/proj"
                         (mkReader (String "x" (String newline "")) EOF) []
                         (initBuild (buildWorld prepared "" false alwaysLive))
             = (Next [String "x" (String newline "")], s))
    by (eexists; vm_compute; reflexivity).
  destruct E as (s & E). specialize (H _ _ E).
  inversion H as [|? ? Hx _]. discriminate Hx.
Qed.

Lemma absent_channel_build_witness :
  let r := runBuild keyText samePath
                    (buildWorld prepared "" false neverLive) buildRequest in
  existsb isWait (trace (snd r)) = true
  /\ sent (trace (snd r)) = []
  /\ fst r = Panicked IndexOutOfRange.
Proof.
  cbv zeta.
  refine (absent_channel_build keyText samePath
            (buildWorld prepared "" false neverLive) buildRequest
            (fst (runBuild keyText samePath
                           (buildWorld prepared "" false neverLive) buildRequest))
            (snd (runBuild keyText samePath
                           (buildWorld prepared "" false neverLive) buildRequest))
            _ _ _).
  - vm_compute; reflexivity.
  - intros k; reflexivity.
  - vm_compute; reflexivity.
Defined.

End BuildProps.

(** * Further properties of the lint classification *)

Module LintExtra.

Import GoString GoStringFacts Lints LintFacts.

Lemma at_last_inv {A : Type} (xs : list A) (l : A) :
  at_ xs (Z.of_nat (List.length xs) - 1) = Ok l ->
  exists prev, xs = prev ++ [l].
Proof.
  destruct xs as [|x xs'] using rev_ind.
  - discriminate.
  - rewrite at_last. intros [= <-]. now exists xs'.
Qed.

(** What one step of the loop can do to the diagnostics: nothing, add one
    diagnostic of severity "error" at the end, or extend the message of the
    last one. *)
Lemma lintLine_cases (curDir line : string) (lints lints' : list Lint) :
  lintLine curDir line lints = Ok lints' ->
  lints' = lints
  \/ (exists d, lints' = lints ++ [d] /\ Severity d = lintSeverityError)
  \/ (exists prev l, lints = prev ++ [l]
                     /\ lints' = prev ++ [withMsg l (Msg l ++ line)]).
Proof.
  intros Hstep.
  destruct (Index_byte_cases colon line)
    as [[Hno _] | (path & rest & -> & Hpath & _)].
  - rewrite lintLine_no_colon in Hstep by assumption.
    left. now injection Hstep.
  - rewrite lintLine_at_colon in Hstep by assumption.
    destruct (HasPrefix _ _).
    + destruct (at_ lints _) as [l|] eqn:El; [|discriminate].
      simpl in Hstep. injection Hstep as <-.
      destruct (at_last_inv _ _ El) as (prev & ->).
      right. right. exists prev, l. split; [reflexivity|].
      rewrite List.length_app. simpl List.length.
      replace (Z.to_nat (Z.of_nat (List.length prev + 1) - 1))
        with (List.length prev) by lia.
      now rewrite setAt_last.
    + destruct (lineNoAndMsg rest) as [[[n m]|]|]; simpl in Hstep;
        try discriminate; injection Hstep as <-.
      * right. left. eexists. split; reflexivity.
      * now left.
Qed.

(** X1: lines without a colon are never turned into diagnostics, whatever
    else they contain: a capture made only of such lines leaves the
    diagnostics as they are. *)
Theorem lintLoop_no_colon (curDir : string) (lines : list string)
        (lints : list Lint) :
  Forall (fun l => occurs colon l = false) lines ->
  lintLoop curDir lines lints = Ok lints.
Proof.
  induction 1 as [|line rest Hline _ IH]; simpl; [reflexivity|].
  now rewrite lintLine_no_colon.
Qed.

(** X2: a line [path:N:...] whose token [N] is an integer and which does
    not start with a tab adds exactly one diagnostic, for the file
    [curDir/path] and line [N - 1], whose message is what follows the byte
    after the second colon; when nothing follows the second colon the slice
    [left[index+2:]] is out of range. *)
Theorem lintLine_numbered (curDir path tok rest : string) (c : ascii)
        (n : Z) (lints : list Lint) :
  occurs colon path = false ->
  occurs colon tok = false ->
  HasPrefix path (String tab "") = false ->
  Strconv.Atoi tok = Some n ->
  lintLine curDir (path ++ ":" ++ tok ++ ":" ++ String c rest) lints
  = Ok (lints ++ [mkLint (Filepath.ToSlash (Filepath.Join curDir path))
                         (Strconv.wrap (n - 1)) lintSeverityError rest])
  /\ lintLine curDir (path ++ ":" ++ tok ++ ":") lints = Panic SliceOutOfRange.
Proof.
  intros Hpath Htok Htab Hn.
  assert (Hnt : forall tail,
             HasPrefix (path ++ String colon tail) (String tab "") = false).
  { intros tail. rewrite HasPrefix_byte in *. destruct path; [reflexivity | exact Htab]. }
  split.
  - change (path ++ ":" ++ tok ++ ":" ++ String c rest)%string
      with (path ++ String colon (tok ++ String colon (String c rest)))%string.
    rewrite lintLine_at_colon, Hnt, lineNoAndMsg_token, Hn by assumption.
    rewrite sliceFrom_app by lia.
    change (String colon (String c rest))
      with (String colon (String c "") ++ rest)%string.
    change 2 with (len (String colon (String c "")) + 0).
    rewrite sliceFrom_app, sliceFrom_0 by lia. reflexivity.
  - change (path ++ ":" ++ tok ++ ":")%string
      with (path ++ String colon (tok ++ String colon ""))%string.
    rewrite lintLine_at_colon, Hnt, lineNoAndMsg_token, Hn by assumption.
    rewrite sliceFrom_app by lia. reflexivity.
Qed.

Lemma lintLoop_invariant (P : list Lint -> Prop) (curDir : string) :
  (forall line lints lints',
      lintLine curDir line lints = Ok lints' -> P lints -> P lints') ->
  forall lines lints out,
    lintLoop curDir lines lints = Ok out -> P lints -> P out.
Proof.
  intros Hstep. induction lines as [|line rest IH]; intros lints out; simpl.
  - now intros [= <-].
  - destruct (lintLine curDir line lints) as [lints'|] eqn:E; [|discriminate].
    simpl. intros Hloop HP. apply (IH lints' out Hloop). eapply Hstep; eassumption.
Qed.

(** X3: every diagnostic the lint process returns has severity "error". *)
Theorem lintProcess_severity (curDir : string) (lines : list string)
        (lints : list Lint) :
  lintProcess curDir lines = Ok lints ->
  Forall (fun d => Severity d = lintSeverityError) lints.
Proof.
  unfold lintProcess.
  destruct (skipPackageLine lines) as [lines'|]; [|discriminate]. simpl.
  intros H.
  apply (lintLoop_invariant (Forall (fun d => Severity d = lintSeverityError))
           curDir) with (lines := lines') (lints := []); [|assumption|constructor].
  intros line ls ls' Hstep HP.
  destruct (lintLine_cases _ _ _ _ Hstep)
    as [-> | [(d & -> & Hd) | (prev & l & -> & ->)]].
  - assumption.
  - apply Forall_app. split; [assumption | now constructor].
  - apply Forall_app in HP as [Hprev Hl]. apply Forall_app. split; [assumption|].
    constructor; [|constructor]. now inversion Hl.
Qed.

Lemma lintLine_length (curDir line : string) (lints lints' : list Lint) :
  lintLine curDir line lints = Ok lints' ->
  (List.length lints <= List.length lints' <= S (List.length lints))%nat.
Proof.
  intros Hstep.
  destruct (lintLine_cases _ _ _ _ Hstep)
    as [-> | [(d & -> & _) | (prev & l & -> & ->)]];
    rewrite ?List.length_app; simpl; lia.
Qed.

Lemma lintLoop_length (curDir : string) :
  forall lines lints out,
    lintLoop curDir lines lints = Ok out ->
    (List.length lints <= List.length out
     <= List.length lints + List.length lines)%nat.
Proof.
  induction lines as [|line rest IH]; intros lints out; simpl.
  - intros [= <-]. lia.
  - destruct (lintLine curDir line lints) as [lints'|] eqn:E; [|discriminate].
    simpl. intros Hloop. apply IH in Hloop. apply lintLine_length in E. lia.
Qed.

(** X4: the lint process returns at most one diagnostic per captured line. *)
Theorem lintProcess_length (curDir : string) (lines : list string)
        (lints : list Lint) :
  lintProcess curDir lines = Ok lints ->
  (List.length lints <= List.length lines)%nat.
Proof.
  unfold lintProcess, skipPackageLine.
  destruct (at_ lines 0) as [first|]; [|discriminate]. simpl.
  destruct (byteAt first 0) as [c|]; [|discriminate]. simpl.
  destruct (Ascii.eqb c hash); simpl; intros H; apply lintLoop_length in H;
    simpl in H; [destruct lines; simpl in *; lia | lia].
Qed.

Lemma endsWith_app_cons (c d : ascii) (a b : string) :
  endsWith c (a ++ String d b) = endsWith c (String d b).
Proof.
  induction a as [|x a IH]; [reflexivity|].
  rewrite <- IH. simpl. destruct a; reflexivity.
Qed.

Lemma endsWith_cons_app (c x d : ascii) (a b : string) :
  endsWith c (String x (a ++ String d b)) = endsWith c (String d b).
Proof. rewrite <- (endsWith_app_cons c d a b). destruct a; reflexivity. Qed.

(** One step on a line that still has its newline does not panic, unless
    the line is a continuation and there is no diagnostic yet. *)
Lemma lintLine_safe (curDir line : string) (lints : list Lint) :
  endsWith newline line = true ->
  lints <> [] \/ HasPrefix line (String tab "") = false ->
  exists lints', lintLine curDir line lints = Ok lints'.
Proof.
  intros Hnl Hcase.
  destruct (Index_byte_cases colon line)
    as [[Hno _] | (path & rest & -> & Hpath & _)].
  - rewrite lintLine_no_colon by assumption. now eexists.
  - rewrite lintLine_at_colon by assumption.
    destruct (HasPrefix _ _) eqn:Htab.
    + destruct Hcase as [Hne | Hf]; [|discriminate].
      destruct (exists_last Hne) as (prev & l & ->).
      rewrite at_last. simpl. now eexists.
    + destruct (Index_byte_cases colon rest)
        as [[Hno _] | (tok & msg & -> & Htok & _)].
      * rewrite lineNoAndMsg_no_colon by assumption. simpl. now eexists.
      * rewrite lineNoAndMsg_token by assumption.
        destruct (Strconv.Atoi tok) as [n|]; [|simpl; now eexists].
        rewrite endsWith_app_cons, endsWith_cons_app in Hnl.
        destruct msg as [|c m]; [discriminate Hnl|].
        rewrite sliceFrom_app by lia.
        change (String colon (String c m))
          with (String colon (String c "") ++ m)%string.
        change 2 with (len (String colon (String c "")) + 0).
        rewrite sliceFrom_app, sliceFrom_0 by lia. simpl. now eexists.
Qed.

Lemma lintLoop_safe (curDir : string) :
  forall lines lints,
    Forall (fun l => endsWith newline l = true) lines ->
    lints <> [] \/ Forall (fun l => HasPrefix l (String tab "") = false) lines ->
    exists out, lintLoop curDir lines lints = Ok out.
Proof.
  induction lines as [|line rest IH]; intros lints Hnl Hcase; simpl.
  - now eexists.
  - inversion Hnl as [|? ? Hline Hrest]; subst.
    destruct (lintLine_safe curDir line lints Hline) as (lints' & E).
    { destruct Hcase as [Hne | Hall]; [now left | right; now inversion Hall]. }
    rewrite E. simpl. apply IH; [assumption|].
    destruct Hcase as [Hne | Hall]; [left | right; now inversion Hall].
    apply lintLine_length in E. destruct lints; [contradiction|].
    destruct lints'; [simpl in E; lia | discriminate].
Qed.

(** X5: on a non-empty capture of whole lines (each still ending with its
    newline) none of which starts with a tab, the lint process does not
    panic: it returns a list of diagnostics. *)
Theorem lintProcess_safe (curDir : string) (lines : list string) :
  lines <> [] ->
  Forall (fun l => endsWith newline l = true) lines ->
  Forall (fun l => HasPrefix l (String tab "") = false) lines ->
  exists lints, lintProcess curDir lines = Ok lints.
Proof.
  intros Hne Hnl Htab. destruct lines as [|first rest]; [contradiction|].
  unfold lintProcess, skipPackageLine.
  change (at_ (first :: rest) 0) with (Ok first). simpl bind.
  destruct first as [|c first'].
  - inversion Hnl as [|? ? Hf _]. discriminate Hf.
  - rewrite byteAt_0. simpl bind.
    destruct (Ascii.eqb c hash); cbn [bind tl]; apply lintLoop_safe.
    + now inversion Hnl.
    + right. now inversion Htab.
    + assumption.
    + now right.
Qed.

(** X6: once a diagnostic has been emitted, the loop does not panic on any
    sequence of whole lines, continuation lines included. *)
Theorem lintLoop_safe_after_first (curDir : string) (lines : list string)
        (lints : list Lint) :
  lints <> [] ->
  Forall (fun l => endsWith newline l = true) lines ->
  exists out, lintLoop curDir lines lints = Ok out
              /\ (List.length lints <= List.length out)%nat.
Proof.
  intros Hne Hnl.
  destruct (lintLoop_safe curDir lines lints Hnl (or_introl Hne)) as (out & E).
  exists out. split; [assumption|]. now apply lintLoop_length in E.
Qed.

(** X7: a first line that starts with [#] is discarded whatever else it
    contains; the capture behind it is classified as if it were the whole
    capture, provided that its own first line is not empty and is not a
    marker in turn. *)
Theorem lintProcess_marker_discarded (curDir marker : string) (c : ascii)
        (line : string) (rest : list string) :
  Ascii.eqb c hash = false ->
  lintProcess curDir (String hash marker :: String c line :: rest)
  = lintProcess curDir (String c line :: rest).
Proof.
  intros Hc. unfold lintProcess, skipPackageLine.
  change (at_ (String hash marker :: String c line :: rest) 0)
    with (Ok (String hash marker)).
  change (at_ (String c line :: rest) 0) with (Ok (String c line)).
  cbn [bind]. rewrite !byteAt_0. cbn [bind].
  rewrite Ascii.eqb_refl, Hc. reflexivity.
Qed.

(** *** The theorems above at concrete inputs *)

Lemma lintLoop_no_colon_witness :
  lintLoop "/proj" ["exit status 2"; String tab "have (int)"] []
  = Ok [].
Proof.
  apply (lintLoop_no_colon "/proj" ["exit status 2"; String tab "have (int)"] []).
  repeat constructor.
Defined.

Lemma lintLine_numbered_witness :
  lintLine "/proj" "a.go:7: x declared but not used" []
  = Ok [mkLint "/proj/a.go" 6 "error" "x declared but not used"]
  /\ lintLine "/proj" "a.go:7:" [] = Panic SliceOutOfRange.
Proof.
  exact (lintLine_numbered "/proj" "a.go" "7" "x declared but not used" " "%char 7 []
           eq_refl eq_refl eq_refl eq_refl).
Defined.

Lemma lintProcess_severity_witness :
  Forall (fun d => Severity d = lintSeverityError)
         [mkLint "/proj/a.go" 6 "error" "x declared but not used"].
Proof.
  apply (lintProcess_severity "/proj" ["a.go:7: x declared but not used"]).
  reflexivity.
Defined.

Lemma lintProcess_length_witness :
  (List.length [mkLint "/proj/a.go" 6 "error" "x declared but not used"]
   <= List.length ["# demo"; "a.go:7: x declared but not used"; "exit status 2"])%nat.
Proof.
  apply (lintProcess_length "/proj"
           ["# demo"; "a.go:7: x declared but not used"; "exit status 2"]).
  reflexivity.
Defined.

Definition wholeLine (s : string) : string := (s ++ String newline "")%string.

Lemma lintProcess_safe_witness :
  exists lints,
    lintProcess "/proj" [wholeLine "# demo"; wholeLine "a.go:7:"] = Ok lints.
Proof.
  apply (lintProcess_safe "/proj" [wholeLine "# demo"; wholeLine "a.go:7:"]);
    [discriminate | repeat constructor | repeat constructor].
Defined.

Lemma lintLoop_safe_after_first_witness :
  exists out,
    lintLoop "/proj" [wholeLine (String tab "want: int")]
             [mkLint "/proj/a.go" 6 "error" "mismatch"] = Ok out
    /\ (1 <= List.length out)%nat.
Proof.
  apply (lintLoop_safe_after_first "/proj" [wholeLine (String tab "want: int")]
           [mkLint "/proj/a.go" 6 "error" "mismatch"]);
    [discriminate | repeat constructor].
Defined.

Lemma lintProcess_marker_discarded_witness :
  lintProcess "/proj" ["# demo:1: not a diagnostic"; "a.go:7: x declared but not used"]
  = lintProcess "/proj" ["a.go:7: x declared but not used"].
Proof.
  exact (lintProcess_marker_discarded "/proj" " demo:1: not a diagnostic" "a"%char
           ".go:7: x declared but not used" [] eq_refl).
Defined.

End LintExtra.


(** * Further properties of the drains of the build handler *)

Module DrainExtra.

Import GoString GoStringFacts Lints Session Bufio Build BuildProps.
Import DrainFacts RelayFacts HandlerFacts.

Section WithCollaborators.

Variable i18n : string -> string -> string.
Variable parsePath : string -> string -> string.

(** X8: the stderr loop relays the pipe in order.  The lines it buffers,
    concatenated, are a prefix of what was written to the pipe; for every
    buffered line that ends with its newline the loop has handed the
    shared map to one send, in the same order, and the text that message
    carries is the line as [parsePath] returns it between
    [<span class='stderr'>] and [</span>], unless the stdout task has put
    one of its own lines under the [output] key between the assignment of
    line 233 and the send of line 235; only a last piece without newline,
    read when the pipe fails with an error other than end-of-file, is
    buffered without being handed to a send.  The loop does nothing else
    to the outside than sending and refreshing. *)
Theorem stderr_drain_in_order (w : World) (curDir : string) (s : BuildState) :
  exists full partial rest s' new,
    drainStderr parsePath w (S (String.length (pending (stderr w)))) curDir
                (stderr w) [] s
    = (Next (full ++ partial), s')
    /\ trace (handler s') = trace (handler s) ++ new
    /\ pending (stderr w) = (joinAll (full ++ partial) ++ rest)%string
    /\ Forall (fun l => endsWith newline l = true) full
    /\ (partial = []
        \/ (final (stderr w) <> EOF /\ rest = EmptyString
            /\ exists p, partial = [p] /\ occurs newline p = false))
    /\ Forall2 (fun l m =>
                  output m = Some ("<span class='stderr'>"
                                   ++ parsePath curDir l ++ "</span>")%string
                  \/ exists x, In x (outLines (out s')) /\ output m = Some x)
               full (sent new)
    /\ forallb isChannelEvent new = true.
Proof.
  destruct (drainStderr_relay parsePath w curDir
              (S (String.length (pending (stderr w)))) (stderr w) [] s)
    as (full & partial & rest & s' & new & Hrun & Htr & Hpre & Hfull & Hpart
        & Hsent & Hev & _); [lia|].
  exists full, partial, rest, s', new. splits; try assumption.
  eapply Forall_impl; [|exact Hfull]. intros l. apply terminated_endsWith.
Qed.

(** X9: while the registry holds a channel and every send succeeds, the
    stderr loop reads the pipe to its end: what it leaves unread contains
    no newline, and when the pipe ends with end-of-file every buffered line
    is a whole line, so that an unterminated last line is not buffered. *)
Theorem stderr_drain_complete (w : World) (curDir : string) (s : BuildState) :
  alwaysPresent (registry w) ->
  exists lines rest s',
    drainStderr parsePath w (S (String.length (pending (stderr w)))) curDir
                (stderr w) [] s
    = (Next lines, s')
    /\ pending (stderr w) = (joinAll lines ++ rest)%string
    /\ occurs newline rest = false
    /\ (final (stderr w) = EOF ->
        Forall (fun l => endsWith newline l = true) lines).
Proof.
  intros Hreg.
  destruct (drainStderr_relay parsePath w curDir
              (S (String.length (pending (stderr w)))) (stderr w) [] s)
    as (full & partial & rest & s' & new & Hrun & _ & Hpre & Hfull & Hpart
        & _ & _ & _ & _ & Hall); [lia|].
  exists (full ++ partial), rest, s'. splits; try assumption.
  - now apply Hall.
  - intros Heof. destruct Hpart as [-> | (Hne & _)]; [|contradiction].
    rewrite app_nil_r.
    eapply Forall_impl; [|exact Hfull]. intros l. apply terminated_endsWith.
Qed.


End WithCollaborators.

Definition alwaysOn : Registry := mkRegistry (fun _ => true) (fun _ => true).

(** A build whose compiler writes [outText] to stdout and [errText] to
    stderr and fails; the stdout task takes [steps k] steps before the
    [k]-th access of the handler to the shared map. *)
Definition chattyBuild (outText errText : string) (steps : nat -> nat) : World :=
  mkWorld false (Some (JString "u1")) true false true true true
          (fun _ => (EmptyString, false))
          true true true (mkReader outText EOF) (mkReader errText EOF)
          false alwaysOn alwaysOn steps.

Lemma stderr_drain_complete_witness :
  exists lines rest s',
    drainStderr (fun _ l => l)
                (chattyBuild "" (String "a" (String newline "tail")) (fun _ => O))
                7 "/proj"
                (mkReader (String "a" (String newline "tail")) EOF) []
                (initBuild
                   (chattyBuild "" (String "a" (String newline "tail"))
                                (fun _ => O)))
    = (Next lines, s')
    /\ String "a" (String newline "tail") = (joinAll lines ++ rest)%string
    /\ occurs newline rest = false
    /\ (EOF = EOF -> Forall (fun l => endsWith newline l = true) lines).
Proof.
  exact (stderr_drain_complete (fun _ l => l)
           (chattyBuild "" (String "a" (String newline "tail")) (fun _ => O))
           "/proj"
           (initBuild (chattyBuild "" (String "a" (String newline "tail"))
                                   (fun _ => O)))
           (conj (fun _ => eq_refl) (fun _ => eq_refl))).
Defined.


(** X29: the two tasks write one map, so that a message of one task can
    carry what the other task put there.  A compiler writes the line [o]
    to stdout and the line [a.go:1: x] to stderr, and fails; the stdout
    task assigns its line between the assignment of line 233 and the send
    of line 235 of the handler, and sends only when the handler has
    ended.  Then the message the handler sends for the stderr line
    carries the stdout line, not the stderr line, and the message the
    stdout task sends for its line carries the failure banner and the
    diagnostics. *)
Theorem shared_map_race :
  let nl := String newline "" in
  let w := chattyBuild ("o" ++ nl) ("a.go:1: x" ++ nl)
                       (fun k => match k with 1%nat => 1%nat | _ => O end) in
  let s := snd (runBuildTasks keyText samePath w buildRequest) in
  map output (sent (trace (handler s)))
  = [Some ("<span class='start-build'>start-build</span>" ++ nl)%string;
     Some ("o" ++ nl)%string;
     Some ("<span class='build-error'>build-error</span>" ++ nl)%string]
  /\ outLines (out s) = [("o" ++ nl)%string]
  /\ sent (outTrace (out s))
     = [mkMsg (Some "build")
              (Some ("<span class='build-error'>build-error</span>" ++ nl)%string)
              (Some "/proj/proj") None
              (Some [mkLint "/proj/a.go" 0 "error" ("x" ++ nl)%string])].
Proof. vm_compute. repeat split. Qed.

End DrainExtra.

(** * Further properties of the build handler *)

Module BuildExtra.

Import GoString GoStringFacts Lints Session Bufio Build BuildProps.
Import DrainFacts RelayFacts HandlerFacts DrainExtra.

Section WithCollaborators.

Variable i18n : string -> string -> string.
Variable parsePath : string -> string -> string.

(** X11: an invocation that starts the build process starts it once, with
    the compile command, and waits for it once, afterwards, whatever the
    channel does; its result code stays 0, also when the build fails. *)
Theorem build_started_once_and_waited (w : World) (req : Request)
        (o : Outcome unit) (st : TaskState) :
  runBuild i18n parsePath w req = (o, st) ->
  existsb isStart (trace st) = true ->
  exists pre mid fin,
    trace st = pre ++ Start (compileArgv req) :: mid ++ Wait :: fin
    /\ forallb notProcessEvent (pre ++ mid ++ fin) = true
    /\ code st = 0 /\ forbidden st = false.
Proof. exact (started_trace i18n parsePath w req o st). Qed.

Lemma existsb_eqb_In (x : string) (l : list string) :
  existsb (String.eqb x) l = true <-> In x l.
Proof.
  rewrite existsb_exists. split.
  - intros (y & Hin & Heq). apply String.eqb_eq in Heq. now subst.
  - intros Hin. exists x. split; [assumption | apply String.eqb_refl].
Qed.

(** X12: the command of every started build is [go build] followed by the
    user's build arguments in their order, with [-i] appended when, and only
    when, the user's arguments do not contain it already. *)
Theorem build_command_line (w : World) (req : Request)
        (o : Outcome unit) (st : TaskState) (argv : list string) :
  runBuild i18n parsePath w req = (o, st) ->
  In (Start argv) (trace st) ->
  In "-i" argv
  /\ ((In "-i" (buildArgs req) /\ argv = "go" :: "build" :: buildArgs req)
      \/ (~ In "-i" (buildArgs req)
          /\ argv = "go" :: "build" :: buildArgs req ++ ["-i"])).
Proof.
  intros Hrun Hin.
  assert (Hstart : existsb isStart (trace st) = true).
  { apply existsb_exists. exists (Start argv). now split. }
  destruct (started_trace i18n parsePath w req o st Hrun Hstart)
    as (pre & mid & fin & Htr & Hnp & _).
  assert (Hargv : argv = compileArgv req).
  { rewrite Htr in Hin. rewrite !forallb_app in Hnp.
    apply andb_true_iff in Hnp as [Hpre Hnp].
    apply andb_true_iff in Hnp as [Hmid Hfin].
    rewrite forallb_forall in Hpre, Hmid, Hfin.
    apply in_app_or in Hin as [Hin | [Hin | Hin]].
    - apply Hpre in Hin. discriminate.
    - now injection Hin.
    - apply in_app_or in Hin as [Hin | [Hin | Hin]].
      + apply Hmid in Hin. discriminate.
      + discriminate.
      + apply Hfin in Hin. discriminate. }
  subst argv. unfold compileArgv.
  destruct (existsb (String.eqb "-i") (buildArgs req)) eqn:E.
  - apply existsb_eqb_In in E. rewrite app_nil_r. split.
    + right. right. assumption.
    + left. now split.
  - split.
    + right. right. apply in_or_app. right. now left.
    + right. split; [|reflexivity].
      intros Hc. apply existsb_eqb_In in Hc. congruence.
Qed.

(** The last message of a handler that fell through its final send, and
    the lines of the stdout task. *)
Lemma final_message (w : World) (req : Request) (s : BuildState) :
  runBuildTasks i18n parsePath w req = (Next tt, s) ->
  exists earlier fin lines rest outRest,
    trace (handler s) = earlier ++ fin
    /\ pending (stderr w) = (joinAll lines ++ rest)%string
    /\ resolution i18n w req lines (Next tt) fin (out s)
    /\ pending (stdout w) = (joinAll (outLines (out s)) ++ outRest)%string.
Proof.
  intros Hrun.
  destruct (stdout_task_ended i18n parsePath w req _ s Hrun) as [_ Hout].
  destruct (runBuildTasks_handler i18n parsePath w req _ s Hrun)
    as (s0 & Hs & ->).
  destruct (BuildHandler_cases i18n parsePath w req _ s0 Hs)
    as [(_ & _ & _ & [[Ho _] | [Ho _]]) | [(_ & Ho & _) | (_ & H)]];
    try discriminate Ho.
  destruct H as (pre & new & fin & lines & rest & Htr & _ & _ & Hpre & _ & _
                 & _ & Hres).
  assert (Hr : OutReach (registryOut w) (out s0) (out (finishOut w s0)))
    by (unfold finishOut; cbn [out]; apply reach_runOut, reach_here).
  assert (Hres' : resolution i18n w req lines (Next tt) fin (out (finishOut w s0))).
  { revert Hres. unfold resolution. destruct (waitOk w).
    - intros [[Ho _] | [_ (m & ok & Hfin & K1 & K2 & K3 & K4 & K5)]];
        [discriminate Ho|].
      right. split; [reflexivity|]. exists m, ok. splits; try assumption.
      now apply (outputIs_reach (registryOut w) _ (out s0)).
    - destruct (lintProcess (curDirOf req) lines) as [ds|p];
        [|intros [Ho _]; discriminate Ho].
      intros [[Ho _] | [_ (m & ok & Hfin & K1 & K2 & K3 & K4 & K5)]];
        [discriminate Ho|].
      right. split; [reflexivity|]. exists m, ok. splits; try assumption.
      now apply (outputIs_reach (registryOut w) _ (out s0)). }
  destruct Hout as [[Hns _] | (_ & _ & _ & outRest & Hopre & _)].
  - unfold finishOut in Hns. cbn [handler trace setChannelRet] in Hns.
    rewrite Htr, existsb_app in Hns. cbn [existsb isStart] in Hns.
    rewrite orb_true_r in Hns. discriminate Hns.
  - exists (pre ++ Start (compileArgv req) :: Spawn :: new ++ [Wait]), fin,
      lines, rest, outRest.
    splits; try assumption.
    unfold finishOut. cbn [handler trace setChannelRet].
    rewrite Htr. rewrite <- !app_assoc. cbn [app]. now rewrite <- !app_assoc.
Qed.

(** X13: when the handler reaches its final send after a build that exited
    with status zero, the last message it sends has the command tag
    [build], the executable path and the caller's [nextCmd], and no
    [lints] key.  Its text is the success banner, the span of class
    [build-succ] around the localised text of key "build-succ" and a
    newline, unless the stdout task, which writes the same map, has put
    one of the lines it took from the stdout pipe under the [output] key
    after the assignment of line 246. *)
Theorem build_success_message (w : World) (req : Request) (s : BuildState) :
  runBuildTasks i18n parsePath w req = (Next tt, s) ->
  waitOk w = true ->
  exists earlier m ok outRest,
    trace (handler s) = earlier ++ [WriteJSON m ok; Refresh]
    /\ cmd m = Some "build"
    /\ executable m = Some (executableOf req)
    /\ nextCmd m = Some (args req "nextCmd")
    /\ Session.lints m = None
    /\ (output m = Some ("<span class='build-succ'>"
                         ++ i18n (locale req) "build-succ"
                         ++ "</span>" ++ String newline "")%string
        \/ exists l, In l (outLines (out s)) /\ output m = Some l)
    /\ pending (stdout w) = (joinAll (outLines (out s)) ++ outRest)%string.
Proof.
  intros Hrun Hwait.
  destruct (final_message w req s Hrun)
    as (earlier & fin & lines & rest & outRest & Htr & _ & Hres & Hout).
  unfold resolution in Hres. rewrite Hwait in Hres.
  destruct Hres as [[Ho _] | [_ (m & ok & -> & K1 & K2 & K3 & K4 & K5)]];
    [discriminate Ho|].
  exists earlier, m, ok, outRest. splits; assumption.
Qed.



(** X16: the handler sends nothing and runs no command exactly when it
    ends before the start announcement: the session is new, the body does
    not decode, access is denied, the source file cannot be created or
    written, or one of the values it asserts to be strings (the session's
    [uid], the [sid], [file] and [code] of the body) is absent or not a
    string.  It then returns with Forbidden or with result code -1, or
    panics at the assertion, which happens only when one of the four
    values is not a string. *)
Theorem build_silent_iff_rejected (w : World) (req : Request)
        (o : Outcome unit) (st : TaskState) :
  runBuild i18n parsePath w req = (o, st) ->
  (trace st = [] <-> turnedAway w req = true)
  /\ (turnedAway w req = true ->
      (o = Returned /\ (forbidden st = true \/ code st = -1))
      \/ (o = Panicked TypeAssertion /\ assertionsHold w req = false
          /\ forbidden st = false /\ code st = 0)).
Proof.
  intros Hrun.
  destruct (runBuild_handler i18n parsePath w req o st Hrun) as (s & Hs & ->).
  destruct (BuildHandler_cases i18n parsePath w req o s Hs)
    as [(Hr & Htr & _ & Ho) | [(Hr & _ & Htr & _) | (Hr & H)]].
  - split; [now split | now intros _].
  - rewrite Hr. split; [split; [contradiction | discriminate] | discriminate].
  - destruct H as (pre & new & fin & lines & rest & Htr & _).
    rewrite Hr, Htr. split; [split; [|discriminate] | discriminate].
    intros Hnil. apply app_eq_nil in Hnil as [_ Hnil]. discriminate.
Qed.

End WithCollaborators.

(** *** The theorems above at concrete invocations *)

Definition brokenBuild : World :=
  buildWorld prepared
             (String.append "a.go:1: x declared but not used" (String newline ""))
             false alwaysLive.

Definition cleanBuild : World := buildWorld prepared "" true alwaysLive.


(** A body without a [sid]. *)
Definition noSidRequest : Request :=
  mkRequest (fun key => if String.eqb key "sid" then None else buildArgsMap key)
            (fun file => "/proj/" ++ file)%string "en_US" [].

Lemma build_started_once_and_waited_witness :
  exists pre mid fin,
    trace (snd (runBuild keyText samePath brokenBuild buildRequest))
    = pre ++ Start (compileArgv buildRequest) :: mid ++ Wait :: fin
    /\ forallb notProcessEvent (pre ++ mid ++ fin) = true
    /\ code (snd (runBuild keyText samePath brokenBuild buildRequest)) = 0
    /\ forbidden (snd (runBuild keyText samePath brokenBuild buildRequest)) = false.
Proof.
  refine (build_started_once_and_waited keyText samePath brokenBuild buildRequest
            (fst (runBuild keyText samePath brokenBuild buildRequest))
            (snd (runBuild keyText samePath brokenBuild buildRequest)) _ _);
    vm_compute; reflexivity.
Defined.

Lemma build_command_line_witness :
  In "-i" ["go"; "build"; "-i"]
  /\ ((In "-i" (buildArgs buildRequest)
       /\ ["go"; "build"; "-i"] = "go" :: "build" :: buildArgs buildRequest)
      \/ (~ In "-i" (buildArgs buildRequest)
          /\ ["go"; "build"; "-i"]
             = "go" :: "build" :: buildArgs buildRequest ++ ["-i"])).
Proof.
  refine (build_command_line keyText samePath cleanBuild buildRequest
            (fst (runBuild keyText samePath cleanBuild buildRequest))
            (snd (runBuild keyText samePath cleanBuild buildRequest))
            ["go"; "build"; "-i"] _ _).
  - vm_compute; reflexivity.
  - vm_compute. repeat (first [left; reflexivity | right]).
Defined.

Lemma build_success_message_witness :
  exists earlier m ok outRest,
    trace (handler (snd (runBuildTasks keyText samePath cleanBuild buildRequest)))
    = earlier ++ [WriteJSON m ok; Refresh]
    /\ cmd m = Some "build"
    /\ executable m = Some (executableOf buildRequest)
    /\ nextCmd m = Some (args buildRequest "nextCmd")
    /\ Session.lints m = None
    /\ (output m = Some ("<span class='build-succ'>"
                         ++ keyText (locale buildRequest) "build-succ"
                         ++ "</span>" ++ String newline "")%string
        \/ exists l,
            In l (outLines (out (snd (runBuildTasks keyText samePath cleanBuild
                                                    buildRequest))))
            /\ output m = Some l)
    /\ pending (stdout cleanBuild)
       = (joinAll (outLines (out (snd (runBuildTasks keyText samePath cleanBuild
                                                     buildRequest))))
          ++ outRest)%string.
Proof.
  refine (build_success_message keyText samePath cleanBuild buildRequest
            (snd (runBuildTasks keyText samePath cleanBuild buildRequest)) _ _);
    vm_compute; reflexivity.
Defined.



Lemma build_silent_iff_rejected_witness :
  (trace (snd (runBuild keyText samePath cleanBuild noSidRequest)) = []
   <-> turnedAway cleanBuild noSidRequest = true)
  /\ (turnedAway cleanBuild noSidRequest = true ->
      (fst (runBuild keyText samePath cleanBuild noSidRequest) = Returned
       /\ (forbidden (snd (runBuild keyText samePath cleanBuild noSidRequest)) = true
           \/ code (snd (runBuild keyText samePath cleanBuild noSidRequest)) = -1))
      \/ (fst (runBuild keyText samePath cleanBuild noSidRequest)
          = Panicked TypeAssertion
          /\ assertionsHold cleanBuild noSidRequest = false
          /\ forbidden (snd (runBuild keyText samePath cleanBuild noSidRequest)) = false
          /\ code (snd (runBuild keyText samePath cleanBuild noSidRequest)) = 0)).
Proof.
  refine (build_silent_iff_rejected keyText samePath cleanBuild noSidRequest
            (fst (runBuild keyText samePath cleanBuild noSidRequest))
            (snd (runBuild keyText samePath cleanBuild noSidRequest)) _).
  vm_compute; reflexivity.
Defined.

End BuildExtra.


(** * Further properties of the test handler *)

Module TestExtra.

Import GoString Session Bufio Test TestProps DrainFacts.

Section WithMessages.

Variable i18n : string -> string -> string.

Definition startMessage (req : Request) : Msg :=
  mkMsg (Some "start-test")
        (Some ("<span class='start-test'>" ++ i18n (locale req) "start-test"
               ++ "</span>" ++ String newline "")%string)
        None None None.

(** The handler stops before it looks for the channel. *)
Definition rejectedBeforeStart (w : World) : bool :=
  sessionIsNew w || negb (decodeOk w) || negb (stdoutPipeOk w)
  || negb (stderrPipeOk w).

(** X17: an invocation that starts the test process waits for it right
    after the [go] statement, once, and keeps result code 0 whatever the
    exit status; around the process events the trace holds channel events
    only. *)
Theorem test_started_is_waited (w : World) (req : Request)
        (o : Outcome unit) (st : TaskState) :
  runTest i18n w req = (o, st) ->
  existsb isStart (trace st) = true ->
  exists pre fin,
    trace st = pre ++ Start testArgv :: Spawn :: Wait :: fin
    /\ forallb isChannelEvent (pre ++ fin) = true
    /\ o = Next tt /\ code st = 0 /\ forbidden st = false.
Proof.
  destruct w as [isNew dec outOk errOk started out err succ [lv sd]].
  unfold runTest, GoTestHandler, testTask.
  cbn [Test.sessionIsNew Test.decodeOk Test.stdoutPipeOk Test.stderrPipeOk
       Test.startOk Test.stdout Test.stderr Test.success Test.registry live].
  intros Hrun Hstart.
  destruct isNew, dec, outOk, errOk; run_task_in Hrun;
    try (injection Hrun as <- <-; discriminate Hstart).
  destruct (lv O); run_task_in Hrun;
    [destruct (sd O); run_task_in Hrun;
     [|injection Hrun as <- <-; discriminate Hstart]|];
    (destruct started; run_task_in Hrun;
     [|injection Hrun as <- <-; discriminate Hstart]);
    destruct succ; run_task_in Hrun;
    destruct (lv 1%nat); run_task_in Hrun; injection Hrun as <- <-;
    cbn [trace code forbidden];
    match goal with
    | |- exists pre fin, ?tr = _ /\ _ =>
        match tr with
        | context [Start testArgv :: Spawn :: Wait :: ?f] =>
            match tr with
            | Start _ :: _ => exists [], f
            | ?a :: ?b :: Start _ :: _ => exists [a; b], f
            end
        end
    end;
    splits; reflexivity.
Qed.

(** X18: when the test process was started but the registry holds no
    channel when the background task looks it up, the captured output is
    dropped: no completion message is sent, and nothing follows the wait. *)
Theorem test_output_dropped_without_channel (w : World) (req : Request)
        (o : Outcome unit) (st : TaskState) :
  runTest i18n w req = (o, st) ->
  existsb isStart (trace st) = true ->
  live (registry w) 1 = false ->
  filter isCompletion (sent (trace st)) = []
  /\ exists pre, trace st = pre ++ [Wait].
Proof.
  destruct w as [isNew dec outOk errOk started out err succ [lv sd]].
  unfold runTest, GoTestHandler, testTask.
  cbn [Test.sessionIsNew Test.decodeOk Test.stdoutPipeOk Test.stderrPipeOk
       Test.startOk Test.stdout Test.stderr Test.success Test.registry live].
  intros Hrun Hstart Hlive.
  destruct isNew, dec, outOk, errOk; run_task_in Hrun;
    try (injection Hrun as <- <-; discriminate Hstart).
  destruct (lv O); run_task_in Hrun;
    [destruct (sd O); run_task_in Hrun;
     [|injection Hrun as <- <-; discriminate Hstart]|];
    (destruct started; run_task_in Hrun;
     [|injection Hrun as <- <-; discriminate Hstart]);
    destruct succ; run_task_in Hrun; rewrite Hlive in Hrun;
    injection Hrun as <- <-; (split; [reflexivity|]);
    cbn [trace];
    match goal with
    | |- exists pre, [?a; ?b; ?c; ?d; Wait] = _ => exists [a; b; c; d]
    | |- exists pre, [?a; ?b; Wait] = _ => exists [a; b]
    end; reflexivity.
Qed.

(** X19: when the start announcement is delivered and [cmd.Start()] then
    fails, the client has been told that the test started although no
    process runs: the announcement is the only message, the result code is
    -1, and no completion message follows. *)
Theorem test_start_failure_after_announcement (w : World) (req : Request)
        (o : Outcome unit) (st : TaskState) :
  runTest i18n w req = (o, st) ->
  rejectedBeforeStart w = false ->
  live (registry w) 0 = true ->
  sendOk (registry w) 0 = true ->
  startOk w = false ->
  o = Returned
  /\ trace st = [WriteJSON (startMessage req) true; Refresh]
  /\ code st = -1.
Proof.
  destruct w as [isNew dec outOk errOk started out err succ [lv sd]].
  unfold runTest, GoTestHandler, rejectedBeforeStart.
  cbn [Test.sessionIsNew Test.decodeOk Test.stdoutPipeOk Test.stderrPipeOk
       Test.startOk Test.stdout Test.stderr Test.success Test.registry
       live sendOk].
  intros Hrun Hrej Hlive Hsend ->.
  destruct isNew, dec, outOk, errOk; try discriminate Hrej.
  run_task_in Hrun. rewrite Hlive in Hrun. run_task_in Hrun.
  rewrite Hsend in Hrun. run_task_in Hrun.
  injection Hrun as <- <-. splits; reflexivity.
Qed.

End WithMessages.

(** *** The theorems above at concrete invocations *)

Definition unseenRun : World :=
  mkWorld false true true true true
          (mkReader "ok" EOF) (mkReader "" EOF)
          true (mkRegistry (fun k => Nat.eqb k 0) (fun _ => true)).

Definition notStartable : World :=
  mkWorld false true true true false
          (mkReader "" EOF) (mkReader "" EOF)
          false testAlwaysLive.

Lemma test_started_is_waited_witness :
  exists pre fin,
    trace (snd (runTest testKeyText failingRun testRequest))
    = pre ++ Start testArgv :: Spawn :: Wait :: fin
    /\ forallb isChannelEvent (pre ++ fin) = true
    /\ fst (runTest testKeyText failingRun testRequest) = Next tt
    /\ code (snd (runTest testKeyText failingRun testRequest)) = 0
    /\ forbidden (snd (runTest testKeyText failingRun testRequest)) = false.
Proof.
  refine (test_started_is_waited testKeyText failingRun testRequest
            (fst (runTest testKeyText failingRun testRequest))
            (snd (runTest testKeyText failingRun testRequest)) _ _);
    vm_compute; reflexivity.
Defined.

Lemma test_output_dropped_without_channel_witness :
  filter isCompletion (sent (trace (snd (runTest testKeyText unseenRun testRequest)))) = []
  /\ exists pre, trace (snd (runTest testKeyText unseenRun testRequest)) = pre ++ [Wait].
Proof.
  refine (test_output_dropped_without_channel testKeyText unseenRun testRequest
            (fst (runTest testKeyText unseenRun testRequest))
            (snd (runTest testKeyText unseenRun testRequest)) _ _ _);
    vm_compute; reflexivity.
Defined.

Lemma test_start_failure_after_announcement_witness :
  fst (runTest testKeyText notStartable testRequest) = Returned
  /\ trace (snd (runTest testKeyText notStartable testRequest))
     = [WriteJSON (startMessage testKeyText testRequest) true; Refresh]
  /\ code (snd (runTest testKeyText notStartable testRequest)) = -1.
Proof.
  refine (test_start_failure_after_announcement testKeyText notStartable testRequest
            (fst (runTest testKeyText notStartable testRequest))
            (snd (runTest testKeyText notStartable testRequest)) _ _ _ _ _);
    vm_compute; reflexivity.
Defined.

End TestExtra.

(** * Properties of the file search, [file/files.go] *)

Module FilesProps.

Import GoString GoStringFacts Files.

Lemma Index_lower_bound (s t : string) : -1 <= Index s t.
Proof. unfold Index. destruct (GoString.find s t); lia. Qed.

Section entry_induction.

Variable P : entry -> Prop.
Hypothesis HFile : forall n c, P (File n c).
Hypothesis HDirNone : forall n, P (Dir n None).
Hypothesis HDirSome : forall n es, Forall P es -> P (Dir n (Some es)).

Fixpoint entry_ind (e : entry) : P e :=
  match e with
  | File n c => HFile n c
  | Dir n None => HDirNone n
  | Dir n (Some es) =>
      HDirSome n es
        ((fix all (l : list entry) : Forall P l :=
            match l with
            | [] => Forall_nil P
            | x :: l' => Forall_cons x (entry_ind x) (all l')
            end) es)
  end.

End entry_induction.

Lemma fold_left_accumulates {A B : Type} (f : list B -> A -> list B)
      (es : list A) :
  Forall (fun e => forall acc, f acc e = acc ++ f [] e) es ->
  forall acc, fold_left f es acc = acc ++ fold_left f es [].
Proof.
  induction 1 as [|e es He _ IH]; intros acc; simpl.
  - now rewrite app_nil_r.
  - rewrite (IH (f acc e)), (IH (f [] e)), (He acc). now rewrite app_assoc.
Qed.

Lemma fold_left_Forall {A B : Type} (Q : B -> Prop) (f : list B -> A -> list B)
      (es : list A) :
  Forall (fun e => forall acc, Forall Q acc -> Forall Q (f acc e)) es ->
  forall acc, Forall Q acc -> Forall Q (fold_left f es acc).
Proof.
  induction 1 as [|e es He _ IH]; intros acc Hacc; simpl; [assumption|].
  apply IH. now apply He.
Qed.

Section WithLibraries.

Variable ToLower : string -> string.
Variable IsBinary : string -> bool.
Variable PathSeparator : string.

(** What [searchLines] reports, line by line. *)
Lemma searchLines_In (path text : string) :
  forall (lines : list string) (idx : Z) (s : Snippet),
    In s (searchLines ToLower path text lines idx)
    <-> exists (i : nat) (line : string),
        nth_error lines i = Some line
        /\ Index (ToLower line) (ToLower text) <> -1
        /\ s = mkSnippet path (idx + Z.of_nat i + 1)
                         (Index (ToLower line) (ToLower text) + 1) [line].
Proof.
  induction lines as [|l rest IH]; intros idx s; cbn [searchLines].
  - split; [intros [] | intros (i & line & H & _)]. destruct i; discriminate.
  - destruct (Z.eqb_spec (-1) (Index (ToLower l) (ToLower text))) as [E|E];
      cbn [negb].
    + rewrite IH. split.
      * intros (i & line & Hn & Hi & ->). exists (S i), line.
        splits; [assumption | assumption | f_equal; lia].
      * intros (i & line & Hn & Hi & ->). destruct i as [|i].
        -- injection Hn as <-. congruence.
        -- exists i, line. splits; [assumption | assumption | f_equal; lia].
    + cbn [In]. rewrite IH. split.
      * intros [<- | (i & line & Hn & Hi & ->)].
        -- exists O, l. splits; [reflexivity | congruence |].
           unfold Filepath.ToSlash. f_equal; lia.
        -- exists (S i), line. splits; [assumption | assumption | f_equal; lia].
      * intros (i & line & Hn & Hi & ->). destruct i as [|i].
        -- injection Hn as <-. left. unfold Filepath.ToSlash. f_equal; lia.
        -- right. exists i, line. splits; [assumption | assumption | f_equal; lia].
Qed.

(** X20: [searchInFile] on a readable text file reports exactly the lines
    whose lower-cased text contains the lower-cased search text: one hit
    per such line, with the file path, the line number counted from 1, the
    column of the first occurrence counted from 1, and the line itself. *)
Theorem searchInFile_hits (c path text : string) (s : Snippet) :
  IsBinary c = false ->
  (In s (searchInFile ToLower IsBinary (Some c) path text)
   <-> exists (i : nat) (line : string),
       nth_error (Split c newline) i = Some line
       /\ Index (ToLower line) (ToLower text) <> -1
       /\ s = mkSnippet path (Z.of_nat i + 1)
                        (Index (ToLower line) (ToLower text) + 1) [line]).
Proof.
  intros Hb. unfold searchInFile. rewrite Hb.
  rewrite searchLines_In. split; intros (i & line & H1 & H2 & ->);
    exists i, line; splits; try assumption; f_equal; lia.
Qed.

Lemma searchLines_bounds (path text : string) :
  forall (lines : list string) (idx : Z),
    Forall (fun s => idx < Line s <= idx + Z.of_nat (List.length lines)
                     /\ 1 <= Ch s)
           (searchLines ToLower path text lines idx).
Proof.
  induction lines as [|l rest IH]; intros idx; cbn [searchLines].
  - constructor.
  - assert (Hrest : Forall (fun s => idx < Line s
                                     <= idx + Z.of_nat (List.length (l :: rest))
                                     /\ 1 <= Ch s)
                           (searchLines ToLower path text rest (idx + 1))).
    { eapply Forall_impl; [|apply IH]. cbn [List.length]. intros s H. lia. }
    destruct (Z.eqb_spec (-1) (Index (ToLower l) (ToLower text))) as [E|E];
      cbn [negb]; [assumption|].
    constructor; [|assumption]. cbn [Line Ch List.length].
    pose proof (Index_lower_bound (ToLower l) (ToLower text)). lia.
Qed.

Lemma searchLines_sorted (path text : string) :
  forall (lines : list string) (idx : Z),
    StronglySorted (fun a b => Line a < Line b)
                   (searchLines ToLower path text lines idx).
Proof.
  induction lines as [|l rest IH]; intros idx; cbn [searchLines].
  - constructor.
  - destruct (Z.eqb_spec (-1) (Index (ToLower l) (ToLower text))) as [E|E];
      cbn [negb]; [apply IH|].
    constructor; [apply IH|].
    eapply Forall_impl; [|apply (searchLines_bounds path text rest (idx + 1))].
    cbn [Line]. intros s H. lia.
Qed.

(** X21: the hits of [searchInFile] come in strictly increasing line order
    (so at most one per line), with line numbers between 1 and the number
    of lines of the file and columns from 1 on; an unreadable or binary
    file gives no hit. *)
Theorem searchInFile_ordered (content : option string) (path text : string) :
  StronglySorted (fun a b => Line a < Line b)
                 (searchInFile ToLower IsBinary content path text)
  /\ Forall (fun s =>
               exists c, content = Some c /\ IsBinary c = false
                         /\ 1 <= Line s <= Z.of_nat (List.length (Split c newline))
                         /\ 1 <= Ch s)
            (searchInFile ToLower IsBinary content path text).
Proof.
  unfold searchInFile. destruct content as [c|]; [|split; constructor].
  destruct (IsBinary c) eqn:Hb; [split; constructor|]. split.
  - apply searchLines_sorted.
  - eapply Forall_impl; [|apply (searchLines_bounds path text (Split c newline) 0)].
    intros s H. cbv beta in H. exists c. splits; try reflexivity; try assumption; lia.
Qed.

End WithLibraries.

(** A path that lies under [dir]: it starts with it. *)
Definition under (dir p : string) : Prop :=
  exists tail, p = (dir ++ tail)%string.

Lemma under_trans (a b p : string) : under a b -> under b p -> under a p.
Proof.
  intros (t1 & ->) (t2 & ->). exists (t1 ++ t2)%string.
  apply DrainFacts.append_assoc_string.
Qed.

Lemma under_app (a b : string) : under a (a ++ b).
Proof. now exists b. Qed.

(** The directories [find] does not enter, emptied at every depth. *)
Fixpoint prune (e : entry) : entry :=
  match e with
  | File n c => File n c
  | Dir n listing =>
      if Build.StrContains n defaultExcludesFind then Dir n None
      else Dir n (match listing with
                  | None => None
                  | Some es => Some (map prune es)
                  end)
  end.

Section Traversals.

Variable ToLower : string -> string.
Variable IsBinary : string -> bool.
Variable Match : string -> string -> option bool.
Variable PathSeparator : string.

Lemma under_withSeparator (dir : string) :
  under dir (withSeparator PathSeparator dir).
Proof.
  unfold withSeparator. destruct (negb _).
  - apply under_app.
  - exists EmptyString. symmetry. apply DrainFacts.append_nil_r.
Qed.

Lemma searchEntry_accumulates (extension text : string) :
  forall (e : entry) (dir : string) (acc : list Snippet),
    searchEntry ToLower IsBinary PathSeparator extension text dir e acc
    = acc ++ searchEntry ToLower IsBinary PathSeparator extension text dir e [].
Proof.
  induction e as [n c | n | n es IH] using entry_ind; intros dir acc;
    cbn [searchEntry].
  - destruct (HasSuffix _ _); [reflexivity | now rewrite app_nil_r].
  - now rewrite app_nil_r.
  - apply fold_left_accumulates.
    eapply Forall_impl; [|exact IH]. intros e He acc'. apply He.
Qed.

Definition goodHit (dir extension : string) (s : Snippet) : Prop :=
  under dir (Path s) /\ HasSuffix (Path s) extension = true.

Lemma searchLines_path (path text : string) :
  forall lines idx,
    Forall (fun s => Path s = path) (searchLines ToLower path text lines idx).
Proof.
  induction lines as [|l rest IH]; intros idx; cbn [searchLines].
  - constructor.
  - destruct (negb _); [constructor; [reflexivity|]|]; apply IH.
Qed.

Lemma searchInFile_path (content : option string) (path text : string) :
  Forall (fun s => Path s = path)
         (searchInFile ToLower IsBinary content path text).
Proof.
  unfold searchInFile. destruct content as [c|]; [|constructor].
  destruct (IsBinary c); [constructor | apply searchLines_path].
Qed.

Lemma fold_search_hits (extension text dir : string) (es : list entry) :
  Forall (fun e => forall d,
              Forall (goodHit d extension)
                     (searchEntry ToLower IsBinary PathSeparator extension text d e []))
         es ->
  Forall (goodHit dir extension)
         (fold_left (fun acc e =>
                       searchEntry ToLower IsBinary PathSeparator extension text
                                   dir e acc) es []).
Proof.
  intros IH. apply fold_left_Forall; [|constructor].
  eapply Forall_impl; [|exact IH]. intros e He acc Hacc.
  rewrite searchEntry_accumulates. apply Forall_app. split; [assumption | apply He].
Qed.

Lemma searchEntry_hits (extension text : string) :
  forall (e : entry) (dir : string),
    Forall (goodHit dir extension)
           (searchEntry ToLower IsBinary PathSeparator extension text dir e []).
Proof.
  induction e as [n c | n | n es IH] using entry_ind; intros dir;
    cbn [searchEntry].
  - destruct (HasSuffix (dir ++ n) extension) eqn:Hs; [|constructor].
    cbn [app]. eapply Forall_impl; [|apply searchInFile_path].
    intros s Hp. cbv beta in Hp. unfold goodHit. rewrite Hp.
    split; [apply under_app | exact Hs].
  - constructor.
  - eapply Forall_impl; [|apply (fold_search_hits _ _ _ _ IH)].
    intros s [Hu Hs]. split; [|exact Hs].
    eapply under_trans; [|exact Hu].
    eapply under_trans; [apply under_app | apply under_withSeparator].
Qed.

(** X22: [search] returns the snippets it was given, unchanged and in
    front, followed by hits that do not depend on them; every hit it adds is
    in a file whose path starts with [dir] and ends with [extension].  An
    unreadable directory adds nothing. *)
Theorem search_adds_hits_under_dir (dir : string) (listing : option (list entry))
        (extension text : string) (snippets : list Snippet) :
  search ToLower IsBinary PathSeparator dir listing extension text snippets
  = snippets
    ++ search ToLower IsBinary PathSeparator dir listing extension text []
  /\ Forall (goodHit dir extension)
            (search ToLower IsBinary PathSeparator dir listing extension text [])
  /\ search ToLower IsBinary PathSeparator dir None extension text snippets
     = snippets.
Proof.
  unfold search. destruct listing as [es|]; splits; try reflexivity.
  - apply fold_left_accumulates. apply Forall_forall.
    intros e _ acc. apply searchEntry_accumulates.
  - assert (H : Forall (fun e => forall d,
                          Forall (goodHit d extension)
                                 (searchEntry ToLower IsBinary PathSeparator
                                              extension text d e [])) es).
    { apply Forall_forall. intros e _ d. apply searchEntry_hits. }
    eapply Forall_impl; [|apply (fold_search_hits _ _ _ _ H)].
    intros s [Hu Hs]. split; [|exact Hs].
    eapply under_trans; [apply under_withSeparator | exact Hu].
  - now rewrite app_nil_r.
  - constructor.
Qed.

Lemma findEntry_accumulates (name : string) :
  forall (e : entry) (dir : string) (acc : list string),
    findEntry ToLower Match PathSeparator name dir e acc
    = acc ++ findEntry ToLower Match PathSeparator name dir e [].
Proof.
  induction e as [n c | n | n es IH] using entry_ind; intros dir acc;
    cbn [findEntry].
  - destruct (Match _ _) as [[|]|]; [reflexivity | |]; now rewrite app_nil_r.
  - destruct (Build.StrContains _ _); now rewrite app_nil_r.
  - destruct (Build.StrContains _ _); [now rewrite app_nil_r|].
    apply fold_left_accumulates.
    eapply Forall_impl; [|exact IH]. intros e He acc'. apply He.
Qed.

Lemma fold_left_ext_Forall {A B : Type} (f g : B -> A -> B) (es : list A) :
  Forall (fun e => forall acc, f acc e = g acc e) es ->
  forall acc, fold_left f es acc = fold_left g es acc.
Proof.
  induction 1 as [|e es He _ IH]; intros acc; simpl; [reflexivity|].
  now rewrite He, IH.
Qed.

Lemma findEntry_prune (name : string) :
  forall (e : entry) (dir : string) (acc : list string),
    findEntry ToLower Match PathSeparator name dir (prune e) acc
    = findEntry ToLower Match PathSeparator name dir e acc.
Proof.
  induction e as [n c | n | n es IH] using entry_ind; intros dir acc;
    cbn [prune].
  - reflexivity.
  - destruct (Build.StrContains n defaultExcludesFind) eqn:E;
      cbn [findEntry]; rewrite E; reflexivity.
  - destruct (Build.StrContains n defaultExcludesFind) eqn:E;
      cbn [findEntry]; rewrite E; [reflexivity|].
    revert acc. induction IH as [|e es He _ IHes]; intros acc; cbn [map fold_left].
    + reflexivity.
    + now rewrite He, IHes.
Qed.

(** X23: [find] never looks into a directory named in
    [defaultExcludesFind], at any depth below [dir]: emptying all such
    directories leaves its result unchanged. *)
Theorem find_ignores_excluded (dir : string) (es : list entry)
        (name : string) (results : list string) :
  find ToLower Match PathSeparator dir (Some (map prune es)) name results
  = find ToLower Match PathSeparator dir (Some es) name results.
Proof.
  unfold find. revert results.
  induction es as [|e es IH]; intros results; cbn [map fold_left].
  - reflexivity.
  - now rewrite findEntry_prune, IH.
Qed.

Lemma findEntry_under (name : string) :
  forall (e : entry) (dir : string),
    Forall (under dir) (findEntry ToLower Match PathSeparator name dir e []).
Proof.
  induction e as [n c | n | n es IH] using entry_ind; intros dir;
    cbn [findEntry].
  - destruct (Match _ _) as [[|]|]; try constructor; [apply under_app | constructor].
  - destruct (Build.StrContains _ _); constructor.
  - destruct (Build.StrContains _ _); [constructor|].
    assert (H : Forall (under (withSeparator PathSeparator (dir ++ n)))
                       (fold_left (fun acc e' =>
                                     findEntry ToLower Match PathSeparator name
                                       (withSeparator PathSeparator (dir ++ n)) e' acc)
                                  es [])).
    { apply fold_left_Forall; [|constructor].
      eapply Forall_impl; [|exact IH]. intros e He acc Hacc.
      rewrite findEntry_accumulates. apply Forall_app. split; [assumption | apply He]. }
    eapply Forall_impl; [|exact H]. intros p Hp.
    eapply under_trans; [|exact Hp].
    eapply under_trans; [apply under_app | apply under_withSeparator].
Qed.

(** X24: [find] returns the results it was given, unchanged and in front,
    followed by paths that all start with [dir]; when the directory cannot
    be read it returns what it was given. *)
Theorem find_adds_paths_under_dir (dir : string) (listing : option (list entry))
        (name : string) (results : list string) :
  find ToLower Match PathSeparator dir listing name results
  = results ++ find ToLower Match PathSeparator dir listing name []
  /\ Forall (under dir) (find ToLower Match PathSeparator dir listing name [])
  /\ find ToLower Match PathSeparator dir None name results = results.
Proof.
  unfold find. destruct listing as [es|]; splits; try reflexivity.
  - apply fold_left_accumulates. apply Forall_forall.
    intros e _ acc. apply findEntry_accumulates.
  - assert (H : Forall (under (withSeparator PathSeparator dir))
                       (fold_left (fun acc e =>
                                     findEntry ToLower Match PathSeparator name
                                       (withSeparator PathSeparator dir) e acc)
                                  es [])).
    { apply fold_left_Forall; [|constructor]. apply Forall_forall.
      intros e _ acc Hacc. rewrite findEntry_accumulates.
      apply Forall_app. split; [assumption | apply findEntry_under]. }
    eapply Forall_impl; [|exact H]. intros p Hp.
    eapply under_trans; [apply under_withSeparator | exact Hp].
  - now rewrite app_nil_r.
  - constructor.
Qed.

End Traversals.

(** *** Listing a directory *)

Lemma ascii_compare_lt_trans (x y z : ascii) :
  Ascii.compare x y = Lt -> Ascii.compare y z = Lt -> Ascii.compare x z = Lt.
Proof.
  unfold Ascii.compare. rewrite !N.compare_lt_iff. lia.
Qed.

Lemma string_leb_trans (a b c : string) :
  String.leb a b = true -> String.leb b c = true -> String.leb a c = true.
Proof.
  unfold String.leb. revert b c.
  induction a as [|x a IH]; intros [|y b] [|z c]; cbn [String.compare];
    try reflexivity; try discriminate.
  destruct (Ascii.compare x y) eqn:Exy; try discriminate.
  - apply Ascii.compare_eq_iff in Exy. subst y.
    destruct (Ascii.compare x z) eqn:Exz; try discriminate; [apply IH | reflexivity].
  - destruct (Ascii.compare y z) eqn:Eyz; try discriminate.
    + apply Ascii.compare_eq_iff in Eyz. subst z. rewrite Exy. reflexivity.
    + rewrite (ascii_compare_lt_trans _ _ _ Exy Eyz). reflexivity.
Qed.

Definition leString (a b : string) : Prop := String.leb a b = true.

Lemma insertSorted_perm (x : string) (l : list string) :
  Permutation (insertSorted x l) (x :: l).
Proof.
  induction l as [|y l IH]; cbn [insertSorted]; [reflexivity|].
  destruct (String.leb x y); [reflexivity|].
  rewrite IH. apply perm_swap.
Qed.

Lemma sortStrings_perm (l : list string) : Permutation (sortStrings l) l.
Proof.
  induction l as [|x l IH]; cbn [sortStrings fold_right]; [reflexivity|].
  fold (sortStrings l). rewrite insertSorted_perm. now constructor.
Qed.

Lemma insertSorted_sorted (x : string) (l : list string) :
  StronglySorted leString l -> StronglySorted leString (insertSorted x l).
Proof.
  induction 1 as [|y l Hl IH Hy]; cbn [insertSorted].
  - repeat constructor.
  - destruct (String.leb x y) eqn:E.
    + constructor; [now constructor|]. constructor; [exact E|].
      eapply Forall_impl; [|exact Hy]. intros z Hz.
      eapply string_leb_trans; eassumption.
    + constructor; [exact IH|].
      assert (Hyx : leString y x).
      { destruct (String.leb_total x y) as [H|H]; [congruence | exact H]. }
      eapply Permutation_Forall; [symmetry; apply insertSorted_perm|].
      now constructor.
Qed.

Lemma sortStrings_sorted (l : list string) :
  StronglySorted leString (sortStrings l).
Proof.
  induction l as [|x l IH]; cbn [sortStrings fold_right]; [constructor|].
  now apply insertSorted_sorted.
Qed.

Lemma StronglySorted_filter {A : Type} (R : A -> A -> Prop) (f : A -> bool)
      (l : list A) :
  StronglySorted R l -> StronglySorted R (filter f l).
Proof.
  induction 1 as [|x l Hl IH Hx]; cbn [filter]; [constructor|].
  destruct (f x); [|exact IH].
  constructor; [exact IH|].
  apply Forall_forall. intros y Hy. apply filter_In in Hy as [Hy _].
  rewrite Forall_forall in Hx. now apply Hx.
Qed.

Section Listing.

Variable lstat : string -> option FileInfo.
Variable dirname : string.

(** The names [listFiles] keeps as directories and as files. *)
Definition keptDir (name : string) : bool :=
  match lstat (Filepath.Join dirname name) with
  | Some fio =>
      IsDir fio
      && negb (String.eqb ".git" (Name fio) || String.eqb ".svn" (Name fio)
               || String.eqb ".hg" (Name fio))
  | None => false
  end.

Definition keptFile (name : string) : bool :=
  match lstat (Filepath.Join dirname name) with
  | Some fio => negb (IsDir fio) && negb (String.eqb ".DS_Store" (Name fio))
  | None => false
  end.

Lemma classify_filter (names dirs files : list string) :
  classify lstat dirname names dirs files
  = (dirs ++ filter keptDir names, files ++ filter keptFile names).
Proof.
  revert dirs files.
  induction names as [|n names IH]; intros dirs files;
    cbn [classify filter]; [now rewrite !app_nil_r|].
  unfold keptDir at 1, keptFile at 1.
  destruct (lstat (Filepath.Join dirname n)) as [fio|]; [|apply IH].
  destruct (IsDir fio); cbn [negb andb].
  - destruct (String.eqb ".git" (Name fio) || String.eqb ".svn" (Name fio)
              || String.eqb ".hg" (Name fio)); cbn [negb].
    + apply IH.
    + rewrite IH. now rewrite <- app_assoc.
  - destruct (String.eqb ".DS_Store" (Name fio)); cbn [negb].
    + apply IH.
    + rewrite IH. now rewrite <- app_assoc.
Qed.

(** X25: [listFiles] puts the directories in front of the files, each
    group in increasing byte order of the names; the first group holds only
    names whose [Lstat] says directory, the second only names whose [Lstat]
    says otherwise. *)
Theorem listFiles_directories_first (names : list string) :
  exists dirs files,
    listFiles lstat dirname names = dirs ++ files
    /\ StronglySorted leString dirs
    /\ StronglySorted leString files
    /\ Forall (fun n => exists fio, lstat (Filepath.Join dirname n) = Some fio
                                    /\ IsDir fio = true) dirs
    /\ Forall (fun n => exists fio, lstat (Filepath.Join dirname n) = Some fio
                                    /\ IsDir fio = false) files.
Proof.
  exists (filter keptDir (sortStrings names)), (filter keptFile (sortStrings names)).
  unfold listFiles. rewrite classify_filter. cbn [app]. splits.
  - reflexivity.
  - apply StronglySorted_filter, sortStrings_sorted.
  - apply StronglySorted_filter, sortStrings_sorted.
  - apply Forall_forall. intros n Hn. apply filter_In in Hn as [_ Hn].
    unfold keptDir in Hn.
    destruct (lstat (Filepath.Join dirname n)) as [fio|]; [|discriminate].
    exists fio. apply andb_true_iff in Hn as [Hd _]. now split.
  - apply Forall_forall. intros n Hn. apply filter_In in Hn as [_ Hn].
    unfold keptFile in Hn.
    destruct (lstat (Filepath.Join dirname n)) as [fio|]; [|discriminate].
    exists fio. apply andb_true_iff in Hn as [Hd _].
    apply negb_true_iff in Hd. now split.
Qed.

(** X26: a name is listed by [listFiles] exactly when the directory holds
    it, [Lstat] succeeds on it, and it is neither a directory reported as
    [.git], [.svn] or [.hg] nor a file reported as [.DS_Store]; names are
    neither added nor duplicated. *)
Theorem listFiles_membership (names : list string) (n : string) :
  (In n (listFiles lstat dirname names)
   <-> In n names
       /\ exists fio, lstat (Filepath.Join dirname n) = Some fio
                      /\ (if IsDir fio
                          then Name fio <> ".git" /\ Name fio <> ".svn"
                               /\ Name fio <> ".hg"
                          else Name fio <> ".DS_Store"))
  /\ (NoDup names -> NoDup (listFiles lstat dirname names)).
Proof.
  unfold listFiles. rewrite classify_filter. cbn [app]. split.
  - rewrite in_app_iff, !filter_In.
    assert (Hperm : In n (sortStrings names) <-> In n names).
    { split; apply Permutation_in;
        [apply sortStrings_perm | symmetry; apply sortStrings_perm]. }
    rewrite Hperm. unfold keptDir, keptFile.
    destruct (lstat (Filepath.Join dirname n)) as [fio|].
    + destruct (IsDir fio) eqn:Hd; cbn [negb andb].
      * rewrite negb_true_iff, !orb_false_iff, !String.eqb_neq. split.
        -- intros [[Hin ((H1 & H2) & H3)] | [_ Hf]]; [|discriminate].
           split; [assumption|]. exists fio. split; [reflexivity|]. rewrite Hd.
           splits; first [assumption | now apply not_eq_sym].
        -- intros [Hin (fio' & [= <-] & H)]. rewrite Hd in H.
           destruct H as (H1 & H2 & H3). left.
           split; [assumption|]. splits; first [assumption | now apply not_eq_sym].
      * rewrite negb_true_iff, String.eqb_neq. split.
        -- intros [[_ Hf] | [Hin H1]]; [discriminate|].
           split; [assumption|]. exists fio. rewrite Hd.
           split; [reflexivity | now apply not_eq_sym].
        -- intros [Hin (fio' & [= <-] & H1)]. rewrite Hd in H1. right.
           split; [assumption | now apply not_eq_sym].
    + split.
      * intros [[_ Hf] | [_ Hf]]; discriminate.
      * intros [_ (fio & Hf & _)]. discriminate.
  - intros Hnd.
    assert (Hs : NoDup (sortStrings names)).
    { eapply Permutation_NoDup; [symmetry; apply sortStrings_perm | exact Hnd]. }
    clear Hnd. induction Hs as [|x l Hx Hl IH]; cbn [filter]; [constructor|].
    unfold keptDir at 1, keptFile at 1.
    destruct (lstat (Filepath.Join dirname x)) as [fio|]; [|exact IH].
    assert (Hnot : ~ In x (filter keptDir l ++ filter keptFile l)).
    { rewrite in_app_iff, !filter_In. tauto. }
    destruct (IsDir fio); cbn [negb andb].
    + destruct (negb _); [|exact IH]. cbn [app]. now constructor.
    + destruct (negb _); [|exact IH].
      apply NoDup_Add with (a := x) (l := filter keptDir l ++ filter keptFile l);
        [apply Add_app | now split].
Qed.

End Listing.

(** X27: the CSS class [getIconSkin] returns always ends with a space, as
    the [IconSkin] field requires. *)
Theorem getIconSkin_ends_with_space (IsImg : string -> bool)
        (filenameExtension : string) :
  endsWith " "%char (getIconSkin IsImg filenameExtension) = true.
Proof.
  unfold getIconSkin.
  repeat match goal with
         | |- context [if ?b then _ else _] => destruct b
         end; reflexivity.
Qed.

(** *** The theorems above at a concrete file *)

Definition asIs (s : string) : string := s.

Definition neverBinary (s : string) : bool := false.

Definition twoLines : string :=
  String.append "package main" (String newline "func main() {}").

Lemma searchInFile_hits_witness :
  In (mkSnippet "/ws/src/a.go" 2 6 ["func main() {}"])
     (searchInFile asIs neverBinary (Some twoLines) "/ws/src/a.go" "main")
  <-> exists (i : nat) (line : string),
      nth_error (Split twoLines newline) i = Some line
      /\ Index (asIs line) (asIs "main") <> -1
      /\ mkSnippet "/ws/src/a.go" 2 6 ["func main() {}"]
         = mkSnippet "/ws/src/a.go" (Z.of_nat i + 1)
                     (Index (asIs line) (asIs "main") + 1) [line].
Proof.
  exact (searchInFile_hits asIs neverBinary twoLines "/ws/src/a.go" "main"
           (mkSnippet "/ws/src/a.go" 2 6 ["func main() {}"]) eq_refl).
Defined.

End FilesProps.

(** * Properties of the playground's build handler *)

Module PlaygroundProps.

Import GoString GoStringFacts Playground.

Lemma find_None_cons (c : ascii) (s old : string) :
  GoString.find (String c s) old = None ->
  HasPrefix (String c s) old = false /\ GoString.find s old = None.
Proof.
  cbn [GoString.find]. destruct (HasPrefix (String c s) old); [discriminate|].
  destruct (GoString.find s old); [discriminate | now split].
Qed.

Lemma replaceFrom_absent (old new : string) :
  forall s, GoString.find s old = None -> replaceFrom s old new O = s.
Proof.
  induction s as [|c s IH]; intros H; cbn [replaceFrom]; [reflexivity|].
  apply find_None_cons in H as [Hp Hf]. rewrite Hp. f_equal. now apply IH.
Qed.

(** X28: when the file name does not contain [.go], the executable the
    handler asks [go build] to write is the source file itself: the command
    run is [go build -o p p] for one and the same path [p]. *)
Theorem playground_output_over_source (dataDir : string) (w : World)
        (fileName : string) :
  sessionIsNew w = false ->
  decodeOk w = true ->
  Index fileName ".go" = -1 ->
  exists p, commands (BuildHandler dataDir w fileName)
            = [["go"; "build"; "-o"; p; p]].
Proof.
  intros Hs Hd Hi. unfold BuildHandler. rewrite Hs, Hd. cbn [negb].
  assert (Hr : ReplaceAll fileName ".go" "" = fileName).
  { apply replaceFrom_absent. unfold Index in Hi.
    destruct (GoString.find fileName ".go"); [lia | reflexivity]. }
  rewrite Hr.
  exists (Filepath.Clean (dataDir ++ "/playground/" ++ fileName)).
  destruct (goBuild w _) as [out failed]. destruct failed; reflexivity.
Qed.

Definition acceptsAll : World :=
  mkWorld false true (fun _ => (EmptyString, false)).

Lemma playground_output_over_source_witness :
  exists p, commands (BuildHandler "/data" acceptsAll "main")
            = [["go"; "build"; "-o"; p; p]].
Proof.
  exact (playground_output_over_source "/data" acceptsAll "main"
           eq_refl eq_refl eq_refl).
Defined.

End PlaygroundProps.
